(** * Itinerary map display: a shallow embedding of [utils/map_display.py]

    The module has two halves.  [create_itinerary_map] renders a list of
    place dictionaries as a folium map (markers, day-coloured connecting
    lines, a legend); [extract_places_from_plan] walks a travel plan and
    asks a places client for coordinates and photos.

    Python values are embedded as the inductive [pyval]; dictionaries are
    [gmap]s keyed by strings; exceptions are explicit ([result]); the
    places client is a pair of state-passing functions that may raise. *)

From Stdlib Require Import ZArith Ascii String Floats.PrimFloat Floats.SpecFloat Floats.FloatOps.
From stdpp Require Import gmap list sorting pretty.

Open Scope Z_scope.
Set Warnings "-inexact-float".

(** ** Strings

    A Python [str] is a sequence of Unicode code points: [len] counts code
    points and slicing cuts between them.  Literals of the source are ASCII
    and are written through [str]. *)

Abbreviation pystr := (list N).

Fixpoint str (s : string) : pystr :=
  match s with
  | EmptyString => []
  | String a s' => N_of_ascii a :: str s'
  end.

(** The double quote, a line break, and [n] blanks of indentation. *)
Definition dq : pystr := [34%N].
Definition nl : pystr := [10%N].
Definition sp (n : nat) : pystr := replicate n 32%N.

(** ** Values

    The values a place dictionary or a lookup response can hold: [None],
    [int], [float] (binary64), [str], [list] and [dict] with string keys.
    [bool] is left out. *)

Inductive pyval :=
| VNone
| VInt (z : Z)
| VFloat (f : float)
| VStr (s : pystr)
| VList (l : list pyval)
| VDict (d : gmap pystr pyval).

Abbreviation pydict := (gmap pystr pyval).

(** ** Exceptions and results

    An exception is the name of its class and its message, [str(e)].  The
    messages of the exceptions the interpreter itself raises are indicative;
    no property depends on them. *)

Record exn := Exn { exn_type : string; exn_msg : pystr }.

Inductive result (A : Type) :=
| Ok (a : A)
| Raise (e : exn).
Arguments Ok {A} a.
Arguments Raise {A} e.

#[global] Instance result_ret : MRet result := @Ok.
#[global] Instance result_bind : MBind result := λ A B f r,
  match r with
  | Ok a => f a
  | Raise e => Raise e
  end.

#[global] Instance result_fmap : FMap result := λ A B f r,
  match r with
  | Ok a => Ok (f a)
  | Raise e => Raise e
  end.

Definition TypeError (msg : string) : exn := Exn "TypeError" (str msg).
Definition AttributeError (msg : string) : exn := Exn "AttributeError" (str msg).
Definition KeyError (msg : string) : exn := Exn "KeyError" (str msg).
Definition OverflowError (msg : string) : exn := Exn "OverflowError" (str msg).

Definition is_ok {A} (r : result A) : bool :=
  match r with Ok _ => true | Raise _ => false end.

(** [for x in xs: f x], collecting what [f] produces; the first exception
    ends the loop. *)
Fixpoint map_result {A B} (f : A → result B) (xs : list A) : result (list B) :=
  match xs with
  | [] => Ok []
  | x :: xs' => y ← f x; ys ← map_result f xs'; Ok (y :: ys)
  end.

(** ** Built-in operations *)

(** [bool(v)]: [None], zero, the empty string, list and dict are falsy.
    A NaN is truthy, both float zeros are falsy. *)
Definition truthy (v : pyval) : bool :=
  match v with
  | VNone => false
  | VInt z => negb (z =? 0)
  | VFloat f => negb (PrimFloat.eqb f 0%float)
  | VStr s => negb (bool_decide (s = []))
  | VList l => match l with [] => false | _ => true end
  | VDict d => negb (bool_decide (d = ∅))
  end.

(** [v is None] *)
Definition is_None (v : pyval) : bool :=
  match v with VNone => true | _ => false end.

(** [d.get(k)] and [d.get(k, default)] *)
Definition dict_get (d : pydict) (k : string) : pyval :=
  default VNone (d !! str k).
Definition dict_get_default (d : pydict) (k : string) (dflt : pyval) : pyval :=
  default dflt (d !! str k).

(** [d[k]] *)
Definition dict_item (d : pydict) (k : string) : result pyval :=
  match d !! str k with
  | Some v => Ok v
  | None => Raise (KeyError k)
  end.

(** Decimal text of an [int], as [str(n)] gives it. *)
Definition format_int (z : Z) : pystr := str (pretty z).

(** *** Floats

    [int] to [float] rounds to nearest even and overflows beyond the
    binary64 range. *)
Definition float_of_Z (z : Z) : float :=
  SF2Prim (binary_normalize 53 1024 z 0 false).

Definition float_of_int (z : Z) : result float :=
  let f := float_of_Z z in
  if PrimFloat.is_infinity f
  then Raise (OverflowError "int too large to convert to float")
  else Ok f.

(** [a / b] on ints, for [b > 0]: the exact quotient, correctly rounded.
    The quotient is computed to at least 55 bits with a sticky last bit,
    then rounded once. *)
Definition int_truediv (a b : Z) : result float :=
  let k := Z.max 0 (Z.log2 b - Z.log2 (Z.abs a) + 55) in
  let n := Z.abs a * 2 ^ k in
  let m := 2 * (n / b) + (if n mod b =? 0 then 0 else 1) in
  let f := SF2Prim (binary_normalize 53 1024 (Z.sgn a * m) (- (k + 1)) false) in
  if PrimFloat.is_infinity f
  then Raise (OverflowError "integer division result too large for a float")
  else Ok f.

(** [acc + v] where [acc] is already a number, as in the loop of [sum]. *)
Definition py_add (acc v : pyval) : result pyval :=
  match acc, v with
  | VInt a, VInt b => Ok (VInt (a + b))
  | VInt a, VFloat b => fa ← float_of_int a; Ok (VFloat (fa + b))
  | VFloat a, VInt b => fb ← float_of_int b; Ok (VFloat (a + fb))
  | VFloat a, VFloat b => Ok (VFloat (a + b))
  | _, _ => Raise (TypeError "unsupported operand type(s) for +")
  end.

(** [sum(xs)]: starts from the int [0] and adds from left to right, as
    CPython does up to 3.11 (later versions also carry a correction term
    for floats, which can change the last bit of the sum). *)
Fixpoint sum_from (acc : pyval) (xs : list pyval) : result pyval :=
  match xs with
  | [] => Ok acc
  | x :: xs' => acc' ← py_add acc x; sum_from acc' xs'
  end.
Definition py_sum (xs : list pyval) : result pyval := sum_from (VInt 0) xs.

(** [total / n] for a number [total] and a length [n]. *)
Definition py_truediv_len (total : pyval) (n : nat) : result pyval :=
  match total, n with
  | VInt _, O | VFloat _, O =>
      Raise (Exn "ZeroDivisionError" (str "division by zero"))
  | VInt a, _ => f ← int_truediv a (Z.of_nat n); Ok (VFloat f)
  | VFloat a, _ => Ok (VFloat (a / float_of_Z (Z.of_nat n)))
  | _, _ => Raise (TypeError "unsupported operand type(s) for /")
  end.

(** [float] values that are whole numbers, with the int they equal
    ([1.0 == 1] holds in Python, and a set keeps one of the two). *)
Definition float_integer (f : float) : option Z :=
  match Prim2SF f with
  | S754_zero _ => Some 0
  | S754_finite s m e =>
      let sign := if s then -1 else 1 in
      if 0 <=? e then Some (sign * (Z.pos m * 2 ^ e))
      else if Z.pos m mod 2 ^ (- e) =? 0 then Some (sign * (Z.pos m / 2 ^ (- e)))
      else None
  | _ => None
  end.

(** *** Library functions left abstract

    [repr] of floats and containers and the Unicode case mappings of [str]
    are the interpreter's; the development holds for any choice of them. *)
Class Builtins := {
  py_repr : pyval → pystr;
  str_lower : pystr → pystr;
  str_capitalize : pystr → pystr;
}.

(** A replacement field [{v}] of an f-string. *)
Definition py_format `{Builtins} (v : pyval) : pystr :=
  match v with
  | VStr s => s
  | VInt z => format_int z
  | VNone => str "None"
  | _ => py_repr v
  end.

(** An instance to run examples with: case mapping on ASCII letters, and
    a fixed mark where [repr] would print a float or a container. *)
Definition ascii_lower (c : N) : N :=
  if ((65 <=? c) && (c <=? 90))%N then (c + 32)%N else c.
Definition ascii_upper (c : N) : N :=
  if ((97 <=? c) && (c <=? 122))%N then (c - 32)%N else c.
Definition ascii_builtins : Builtins := {|
  py_repr := λ _, str "<repr>";
  str_lower := map ascii_lower;
  str_capitalize := λ s,
    match s with
    | [] => []
    | c :: s' => ascii_upper c :: map ascii_lower s'
    end;
|}.

(** ** The folium objects the renderer builds

    The map library is used through its constructors only; an object is
    the record of the arguments it was built from, and a map also holds
    the children added to it, in order.

    The library checks the locations it is given: a location is two values
    that convert to a float and are not NaN, and a constructor raises on
    any other.  That check is the library's and is not modelled: the
    constructors below accept what they are given.  Where a statement says
    that a map is returned, it is made for coordinates that are finite
    floats ([plottable] below), on which the library and the model agree. *)

Abbreviation coord := (pyval * pyval)%type.

Record Marker := {
  marker_location : coord;
  popup_html : pystr;
  popup_max_width : Z;
  tooltip : pystr;
  icon_html : pystr;
  icon_size : Z * Z;
  icon_anchor : Z * Z;
}.

Record PolyLine := {
  locations : list coord;
  weight : Z;
  color : pystr;
  opacity : float;
  dash_array : pystr;
}.

Inductive child :=
| MarkerChild (mk : Marker)
| PolyLineChild (pl : PolyLine).

Record Map := {
  location : coord;
  zoom_start : Z;
  tiles : option pystr;
  children : list child;
  root_html : list pystr;
  bounds : option (list coord);
}.

(** [folium.Map(location=..., zoom_start=..., tiles=...)] *)
Definition folium_Map (loc : coord) (zoom : Z) (t : option pystr) : Map :=
  {| location := loc; zoom_start := zoom; tiles := t;
     children := []; root_html := []; bounds := None |}.

(** [x.add_to(m)] *)
Definition add_to (c : child) (m : Map) : Map :=
  {| location := location m; zoom_start := zoom_start m; tiles := tiles m;
     children := children m ++ [c]; root_html := root_html m;
     bounds := bounds m |}.

(** [m.get_root().html.add_child(folium.Element(html))] *)
Definition add_root_html (html : pystr) (m : Map) : Map :=
  {| location := location m; zoom_start := zoom_start m; tiles := tiles m;
     children := children m; root_html := root_html m ++ [html];
     bounds := bounds m |}.

(** [m.fit_bounds(cs)] *)
Definition fit_bounds (cs : list coord) (m : Map) : Map :=
  {| location := location m; zoom_start := zoom_start m; tiles := tiles m;
     children := children m; root_html := root_html m;
     bounds := Some cs |}.

Definition markers (m : Map) : list Marker :=
  omap (λ c, match c with MarkerChild mk => Some mk | _ => None end) (children m).
Definition polylines (m : Map) : list PolyLine :=
  omap (λ c, match c with PolyLineChild pl => Some pl | _ => None end) (children m).

(** ** Constants of the renderer *)

(** The centre of the map when there is nothing to show. *)
Definition fallback_center : coord := (VFloat 48.8566, VFloat 2.3522).

Definition day_colors : list pystr :=
  [ str "#e74c3c"; str "#3498db"; str "#2ecc71"; str "#9b59b6";
    str "#f39c12"; str "#1abc9c"; str "#e91e63" ].

Definition pin_icon : pystr := [0x1F4CD%N].
Definition time_icons : gmap pystr pystr :=
  <[ str "morning" := [0x1F305%N] ]>
  (<[ str "afternoon" := [0x2600%N; 0xFE0F%N] ]>
  (<[ str "evening" := [0x1F319%N] ]> ∅)).

(** [colors[(day - 1) % len(colors)]].  Only an int can index a list;
    Python's [%] takes the sign of the divisor, as [Z.modulo] does. *)
Definition day_color (colors : list pystr) (day : pyval) : result pystr :=
  match day with
  | VInt d =>
      if bool_decide (colors = [])
      then Raise (Exn "ZeroDivisionError" (str "integer modulo by zero"))
      else match colors !! Z.to_nat ((d - 1) mod Z.of_nat (length colors)) with
           | Some c => Ok c
           | None => Raise (Exn "IndexError" (str "list index out of range"))
           end
  | VFloat _ =>
      if bool_decide (colors = [])
      then Raise (Exn "ZeroDivisionError" (str "float modulo"))
      else Raise (TypeError "list indices must be integers or slices, not float")
  | _ => Raise (TypeError "unsupported operand type(s) for -")
  end.

(** ** Place dictionaries *)

Definition place_day (p : pydict) : pyval := dict_get_default p "day" (VInt 1).

Definition as_int (v : pyval) : result Z :=
  match v with
  | VInt z => Ok z
  | _ => Raise (TypeError "an integer is required")
  end.

(** [[place['latitude'], place['longitude']]] *)
Definition place_coord (p : pydict) : result coord :=
  lat ← dict_item p "latitude"; lng ← dict_item p "longitude"; Ok (lat, lng).

Section Renderer.
Context `{Builtins}.

(** ** [_create_popup_html] *)

(** [len(v)] *)
Definition py_len (v : pyval) : result nat :=
  match v with
  | VStr s => Ok (length s)
  | VList l => Ok (length l)
  | VDict d => Ok (size d)
  | _ => Raise (TypeError "object has no len()")
  end.

(** [description[:150] + "..."] *)
Definition truncate_description (description : pyval) : result pyval :=
  match description with
  | VStr s => Ok (VStr (take 150 s ++ str "..."))
  | VList _ => Raise (TypeError "can only concatenate list to list")
  | _ => Raise (TypeError "object is not subscriptable")
  end.

Definition photo_block (photo_url : pyval) : pystr :=
  concat [
    nl; sp 12; str "<img src="; dq; py_format photo_url; dq; nl; sp 17;
    str "style="; dq;
    str "width: 100%; height: 120px; object-fit: cover; border-radius: 8px; margin-bottom: 8px;";
    dq; nl; sp 17; str "onerror="; dq; str "this.style.display='none'"; dq;
    nl; sp 12; str "/>"; nl; sp 8 ].

Definition time_block (time_icon : pystr) (time_of_day : pyval) : result pystr :=
  match time_of_day with
  | VStr s =>
      Ok (concat [
        str "<span style="; dq; str "color: #666; font-size: 12px;"; dq;
        str ">"; time_icon; str " "; str_capitalize s; str "</span>" ])
  | _ => Raise (AttributeError "object has no attribute 'capitalize'")
  end.

Definition description_block (desc : pyval) : pystr :=
  concat [
    str "<p style="; dq; str "margin: 8px 0; color: #444; font-size: 12px;";
    dq; str ">"; py_format desc; str "</p>" ].

Definition popup_template
    (photo_html : pystr) (day : pyval) (time_html : pystr) (name : pyval)
    (description_html : pystr) : pystr :=
  concat [
    nl; sp 8; str "<div style="; dq;
    str "font-family: -apple-system, BlinkMacSystemFont, 'Segoe UI', Roboto, sans-serif; min-width: 200px;";
    dq; str ">"; nl; sp 12; photo_html; nl; sp 12; str "<div style="; dq;
    str "padding: 4px;"; dq; str ">"; nl; sp 16; str "<div style="; dq;
    str "display: flex; justify-content: space-between; align-items: center; margin-bottom: 4px;";
    dq; str ">"; nl; sp 20; str "<span style="; dq;
    str "background: #3498db; color: white; padding: 2px 8px; border-radius: 12px; font-size: 11px;";
    dq; str ">"; nl; sp 24; str "Day "; py_format day; nl; sp 20; str "</span>";
    nl; sp 20; time_html; nl; sp 16; str "</div>"; nl; sp 16;
    str "<h4 style="; dq; str "margin: 4px 0; color: #333; font-size: 14px;";
    dq; str ">"; py_format name; str "</h4>"; nl; sp 16; description_html; nl;
    sp 12; str "</div>"; nl; sp 8; str "</div>"; nl; sp 4 ].

Definition _create_popup_html
    (name description photo_url day time_of_day : pyval) (time_icon : pystr)
    : result pystr :=
  let photo_html := if truthy photo_url then photo_block photo_url else [] in
  time_html ← (if truthy time_of_day then time_block time_icon time_of_day
               else Ok []);
  description_html ←
    (if truthy description then
       n ← py_len description;
       desc ← (if bool_decide (150 < n)%nat then truncate_description description
               else Ok description);
       Ok (description_block desc)
     else Ok []);
  Ok (popup_template photo_html day time_html name description_html).

(** ** [_create_legend_html] *)

(** [sorted(set(days))].  Ints are deduplicated and put in ascending order.
    Any other value ends the call with a [TypeError], in [set] (a list or
    dict is unhashable), in [sorted] (mixed types do not compare) or in
    the loop that follows (it cannot index the palette); except a float
    that equals an int already seen, which the set drops. *)
Fixpoint day_set (seen : gset Z) (days : list pyval) : result (gset Z) :=
  match days with
  | [] => Ok seen
  | VInt d :: rest => day_set ({[ d ]} ∪ seen) rest
  | VFloat f :: rest =>
      match float_integer f with
      | Some d =>
          if bool_decide (d ∈ seen) then day_set seen rest
          else Raise (TypeError "list indices must be integers or slices, not float")
      | None => Raise (TypeError "list indices must be integers or slices, not float")
      end
  | _ :: _ => Raise (TypeError "unsupported operand type(s) for -")
  end.

Definition sorted_days (days : list pyval) : result (list Z) :=
  s ← day_set ∅ days; Ok (merge_sort Z.le (elements s)).

Definition legend_item (color : pystr) (day : Z) : pystr :=
  concat [
    nl; sp 12; str "<div style="; dq;
    str "display: flex; align-items: center; margin: 4px 0;"; dq; str ">";
    nl; sp 16; str "<div style="; dq; nl; sp 20; str "background-color: ";
    color; str ";"; nl; sp 20; str "width: 16px;"; nl; sp 20;
    str "height: 16px;"; nl; sp 20; str "border-radius: 50%;"; nl; sp 20;
    str "margin-right: 8px;"; nl; sp 16; dq; str "></div>"; nl; sp 16;
    str "<span>Day "; format_int day; str "</span>"; nl; sp 12; str "</div>"; nl;
    sp 8 ].

Definition legend_template (legend_items : pystr) : pystr :=
  concat [
    nl; sp 8; str "<div style="; dq; nl; sp 12; str "position: fixed;"; nl;
    sp 12; str "bottom: 30px;"; nl; sp 12; str "left: 30px;"; nl; sp 12;
    str "background: white;"; nl; sp 12; str "padding: 12px 16px;"; nl;
    sp 12; str "border-radius: 8px;"; nl; sp 12;
    str "box-shadow: 0 2px 10px rgba(0,0,0,0.2);"; nl; sp 12;
    str "z-index: 1000;"; nl; sp 12;
    str "font-family: -apple-system, BlinkMacSystemFont, 'Segoe UI', Roboto, sans-serif;";
    nl; sp 12; str "font-size: 13px;"; nl; sp 8; dq; str ">"; nl; sp 12;
    str "<div style="; dq; str "font-weight: bold; margin-bottom: 8px;"; dq;
    str ">Itinerary</div>"; nl; sp 12; legend_items; nl; sp 8;
    str "</div>"; nl; sp 4 ].

(** One entry of the legend: the swatch colour and the day it stands for. *)
Definition legend_entry (colors : list pystr) (day : Z) : result pystr :=
  color ← day_color colors (VInt day); Ok (legend_item color day).

Definition _create_legend_html (places : list pydict) (colors : list pystr)
    : result pystr :=
  days ← sorted_days (place_day <$> places);
  items ← map_result (legend_entry colors) days;
  Ok (legend_template (concat items)).

(** ** [create_itinerary_map] *)

(** The filter on coordinates: [p.get('latitude') and p.get('longitude')]. *)
Definition has_coordinates (p : pydict) : bool :=
  truthy (dict_get p "latitude") && truthy (dict_get p "longitude").

(** [sum(p[k] for p in ps)], continued from [acc]. *)
Fixpoint sum_key (k : string) (acc : pyval) (ps : list pydict) : result pyval :=
  match ps with
  | [] => Ok acc
  | p :: ps' => v ← dict_item p k; acc' ← py_add acc v; sum_key k acc' ps'
  end.

(** [sum(p[k] for p in ps) / len(ps)] *)
Definition average_key (k : string) (ps : list pydict) : result pyval :=
  total ← sum_key k (VInt 0) ps; py_truediv_len total (length ps).

Definition marker_icon (color : pystr) (number : Z) : pystr :=
  concat [
    nl; sp 20; str "<div style="; dq; nl; sp 24; str "background-color: ";
    color; str ";"; nl; sp 24; str "color: white;"; nl; sp 24;
    str "border-radius: 50%;"; nl; sp 24; str "width: 30px;"; nl; sp 24;
    str "height: 30px;"; nl; sp 24; str "display: flex;"; nl; sp 24;
    str "align-items: center;"; nl; sp 24; str "justify-content: center;";
    nl; sp 24; str "font-weight: bold;"; nl; sp 24; str "font-size: 12px;";
    nl; sp 24; str "border: 2px solid white;"; nl; sp 24;
    str "box-shadow: 0 2px 5px rgba(0,0,0,0.3);"; nl; sp 20; dq; str ">";
    format_int number; str "</div>"; nl; sp 16 ].

(** [time_icons.get(time_of_day.lower(), pin) if time_of_day else pin] *)
Definition time_icon_of (time_of_day : pyval) : result pystr :=
  if truthy time_of_day then
    match time_of_day with
    | VStr s => Ok (default pin_icon (time_icons !! str_lower s))
    | _ => Raise (AttributeError "object has no attribute 'lower'")
    end
  else Ok pin_icon.

(** The body of the marker loop for the place at index [i]. *)
Definition make_marker (i : nat) (place : pydict) : result Marker :=
  lat ← dict_item place "latitude";
  lng ← dict_item place "longitude";
  let name :=
    dict_get_default place "name" (VStr (str "Stop " ++ format_int (Z.of_nat i + 1))) in
  let description := dict_get_default place "description" (VStr []) in
  let photo_url := dict_get place "photo_url" in
  let day := place_day place in
  let time_of_day := dict_get_default place "time" (VStr []) in
  color ← day_color day_colors day;
  time_icon ← time_icon_of time_of_day;
  popup ← _create_popup_html name description photo_url day time_of_day time_icon;
  Ok {| marker_location := (lat, lng);
        popup_html := popup;
        popup_max_width := 300;
        tooltip := str "Day " ++ py_format day ++ str ": " ++ py_format name;
        icon_html := marker_icon color (Z.of_nat i + 1);
        icon_size := (30, 30);
        icon_anchor := (15, 15) |}.

(** [for i, place in enumerate(valid_places)], from index [i] on, with the
    map and [coordinates_for_line] as they stand. *)
Fixpoint add_markers (i : nat) (places : list pydict) (m : Map)
    (coordinates_for_line : list coord) : result (Map * list coord) :=
  match places with
  | [] => Ok (m, coordinates_for_line)
  | place :: rest =>
      mk ← make_marker i place;
      add_markers (S i) rest (add_to (MarkerChild mk) m)
        (coordinates_for_line ++ [marker_location mk])
  end.

(** [folium.PolyLine(day_coords, weight=3, color=color, opacity=0.7,
    dash_array='10')] for the day [day]. *)
Definition day_line (day_coords : list coord) (day : Z) : result PolyLine :=
  c ← day_color day_colors (VInt day);
  Ok {| locations := day_coords; weight := 3; color := c;
        opacity := 0.7%float; dash_array := str "10" |}.

(** The loop that groups the places by day.  A line is drawn when the day
    changes and [day_coords] is not empty; the next line then starts from
    the last point drawn.  Every day is an int here, the marker loop has
    indexed the palette with each of them. *)
Fixpoint lines_loop (places : list pydict) (current_day : Z)
    (day_coords : list coord) (m : Map) : result (Map * Z * list coord) :=
  match places with
  | [] => Ok (m, current_day, day_coords)
  | place :: rest =>
      day ← as_int (place_day place);
      coord ← place_coord place;
      match last day_coords with
      | Some last_point =>
          if negb (day =? current_day) then
            line ← day_line day_coords current_day;
            lines_loop rest day ([last_point] ++ [coord])
              (add_to (PolyLineChild line) m)
          else lines_loop rest current_day (day_coords ++ [coord]) m
      | None => lines_loop rest current_day (day_coords ++ [coord]) m
      end
  end.

Definition add_lines (valid_places : list pydict) (m : Map) : result Map :=
  match valid_places with
  | [] => Raise (Exn "IndexError" (str "list index out of range"))
  | first :: _ =>
      current_day ← as_int (place_day first);
      '(m, current_day, day_coords) ← lines_loop valid_places current_day [] m;
      match day_coords with
      | [] => Ok m
      | _ => line ← day_line day_coords current_day;
             Ok (add_to (PolyLineChild line) m)
      end
  end.

(** What the renderer puts on the map [m] once it is created: the markers,
    the connecting lines, the legend, and the bounds to fit. *)
Definition render_places (valid_places : list pydict) (m : Map) : result Map :=
  '(m, coordinates_for_line) ← add_markers 0 valid_places m [];
  m ← (if bool_decide (1 < length coordinates_for_line)%nat
       then add_lines valid_places m else Ok m);
  legend_html ← _create_legend_html valid_places day_colors;
  let m := add_root_html legend_html m in
  Ok (if bool_decide (1 < length coordinates_for_line)%nat
      then fit_bounds coordinates_for_line m else m).

Definition create_itinerary_map
    (places : list pydict) (center : option coord) (zoom : Z) : result Map :=
  match places with
  | [] => Ok (folium_Map fallback_center zoom None)
  | _ =>
    let valid_places := List.filter has_coordinates places in
    match valid_places with
    | [] => Ok (folium_Map fallback_center zoom None)
    | _ =>
      center ← match center with
               | None =>
                   avg_lat ← average_key "latitude" valid_places;
                   avg_lng ← average_key "longitude" valid_places;
                   Ok (avg_lat, avg_lng)
               | Some c => Ok c
               end;
      render_places valid_places
        (folium_Map center zoom (Some (str "cartodbpositron")))
    end
  end.

End Renderer.

(** ** The travel plan and the places client

    Modelled from the spec: the itinerary data model ([TravelPlan], its
    days and their activities) and the places client are declared outside
    this module.  The records below hold what the extractor reads: an
    ordered sequence of days, each with a number and three ordered
    activity lists; an activity with a name, an optional description and
    an optional location hint. *)

Record Activity := {
  activity_name : pystr;
  activity_description : option pystr;
  activity_location : option pystr;
}.

Record DayPlan := {
  day_number : Z;
  morning : list Activity;
  afternoon : list Activity;
  evening : list Activity;
}.

Record TravelPlan := {
  itinerary : list DayPlan;
}.

(** Modelled from the spec: the lookup collaborator,
    [search(query) -> ordered sequence of match records] and
    [resolve_photo(id) -> url | absent], where any failure surfaces as an
    exception.  A call may depend on and change the client's own state
    [St] (connections, quotas, what the service answers today), and a
    response may be any value. *)
Record PlacesClient (St : Type) := {
  search_places : pystr → St → result pyval * St;
  get_place_photo_url : pyval → St → result pyval * St;
}.
Arguments search_places {St} _ _ _.
Arguments get_place_photo_url {St} _ _ _.

(** The name of the type of a value, as the interpreter prints it. *)
Definition type_name (v : pyval) : string :=
  match v with
  | VNone => "NoneType"
  | VInt _ => "int"
  | VFloat _ => "float"
  | VStr _ => "str"
  | VList _ => "list"
  | VDict _ => "dict"
  end.

(** [v[0]].  The keys of a dict are strings here, so [0] is never one of
    them, and the text of a [KeyError] is its key. *)
Definition py_first (v : pyval) : result pyval :=
  match v with
  | VList (x :: _) => Ok x
  | VStr (c :: _) => Ok (VStr [c])
  | VList [] => Raise (Exn "IndexError" (str "list index out of range"))
  | VStr [] => Raise (Exn "IndexError" (str "string index out of range"))
  | VDict _ => Raise (KeyError "0")
  | _ => Raise (Exn "TypeError"
                  (str "'" ++ str (type_name v)
                   ++ str "' object is not subscriptable"))
  end.

(** [v.get(k, default)]: only a dict has the method. *)
Definition py_get (v : pyval) (k : string) (dflt : pyval) : result pyval :=
  match v with
  | VDict d => Ok (dict_get_default d k dflt)
  | _ => Raise (Exn "AttributeError"
                  (str "'" ++ str (type_name v)
                   ++ str "' object has no attribute 'get'"))
  end.

Section Extractor.
Context {St : Type}.

(** What a call of the extractor can change: the [place] dictionary under
    construction, the client's state, and the lines printed. *)
Record env := {
  place : pydict;
  client_state : St;
  stdout : list pystr;
}.

(** Computations that read and write [env] and may raise.  The state
    outlives an exception, as the heap does. *)
Definition M (A : Type) : Type := env → result A * env.

#[global] Instance M_ret : MRet M := λ A a s, (Ok a, s).
#[global] Instance M_bind : MBind M := λ A B f m s,
  match m s with
  | (Ok a, s') => f a s'
  | (Raise e, s') => (Raise e, s')
  end.

Definition lift {A} (r : result A) : M A := λ s, (r, s).

(** [try: body / except Exception as e: handler e].  Every [exn] stands
    for an instance of [Exception]; interrupts and exits are not modelled. *)
Definition try_except (body : M unit) (handler : exn → M unit) : M unit :=
  λ s, match body s with
       | (Ok x, s') => (Ok x, s')
       | (Raise e, s') => handler e s'
       end.

Definition print (line : pystr) : M unit := λ s,
  (Ok (), {| place := place s; client_state := client_state s;
             stdout := stdout s ++ [line] |}).

(** [place = {...}], [place[k] = v] and a read of [place] *)
Definition new_place (d : pydict) : M unit := λ s,
  (Ok (), {| place := d; client_state := client_state s; stdout := stdout s |}).
Definition set_item (k : string) (v : pyval) : M unit := λ s,
  (Ok (), {| place := <[str k := v]> (place s);
             client_state := client_state s; stdout := stdout s |}).
Definition get_place : M pydict := λ s, (Ok (place s), s).

(** The two calls of the client. *)
Definition call_search (c : PlacesClient St) (query : pystr) : M pyval := λ s,
  let '(r, st) := search_places c query (client_state s) in
  (r, {| place := place s; client_state := st; stdout := stdout s |}).
Definition call_photo (c : PlacesClient St) (place_id : pyval) : M pyval := λ s,
  let '(r, st) := get_place_photo_url c place_id (client_state s) in
  (r, {| place := place s; client_state := st; stdout := stdout s |}).

(** ** [_extract_place_info] *)

(** The body of the [try] block. *)
Definition lookup_place (c : PlacesClient St) (a : Activity) (loc : pystr)
    : M unit :=
  results ← call_search c (activity_name a ++ str " " ++ loc);
  if truthy results then
    best_match ← lift (py_first results);
    location ← lift (py_get best_match "location" (VDict ∅));
    lat ← lift (py_get location "lat" VNone);
    _ ← set_item "latitude" lat;
    lng ← lift (py_get location "lng" VNone);
    _ ← set_item "longitude" lng;
    place_id ← lift (py_get best_match "place_id" VNone);
    if truthy place_id then
      photo_url ← call_photo c place_id;
      if truthy photo_url then set_item "photo_url" photo_url else mret ()
    else mret ()
  else mret ().

Definition _extract_place_info (activity : Activity) (day : Z)
    (time_of_day : string) (places_client : option (PlacesClient St))
    : M (option pydict) :=
  _ ← new_place (
    <[str "name" := VStr (activity_name activity)]>
    (<[str "description" := VStr (default [] (activity_description activity))]>
    (<[str "day" := VInt day]>
    (<[str "time" := VStr (str time_of_day)]>
    (<[str "latitude" := VNone]>
    (<[str "longitude" := VNone]>
    (<[str "photo_url" := VNone]> ∅)))))));
  _ ← match places_client, activity_location activity with
      | Some c, Some (ch :: loc) =>
          try_except (lookup_place c activity (ch :: loc))
            (λ e, print (str "Error fetching place info for "
                         ++ activity_name activity ++ str ": " ++ exn_msg e))
      | _, _ => mret ()
      end;
  place ← get_place;
  latitude ← lift (dict_item place "latitude");
  longitude ← lift (dict_item place "longitude");
  if is_None latitude || is_None longitude then mret None
  else mret (Some place).

(** ** [extract_places_from_plan] *)

(** [for activity in activities: ...], appending to [places]. *)
Fixpoint slot_loop (activities : list Activity) (day_num : Z)
    (time_of_day : string) (places_client : option (PlacesClient St))
    (places : list pydict) : M (list pydict) :=
  match activities with
  | [] => mret places
  | activity :: rest =>
      found ← _extract_place_info activity day_num time_of_day places_client;
      match found with
      | Some p =>
          if truthy (VDict p)
          then slot_loop rest day_num time_of_day places_client (places ++ [p])
          else slot_loop rest day_num time_of_day places_client places
      | None => slot_loop rest day_num time_of_day places_client places
      end
  end.

(** [for day in plan.itinerary: ...] *)
Fixpoint days_loop (days : list DayPlan)
    (places_client : option (PlacesClient St)) (places : list pydict)
    : M (list pydict) :=
  match days with
  | [] => mret places
  | day :: rest =>
      let day_num := day_number day in
      places ← slot_loop (morning day) day_num "morning" places_client places;
      places ← slot_loop (afternoon day) day_num "afternoon" places_client places;
      places ← slot_loop (evening day) day_num "evening" places_client places;
      days_loop rest places_client places
  end.

Definition extract_places_from_plan (plan : option TravelPlan)
    (places_client : option (PlacesClient St)) : M (list pydict) :=
  match plan with
  | None => mret []
  | Some plan =>
      match itinerary plan with
      | [] => mret []
      | days => days_loop days places_client []
      end
  end.

End Extractor.

(** * Vocabulary of the properties

    What follows is not part of the program: these definitions name what
    the properties below state about it. *)

(** ** The popup *)

(** What the popup shows of a description. *)
Definition shown_description (description : pystr) : pystr :=
  if bool_decide (150 < length description)%nat
  then take 150 description ++ str "..."
  else description.

(** The paragraph of a popup that shows [text]. *)
Definition paragraph_of (text : pystr) : pystr :=
  str "<p style=" ++ dq ++ str "margin: 8px 0; color: #444; font-size: 12px;"
  ++ dq ++ str ">" ++ text ++ str "</p>".

(** ** Maps and the palette *)

(** The map [m] with the children [cs] added after its own. *)
Definition add_all (cs : list child) (m : Map) : Map :=
  {| location := location m; zoom_start := zoom_start m; tiles := tiles m;
     children := children m ++ cs; root_html := root_html m;
     bounds := bounds m |}.

(** The colour of a day: index [(day - 1) mod 7] of the palette. *)
Definition palette_color (day : Z) : pystr :=
  default [] (day_colors !! Z.to_nat ((day - 1) mod 7)).

(** The coordinates and the day of a place, as the loops read them. *)
Definition place_point (p : pydict) : coord :=
  (dict_get p "latitude", dict_get p "longitude").

Definition day_of (p : pydict) : Z :=
  match place_day p with VInt d => d | _ => 1 end.

(** The day and the coordinates of each place, in order. *)
Definition place_records (ps : list pydict) : list (Z * coord) :=
  (λ p, (day_of p, place_point p)) <$> ps.

(** ** Runs of days and the lines that connect them *)

(** The maximal runs of consecutive records with the same day: each run
    is a day with the coordinates of its records, in order. *)
Fixpoint day_runs (records : list (Z * coord)) : list (Z * list coord) :=
  match records with
  | [] => []
  | (d, c) :: rest =>
      match day_runs rest with
      | (d', cs) :: runs =>
          if d =? d' then (d, c :: cs) :: runs
          else (d, [c]) :: (d', cs) :: runs
      | [] => [(d, [c])]
      end
  end.

(** The coordinates drawn for each run: its own points, after the last
    point of the run before it (none before the first). *)
Fixpoint seeded_runs (seed : option coord) (runs : list (Z * list coord))
    : list (Z * list coord) :=
  match runs with
  | [] => []
  | (d, cs) :: rest => (d, option_list seed ++ cs) :: seeded_runs (last cs) rest
  end.

(** The dashed line of a run, in the colour of its day. *)
Definition line_of_run (run : Z * list coord) : PolyLine :=
  {| locations := run.2; weight := 3; color := palette_color run.1;
     opacity := 0.7%float; dash_array := str "10" |}.

(** The records of the runs, put back in sequence. *)
Definition run_records (runs : list (Z * list coord)) : list (Z * coord) :=
  runs ≫= λ run, (λ c, (run.1, c)) <$> run.2.

(** No two neighbours are equal. *)
Fixpoint changes_at_each_step (days : list Z) : Prop :=
  match days with
  | d :: ((d' :: _) as rest) => d ≠ d' ∧ changes_at_each_step rest
  | _ => True
  end.

(** The lines that connect the places: one per run of days when there
    are two places or more, none otherwise. *)
Definition connecting_lines (valid_places : list pydict) : list PolyLine :=
  if bool_decide (1 < length valid_places)%nat
  then line_of_run <$> seeded_runs None (day_runs (place_records valid_places))
  else [].

(** ** The legend *)

(** The ints among some values. *)
Definition int_values (vs : list pyval) : list Z :=
  omap (λ v, match v with VInt d => Some d | _ => None end) vs.

(** The distinct days of the places, in ascending order. *)
Definition distinct_days (places : list pydict) : list Z :=
  merge_sort Z.le (elements (list_to_set (int_values (place_day <$> places)) : gset Z)).

(** An entry of the legend: the swatch and the label of a day. *)
Definition legend_entry_html (day : Z) : pystr :=
  legend_item (palette_color day) day.

(** ** The centre *)

(** The arithmetic mean of some numbers, in Python's arithmetic: their
    sum, divided by how many they are. *)
Definition arithmetic_mean (xs : list pyval) : result pyval :=
  total ← py_sum xs; py_truediv_len total (length xs).

(** ** Places the renderer accepts *)

(** A value that is a string, or else is falsy. *)
Definition text_or_falsy (v : pyval) : Prop :=
  truthy v = false ∨ ∃ s, v = VStr s.

(** A place the marker loop can draw: its day is an int, and its time and
    description, when given, are strings. *)
Definition drawable (p : pydict) : Prop :=
  (∃ d, place_day p = VInt d)
  ∧ text_or_falsy (dict_get_default p "time" (VStr []))
  ∧ text_or_falsy (dict_get_default p "description" (VStr [])).

(** A place whose coordinates are both floats. *)
Definition float_coordinates (p : pydict) : Prop :=
  ∃ lat lng, dict_get p "latitude" = VFloat lat ∧ dict_get p "longitude" = VFloat lng.

(** A coordinate that is a finite float, and a place with two of them. *)
Definition finite_number (v : pyval) : bool :=
  match v with
  | VFloat f => negb (PrimFloat.is_nan f) && negb (PrimFloat.is_infinity f)
  | _ => false
  end.

Definition plottable (p : pydict) : bool :=
  finite_number (dict_get p "latitude") && finite_number (dict_get p "longitude").

(** ** Coordinates that are zero *)

(** Both coordinates are there: neither is missing or [None]. *)
Definition both_present (p : pydict) : bool :=
  negb (is_None (dict_get p "latitude")) && negb (is_None (dict_get p "longitude")).

(** The number zero, as an int or as a float of either sign. *)
Definition is_zero_number (v : pyval) : bool :=
  match v with
  | VInt z => z =? 0
  | VFloat f => PrimFloat.eqb f 0%float
  | _ => false
  end.

Definition zero_coordinate (p : pydict) : bool :=
  is_zero_number (dict_get p "latitude") || is_zero_number (dict_get p "longitude").

(** ** The extractor *)

(** The dictionary an activity starts from: no coordinates, no photo. *)
Definition fresh_place (a : Activity) (day : Z) (time_of_day : string) : pydict :=
  <[str "name" := VStr (activity_name a)]>
  (<[str "description" := VStr (default [] (activity_description a))]>
  (<[str "day" := VInt day]>
  (<[str "time" := VStr (str time_of_day)]>
  (<[str "latitude" := VNone]>
  (<[str "longitude" := VNone]>
  (<[str "photo_url" := VNone]> ∅)))))).

(** The dictionary with the coordinates of a match stored in it. *)
Definition located_place (a : Activity) (day : Z) (time_of_day : string)
    (location : pydict) : pydict :=
  <[str "longitude" := dict_get location "lng"]>
  (<[str "latitude" := dict_get location "lat"]>
   (fresh_place a day time_of_day)).

(** The line printed when a lookup fails. *)
Definition error_line (a : Activity) (e : exn) : pystr :=
  str "Error fetching place info for " ++ activity_name a ++ str ": " ++ exn_msg e.

(** What [_extract_place_info] returns for the dictionary it has built. *)
Definition place_or_None (p : pydict) : option pydict :=
  if is_None (dict_get p "latitude") || is_None (dict_get p "longitude")
  then None else Some p.

(** The state an activity is looked up from. *)
Definition lookup_start {St} (a : Activity) (day : Z) (time_of_day : string)
    (s : env (St := St)) : env :=
  {| place := fresh_place a day time_of_day;
     client_state := client_state s; stdout := stdout s |}.

(** The state in which [_extract_place_info] leaves its caller: the one
    after the lookup, if there was one. *)
Definition after_lookup {St} (a : Activity) (day : Z) (time_of_day : string)
    (places_client : option (PlacesClient St)) (s : env (St := St)) : env :=
  let s0 := lookup_start a day time_of_day s in
  match places_client, activity_location a with
  | Some c, Some (ch :: loc) =>
      (try_except (lookup_place c a (ch :: loc)) (λ e, print (error_line a e)) s0).2
  | _, _ => s0
  end.

(** A computation that only adds keys to [place]. *)
Definition keeps_keys {St A} (m : M (St := St) A) : Prop :=
  ∀ s r s', m s = (r, s') → dom (place s) ⊆ dom (place s').

(** Every activity of a plan, over its days and their three slots. *)
Definition day_activities (day : DayPlan) : list Activity :=
  morning day ++ afternoon day ++ evening day.

Definition plan_activities (plan : option TravelPlan) : list Activity :=
  match plan with
  | None => []
  | Some plan => itinerary plan ≫= day_activities
  end.

(** The client state and the output are as they were. *)
Definition untouched {St} : relation (env (St := St)) :=
  λ s s', client_state s' = client_state s ∧ stdout s' = stdout s.

(** No constraint between the two states. *)
Definition anything {St} : relation (env (St := St)) := λ _ _, True.

(** Activities for which no coordinates are found leave the list as it is.
    [R] relates the state before to the state after. *)
Definition finds_nothing {St} (R : relation (env (St := St)))
    (c : option (PlacesClient St)) (a : Activity) : Prop :=
  ∀ day time_of_day s,
    place_or_None (place (after_lookup a day time_of_day c s)) = None
    ∧ R s (after_lookup a day time_of_day c s).

(** A client whose every call raises. *)
Definition always_raises {St} (c : PlacesClient St) : Prop :=
  (∀ query st, ∃ e st', search_places c query st = (Raise e, st'))
  ∧ (∀ place_id st, ∃ e st', get_place_photo_url c place_id st = (Raise e, st')).

(** ** Markers *)

(** The name shown for the place at index [i] of the filtered list: its
    own, or "Stop" and its number. *)
Definition place_name (i : nat) (p : pydict) : pyval :=
  dict_get_default p "name" (VStr (str "Stop " ++ format_int (Z.of_nat i + 1))).

(** A description the popup can show: falsy, a string, or a list or dict
    of at most 150 items. *)
Definition showable_description (v : pyval) : Prop :=
  truthy v = false
  ∨ (∃ s, v = VStr s)
  ∨ (∃ l, v = VList l ∧ (length l ≤ 150)%nat)
  ∨ (∃ d, v = VDict d ∧ (size d ≤ 150)%nat).

(** A place for which the body of the marker loop does not raise. *)
Definition marker_ready (p : pydict) : Prop :=
  (∃ d, place_day p = VInt d)
  ∧ text_or_falsy (dict_get_default p "time" (VStr []))
  ∧ showable_description (dict_get_default p "description" (VStr [])).

(** The points of the lines with the carried-over first point of every
    line but the first left out. *)
Definition own_points (lines : list PolyLine) : list coord :=
  match lines with
  | [] => []
  | first :: others => locations first ++ (others ≫= λ l, drop 1 (locations l))
  end.

(** ** Pieces of text *)

(** [piece] occurs in [whole], between what comes before and after. *)
Definition occurs_in {A} (piece whole : list A) : Prop :=
  ∃ pre post, whole = pre ++ piece ++ post.

(** ** The slots of a plan *)

(** An activity with the number of its day and the name of its slot. *)
Definition slot : Type := Activity * Z * string.

(** The slots of a day and of a plan, in the order the loops visit them. *)
Definition day_slots (day : DayPlan) : list slot :=
  ((λ a, (a, day_number day, "morning")) <$> morning day)
  ++ ((λ a, (a, day_number day, "afternoon")) <$> afternoon day)
  ++ ((λ a, (a, day_number day, "evening")) <$> evening day).

Definition plan_slots (plan : option TravelPlan) : list slot :=
  match plan with
  | None => []
  | Some plan => itinerary plan ≫= day_slots
  end.

(** The slots visited one after the other: each lookup starts from the
    state the one before has left, and the place it finds, if any, is
    appended. *)
Fixpoint visit {St} (c : option (PlacesClient St)) (slots : list slot)
    (places : list pydict) (s : env (St := St)) : list pydict * env :=
  match slots with
  | [] => (places, s)
  | (a, day, time_of_day) :: rest =>
      let s' := after_lookup a day time_of_day c s in
      visit c rest (places ++ option_list (place_or_None (place s'))) s'
  end.

(** The keys of a place dictionary of the extractor. *)
Definition place_keys : gset pystr :=
  list_to_set (str <$> ["name"; "description"; "day"; "time"; "latitude";
                        "longitude"; "photo_url"]).

(** The record [p] is the one of the slot: it has the seven keys, the name
    and the description of the activity, the number of the day, the name
    of the slot, and both coordinates. *)
Definition describes (x : slot) (p : pydict) : Prop :=
  dom p = place_keys
  ∧ dict_get p "name" = VStr (activity_name x.1.1)
  ∧ dict_get p "description" = VStr (default [] (activity_description x.1.1))
  ∧ dict_get p "day" = VInt x.1.2
  ∧ dict_get p "time" = VStr (str x.2)
  ∧ both_present p = true.

(** The query sent for an activity, if it has a location hint. *)
Definition search_query (a : Activity) : option pystr :=
  match activity_location a with
  | Some (ch :: loc) => Some (activity_name a ++ str " " ++ ch :: loc)
  | _ => None
  end.

(** The location of the first match of a response: the response is a
    truthy value, its first item is a dict, and what that dict holds under
    "location" (an empty dict if nothing) is a dict. *)
Definition matched_location (response : result pyval) : option pydict :=
  match response with
  | Ok results =>
      if truthy results then
        match py_first results with
        | Ok (VDict best) =>
            match dict_get_default best "location" (VDict ∅) with
            | VDict location => Some location
            | _ => None
            end
        | _ => None
        end
      else None
  | Raise _ => None
  end.

(** The states in which the slots are visited: the lookup of a slot
    starts from the state in which [_extract_place_info] has left the one
    before. *)
Fixpoint trace {St} (c : option (PlacesClient St)) (slots : list slot)
    (s : env (St := St)) : list env :=
  match slots with
  | [] => []
  | (a, day, time_of_day) :: rest =>
      s :: trace c rest (_extract_place_info a day time_of_day c s).2
  end.

(** The exception of a value without the method [get]. *)
Definition no_get_method (v : pyval) : exn :=
  Exn "AttributeError"
    (str "'" ++ str (type_name v) ++ str "' object has no attribute 'get'").

(** The exception that ends the lookup of an activity from the state [s],
    if one does: the one the search raises, the one of a response without
    a first item, of a first item or a location that is not a dict, or the
    one the photo request raises. *)
Definition lookup_exception {St} (c : option (PlacesClient St)) (a : Activity)
    (s : env (St := St)) : option exn :=
  match c, search_query a with
  | Some c, Some query =>
      match search_places c query (client_state s) with
      | (Raise e, _) => Some e
      | (Ok results, st) =>
          if truthy results then
            match py_first results with
            | Raise e => Some e
            | Ok (VDict best) =>
                match dict_get_default best "location" (VDict ∅) with
                | VDict _ =>
                    if truthy (dict_get best "place_id") then
                      match get_place_photo_url c (dict_get best "place_id") st with
                      | (Raise e, _) => Some e
                      | (Ok _, _) => None
                      end
                    else None
                | location => Some (no_get_method location)
                end
            | Ok best => Some (no_get_method best)
            end
          else None
      end
  | _, _ => None
  end.

(** The identifier a photo is asked for after a response to the search:
    the "place_id" of the first match, when that match has a location and
    the identifier is truthy. *)
Definition photo_request (response : result pyval) : option pyval :=
  match response with
  | Ok results =>
      if truthy results then
        match py_first results with
        | Ok (VDict best) =>
            match dict_get_default best "location" (VDict ∅) with
            | VDict _ =>
                if truthy (dict_get best "place_id")
                then Some (dict_get best "place_id") else None
            | _ => None
            end
        | _ => None
        end
      else None
  | Raise _ => None
  end.

(** A client that records the calls it receives, after its own state. *)
Inductive call :=
| SearchCall (query : pystr)
| PhotoCall (place_id : pyval).

Definition logged {St} (c : PlacesClient St) : PlacesClient (St * list call) :=
  {| search_places := λ query st,
       let '(r, st') := search_places c query st.1 in
       (r, (st', st.2 ++ [SearchCall query]));
     get_place_photo_url := λ place_id st,
       let '(r, st') := get_place_photo_url c place_id st.1 in
       (r, (st', st.2 ++ [PhotoCall place_id])) |}.

Definition searches (calls : list call) : list pystr :=
  omap (λ x, match x with SearchCall q => Some q | PhotoCall _ => None end) calls.

(** The calls that the lookup of an activity makes to a client in the
    state [st]: the search, and the photo request its response leads to. *)
Definition calls_of {St} (c : PlacesClient St) (a : Activity) (st : St)
    : list call :=
  match search_query a with
  | Some query =>
      SearchCall query
      :: (PhotoCall <$> option_list (photo_request (search_places c query st).1))
  | None => []
  end.

(** The state of a run with a recording client, without the record. *)
Definition erase {St} (s : env (St := St * list call)) : env (St := St) :=
  {| place := place s; client_state := (client_state s).1; stdout := stdout s |}.

(** A computation with a recording client does what [m'] does with the
    client itself. *)
Definition simulates {St A} (m : M (St := St * list call) A)
    (m' : M (St := St) A) : Prop :=
  ∀ s, (m s).1 = (m' (erase s)).1 ∧ erase (m s).2 = (m' (erase s)).2.

(** * Examples *)

(** ** Places *)

(** A place dictionary with the keys the renderer reads. *)
Definition stop (name : string) (lat lng : float) (day : Z) (time : string)
    : pydict :=
  <[str "name" := VStr (str name)]>
  (<[str "latitude" := VFloat lat]>
  (<[str "longitude" := VFloat lng]>
  (<[str "day" := VInt day]>
  (<[str "time" := VStr (str time)]> ∅)))).

(** Four stops whose days run 1, 1, 2, 1. *)
Definition four_stops : list pydict :=
  [ stop "Louvre" 48.8606 2.3376 1 "morning";
    stop "Notre-Dame" 48.853 2.3499 1 "afternoon";
    stop "Versailles" 48.8049 2.1204 2 "morning";
    stop "Montmartre" 48.8867 2.3431 1 "evening" ].

(** The map rendered for them. *)
Definition four_stops_map : Map :=
  match create_itinerary_map (H := ascii_builtins) four_stops None 12 with
  | Ok m => m
  | Raise _ => folium_Map fallback_center 12 None
  end.

(** Two stops. *)
Definition two_stops : list pydict :=
  [ stop "Lille" 50 3 1 "morning"; stop "Orleans" 48 2 1 "evening" ].

(** A single stop whose latitude is written as text. *)
Definition text_stop : list pydict :=
  [ <[str "latitude" := VStr (str "50.63")]> (stop "Lille" 50 3 1 "morning") ].

(** A stop on the equator, and the activity and plan that lead there. *)
Definition equator_stop : pydict :=
  stop "Equator monument" 0 (-78.4558) 1 "morning".

(** ** Plans *)

(** Activities: with a location hint, without one, with an empty one. *)
Definition louvre : Activity :=
  {| activity_name := str "Louvre";
     activity_description := Some (str "Art museum");
     activity_location := Some (str "Paris") |}.

Definition picnic : Activity :=
  {| activity_name := str "Picnic";
     activity_description := None;
     activity_location := None |}.

Definition stroll : Activity :=
  {| activity_name := str "Evening stroll";
     activity_description := Some [];
     activity_location := Some [] |}.

Definition versailles : Activity :=
  {| activity_name := str "Versailles";
     activity_description := Some (str "Palace and gardens");
     activity_location := Some (str "Versailles") |}.

Definition monument : Activity :=
  {| activity_name := str "Equator monument";
     activity_description := None;
     activity_location := Some (str "Quito") |}.

(** Plans: two days in Paris, a day without any location hint, and two
    plans of a single activity. *)
Definition paris_plan : TravelPlan :=
  {| itinerary :=
       [ {| day_number := 1; morning := [louvre]; afternoon := [picnic];
            evening := [stroll] |};
         {| day_number := 2; morning := [versailles]; afternoon := [];
            evening := [] |} ] |}.

Definition idle_plan : TravelPlan :=
  {| itinerary :=
       [ {| day_number := 1; morning := [picnic]; afternoon := [stroll];
            evening := [picnic] |} ] |}.

Definition louvre_plan : TravelPlan :=
  {| itinerary :=
       [ {| day_number := 1; morning := [louvre]; afternoon := [];
            evening := [] |} ] |}.

Definition quito_plan : TravelPlan :=
  {| itinerary :=
       [ {| day_number := 1; morning := [monument]; afternoon := [];
            evening := [] |} ] |}.

(** ** Clients *)

(** The state of the example clients counts the calls made. *)
Definition start : env (St := nat) :=
  {| place := ∅; client_state := 0%nat; stdout := [] |}.

(** A client without network: every call raises. *)
Definition offline_client : PlacesClient nat :=
  {| search_places := λ _ n,
       (Raise (Exn "ConnectionError" (str "network unreachable")), S n);
     get_place_photo_url := λ _ n,
       (Raise (Exn "ConnectionError" (str "network unreachable")), S n) |}.

(** A client that finds every place at the Louvre but whose photo service
    is down. *)
Definition louvre_location : pydict :=
  <[str "lat" := VFloat 48.8606]> (<[str "lng" := VFloat 2.3376]> ∅).

Definition louvre_best : pydict :=
  <[str "location" := VDict louvre_location]>
  (<[str "place_id" := VStr (str "louvre-id")]> ∅).

Definition louvre_match : pyval := VDict louvre_best.

Definition photo_down_client : PlacesClient nat :=
  {| search_places := λ _ n, (Ok (VList [louvre_match]), S n);
     get_place_photo_url := λ _ n,
       (Raise (Exn "TimeoutError" (str "photo service timed out")), S n) |}.

(** A client whose search answers with a text instead of a list. *)
Definition garbled_client : PlacesClient nat :=
  {| search_places := λ _ n, (Ok (VStr (str "oops")), S n);
     get_place_photo_url := λ _ n, (Ok VNone, S n) |}.

(** The state a recording client starts from: no call made yet. *)
Definition recording_start : env (St := nat * list call) :=
  {| place := ∅; client_state := (0%nat, []); stdout := [] |}.

(** A client that finds every place on the equator. *)
Definition monument_location : pydict :=
  <[str "lat" := VFloat 0]> (<[str "lng" := VFloat (-78.4558)]> ∅).

Definition equator_match : pyval :=
  VDict (<[str "location" := VDict monument_location]> ∅).

Definition equator_client : PlacesClient nat :=
  {| search_places := λ _ n, (Ok (VList [equator_match]), S n);
     get_place_photo_url := λ _ n, (Ok VNone, S n) |}.

(** A client that finds every place at the Louvre, with a photo. *)
Definition louvre_photo_client : PlacesClient nat :=
  {| search_places := λ _ n, (Ok (VList [louvre_match]), S n);
     get_place_photo_url := λ _ n,
       (Ok (VStr (str "https://example.org/louvre.jpg")), S n) |}.

(** * Properties *)

(** ** Reasoning about results *)

Lemma bind_Ok {A B} (r : result A) (f : A → result B) (b : B) :
  r ≫= f = Ok b ↔ ∃ a, r = Ok a ∧ f a = Ok b.
Proof.
  destruct r as [a|e]; simpl; split.
  - intros Hf. by exists a.
  - by intros (a' & [= <-] & Hf).
  - intros [=].
  - by intros (a' & [=] & _).
Qed.

Lemma map_result_length {A B} (f : A → result B) xs ys :
  map_result f xs = Ok ys → length ys = length xs.
Proof.
  revert ys. induction xs as [|x xs IH]; intros ys; simpl.
  - by intros [= <-].
  - intros (y & _ & (ys' & Hys & [= <-])%bind_Ok)%bind_Ok.
    simpl. f_equal. by apply IH.
Qed.

Lemma map_result_total {A B} (f : A → result B) (g : A → B) xs :
  Forall (λ x, f x = Ok (g x)) xs → map_result f xs = Ok (g <$> xs).
Proof.
  induction 1 as [|x xs Hx _ IH]; simpl; [done|].
  rewrite Hx. simpl. by rewrite IH.
Qed.

(** ** The coordinate filter *)

Lemma filter_nil_Forall (ps : list pydict) :
  Forall (λ p, has_coordinates p = false) ps → List.filter has_coordinates ps = [].
Proof.
  induction 1 as [|p ps Hp _ IH]; simpl; [done|]. by rewrite Hp.
Qed.

(** The emptiness test on the input is subsumed by the one on the
    filtered list. *)
Lemma create_itinerary_map_unfold `{Builtins} places center zoom :
  create_itinerary_map places center zoom =
    match List.filter has_coordinates places with
    | [] => Ok (folium_Map fallback_center zoom None)
    | valid_places =>
        c ← match center with
            | None =>
                avg_lat ← average_key "latitude" valid_places;
                avg_lng ← average_key "longitude" valid_places;
                Ok (avg_lat, avg_lng)
            | Some c => Ok c
            end;
        render_places valid_places
          (folium_Map c zoom (Some (str "cartodbpositron")))
    end.
Proof.
  destruct places as [|p ps]; [reflexivity|].
  unfold create_itinerary_map.
  destruct (List.filter has_coordinates (p :: ps)); reflexivity.
Qed.

(** C4. Whenever the input is empty or none of its records passes the
    coordinate filter, rendering returns a map (it does not raise, whatever
    else the records hold and whether or not a centre was supplied); the map
    is centred on the fallback coordinate (48.8566, 2.3522), has exactly the
    requested zoom, and nothing is drawn on it. *)
Theorem C4_fallback_map `{Builtins} (places : list pydict)
    (center : option coord) (zoom : Z) :
  Forall (λ p, has_coordinates p = false) places →
  ∃ m, create_itinerary_map places center zoom = Ok m
       ∧ location m = (VFloat 48.8566, VFloat 2.3522)
       ∧ zoom_start m = zoom
       ∧ children m = [] ∧ root_html m = [] ∧ bounds m = None.
Proof.
  intros Hnone. exists (folium_Map fallback_center zoom None).
  rewrite create_itinerary_map_unfold, filter_nil_Forall by done.
  by repeat split.
Qed.

(** C4 at a list of two records without usable coordinates (one on the
    equator, one with [None]), with a centre supplied and zoom 9. *)
Lemma C4_fallback_map_witness :
  Forall (λ p, has_coordinates p = false) [equator_stop; fresh_place picnic 1 "morning"]
  ∧ ∃ m, create_itinerary_map (H := ascii_builtins)
           [equator_stop; fresh_place picnic 1 "morning"]
           (Some (VFloat 45.76, VFloat 4.84)) 9 = Ok m
         ∧ location m = (VFloat 48.8566, VFloat 2.3522)
         ∧ zoom_start m = 9
         ∧ children m = [] ∧ root_html m = [] ∧ bounds m = None.
Proof.
  assert (Forall (λ p, has_coordinates p = false)
            [equator_stop; fresh_place picnic 1 "morning"]) as Hnone
    by (repeat constructor; vm_compute; reflexivity).
  split; [exact Hnone|].
  exact (C4_fallback_map (H := ascii_builtins) _
           (Some (VFloat 45.76, VFloat 4.84)) 9 Hnone).
Defined.

(** ** The popup *)

(** A piece of a concatenation sits between what comes before and after. *)
Lemma concat_lookup_split {A} (pieces : list (list A)) (i : nat) (x : list A) :
  pieces !! i = Some x →
  concat pieces = concat (take i pieces) ++ x ++ concat (drop (S i) pieces).
Proof.
  intros Hi. rewrite <-(take_drop_middle pieces i x Hi) at 1.
  by rewrite concat_app.
Qed.

(** Pieces in a row of a concatenation occur in it. *)
Lemma occurs_in_concat {A} (pieces : list (list A)) (i n : nat) (piece : list A) :
  concat (take n (drop i pieces)) = piece → occurs_in piece (concat pieces).
Proof.
  intros <-. exists (concat (take i pieces)), (concat (drop n (drop i pieces))).
  by rewrite <-!concat_app, !take_drop.
Qed.

Lemma occurs_in_trans {A} (x y z : list A) :
  occurs_in x y → occurs_in y z → occurs_in x z.
Proof.
  intros (pre & post & ->) (pre' & post' & ->).
  exists (pre' ++ pre), (post ++ post'). by rewrite <-!app_assoc.
Qed.

Lemma popup_html_of_str `{Builtins} name (description : pystr) photo_url day
    (time_of_day time_icon : pystr) :
  _create_popup_html name (VStr description) photo_url day (VStr time_of_day)
      time_icon =
    Ok (popup_template
          (if truthy photo_url then photo_block photo_url else [])
          day
          (if bool_decide (time_of_day = []) then []
           else concat [
             str "<span style="; dq; str "color: #666; font-size: 12px;"; dq;
             str ">"; time_icon; str " "; str_capitalize time_of_day;
             str "</span>" ])
          name
          (if bool_decide (description = []) then []
           else description_block (VStr (shown_description description)))).
Proof.
  unfold _create_popup_html, shown_description. cbn [truthy time_block].
  destruct (bool_decide (time_of_day = [])); cbn [negb mbind result_bind];
    destruct (bool_decide (description = [])); cbn [negb mbind result_bind py_len];
    try reflexivity;
    destruct (bool_decide (150 < length description)%nat); reflexivity.
Qed.

Section ParagraphFacts.
Context `{Builtins}.

Lemma description_block_paragraph (text : pystr) :
  description_block (VStr text) = paragraph_of text.
Proof.
  unfold description_block, paragraph_of. cbn [concat py_format].
  by rewrite app_nil_r.
Qed.

Lemma popup_template_paragraph photo_html day time_html name description_html :
  occurs_in (nl ++ sp 16 ++ description_html ++ nl ++ sp 12 ++ str "</div>")
    (popup_template photo_html day time_html name description_html).
Proof.
  unfold popup_template. apply (occurs_in_concat _ 53 6).
  cbn [firstn skipn concat]. by rewrite app_nil_r.
Qed.

End ParagraphFacts.

(** C8. For every description string the popup is built (no exception).
    When the description is not empty, the popup holds one paragraph for
    it, on a line of its own before the closing of the inner block: the
    opening tag with its style, then the first 150 characters of the
    description followed by "..." when the description is longer than 150
    characters, and the description itself, unchanged, when it has 150
    characters or fewer, then the closing tag.  An empty description gives
    no paragraph.  Nothing else in the popup depends on the description.
    The cut keeps exactly 150 characters of a longer description. *)
Theorem C8_description_truncation `{Builtins} (name photo_url day : pyval)
    (time_of_day time_icon description : pystr) :
  let shown := if bool_decide (150 < length description)%nat
               then take 150 description ++ str "..."
               else description in
  ∃ html,
    _create_popup_html name (VStr description) photo_url day
        (VStr time_of_day) time_icon = Ok html
    ∧ html
      = popup_template
          (if truthy photo_url then photo_block photo_url else [])
          day
          (if bool_decide (time_of_day = []) then []
           else concat [
             str "<span style="; dq; str "color: #666; font-size: 12px;"; dq;
             str ">"; time_icon; str " "; str_capitalize time_of_day;
             str "</span>" ])
          name
          (if bool_decide (description = []) then []
           else str "<p style=" ++ dq
                ++ str "margin: 8px 0; color: #444; font-size: 12px;" ++ dq
                ++ str ">" ++ shown ++ str "</p>")
    ∧ (description ≠ [] →
       occurs_in (nl ++ sp 16
                  ++ (str "<p style=" ++ dq
                      ++ str "margin: 8px 0; color: #444; font-size: 12px;"
                      ++ dq ++ str ">" ++ shown ++ str "</p>")
                  ++ nl ++ sp 12 ++ str "</div>") html)
    ∧ length (take 150 description) = (150 `min` length description)%nat
    ∧ take 150 description `prefix_of` description.
Proof.
  cbv zeta. fold (shown_description description).
  fold (paragraph_of (shown_description description)).
  eexists. split; [apply popup_html_of_str|].
  rewrite description_block_paragraph. split; [reflexivity|]. split.
  - intros Hne. rewrite (bool_decide_eq_false_2 (description = [])) by done.
    apply popup_template_paragraph.
  - split; [apply length_take|apply prefix_take].
Qed.

(** C8 at a description of 151 characters: the paragraph shows 150 of
    them and the marker. *)
Lemma C8_description_truncation_witness :
  ∃ html,
    _create_popup_html (H := ascii_builtins) (VStr (str "Louvre"))
      (VStr (replicate 151 97%N)) VNone (VInt 1) (VStr (str "morning")) pin_icon
      = Ok html
    ∧ occurs_in (nl ++ sp 16
                 ++ (str "<p style=" ++ dq
                     ++ str "margin: 8px 0; color: #444; font-size: 12px;"
                     ++ dq ++ str ">" ++ (replicate 150 97%N ++ str "...")
                     ++ str "</p>")
                 ++ nl ++ sp 12 ++ str "</div>") html.
Proof.
  destruct (C8_description_truncation (H := ascii_builtins) (VStr (str "Louvre"))
              VNone (VInt 1) (str "morning") pin_icon (replicate 151 97%N))
    as (html & Hpopup & _ & Hshown & _).
  exists html. split; [exact Hpopup|].
  assert (replicate 151 97%N ≠ []) as Hne by discriminate.
  assert ((if bool_decide (150 < length (replicate 151 97%N))%nat
           then take 150 (replicate 151 97%N) ++ str "..."
           else replicate 151 97%N)
          = replicate 150 97%N ++ str "...") as Hcut
    by (vm_compute; reflexivity).
  rewrite <-Hcut. exact (Hshown Hne).
Defined.

(** ** Children of a map *)

Lemma add_all_nil m : add_all [] m = m.
Proof. destruct m. unfold add_all. simpl. by rewrite app_nil_r. Qed.

Lemma add_all_app cs1 cs2 m : add_all cs2 (add_all cs1 m) = add_all (cs1 ++ cs2) m.
Proof. unfold add_all. simpl. by rewrite app_assoc. Qed.

Lemma add_to_add_all c m : add_to c m = add_all [c] m.
Proof. reflexivity. Qed.

Lemma markers_of_markers (mks : list Marker) :
  omap (λ c, match c with MarkerChild mk => Some mk | _ => None end)
       (MarkerChild <$> mks) = mks.
Proof. induction mks as [|mk mks IH]; [done|]. cbn. by f_equal. Qed.

Lemma markers_of_lines (ls : list PolyLine) :
  omap (λ c, match c with MarkerChild mk => Some mk | _ => None end)
       (PolyLineChild <$> ls) = [].
Proof. induction ls as [|l ls IH]; [done|]. by cbn. Qed.

Lemma lines_of_markers (mks : list Marker) :
  omap (λ c, match c with PolyLineChild pl => Some pl | _ => None end)
       (MarkerChild <$> mks) = [].
Proof. induction mks as [|mk mks IH]; [done|]. by cbn. Qed.

Lemma lines_of_lines (ls : list PolyLine) :
  omap (λ c, match c with PolyLineChild pl => Some pl | _ => None end)
       (PolyLineChild <$> ls) = ls.
Proof. induction ls as [|l ls IH]; [done|]. cbn. by f_equal. Qed.

Lemma markers_app_lines (mks : list Marker) (ls : list PolyLine) m :
  children m = (MarkerChild <$> mks) ++ (PolyLineChild <$> ls) →
  markers m = mks ∧ polylines m = ls.
Proof.
  intros Hc. unfold markers, polylines. rewrite Hc, !omap_app.
  rewrite markers_of_markers, markers_of_lines, lines_of_markers, lines_of_lines.
  by rewrite app_nil_r.
Qed.

(** ** The palette *)

Lemma day_color_int (d : Z) :
  day_color day_colors (VInt d) = Ok (palette_color d)
  ∧ day_colors !! Z.to_nat ((d - 1) mod 7) = Some (palette_color d).
Proof.
  unfold day_color, palette_color.
  change (Z.of_nat (length day_colors)) with 7.
  change (bool_decide (day_colors = [])) with false. cbv iota.
  pose proof (Z.mod_pos_bound (d - 1) 7 eq_refl) as Hlt.
  destruct (day_colors !! Z.to_nat ((d - 1) mod 7)) as [c|] eqn:Hc; [done|].
  apply lookup_ge_None in Hc. change (length day_colors) with 7%nat in Hc. lia.
Qed.

(** ** The marker loop *)

Lemma dict_item_Ok (p : pydict) k v : dict_item p k = Ok v → dict_get p k = v.
Proof.
  unfold dict_item, dict_get. destruct (p !! str k); simpl; congruence.
Qed.

Lemma dict_item_truthy (p : pydict) k :
  truthy (dict_get p k) = true → dict_item p k = Ok (dict_get p k).
Proof.
  unfold dict_item, dict_get. by destruct (p !! str k).
Qed.

Lemma place_coord_valid p : has_coordinates p = true → place_coord p = Ok (place_point p).
Proof.
  unfold has_coordinates, place_coord, place_point.
  intros [Hlat Hlng]%andb_true_iff.
  by rewrite !dict_item_truthy.
Qed.

Section RendererFacts.
Context `{Builtins}.

Lemma make_marker_Ok i p mk :
  make_marker i p = Ok mk →
  place_day p = VInt (day_of p) ∧ marker_location mk = place_point p
  ∧ place_coord p = Ok (place_point p).
Proof.
  unfold make_marker.
  intros (lat & Hlat & (lng & Hlng & Hrest)%bind_Ok)%bind_Ok.
  apply bind_Ok in Hrest as (c & Hc & (icon & _ & (popup & _ & [= <-])%bind_Ok)%bind_Ok).
  unfold place_coord, place_point. rewrite Hlat, Hlng. simpl.
  rewrite (dict_item_Ok _ _ _ Hlat), (dict_item_Ok _ _ _ Hlng).
  repeat split. unfold day_of.
  destruct (place_day p); try done; simpl in Hc;
    destruct (bool_decide _) in Hc; done.
Qed.

Lemma add_markers_Ok ps : ∀ i m coords m' coords',
  add_markers i ps m coords = Ok (m', coords') →
  ∃ mks, m' = add_all (MarkerChild <$> mks) m
         ∧ coords' = coords ++ (place_point <$> ps)
         ∧ length mks = length ps
         ∧ Forall (λ p, place_day p = VInt (day_of p)
                        ∧ place_coord p = Ok (place_point p)) ps.
Proof.
  induction ps as [|p ps IH]; intros i m coords m' coords'; simpl.
  - intros [= <- <-]. exists []. by rewrite add_all_nil, app_nil_r.
  - intros (mk & Hmk & Hrest)%bind_Ok.
    apply IH in Hrest as (mks & -> & -> & Hlen & Hall).
    apply make_marker_Ok in Hmk as (Hday & Hloc & Hcoord).
    exists (mk :: mks). rewrite add_to_add_all, add_all_app, Hloc.
    repeat split; [by rewrite <-app_assoc|simpl; by rewrite Hlen|].
    by constructor.
Qed.

End RendererFacts.

(** ** Connecting lines *)

Lemma day_runs_head d c rest :
  ∃ cs runs, day_runs ((d, c) :: rest) = (d, c :: cs) :: runs.
Proof.
  simpl. destruct (day_runs rest) as [|[d' cs] runs]; [by eexists _, _|].
  destruct (d =? d'); by eexists _, _.
Qed.

(** The runs partition the sequence: put back together they give it
    again, none is empty, and two runs in a row differ in their day. *)
Lemma day_runs_partition (records : list (Z * coord)) :
  run_records (day_runs records) = records
  ∧ Forall (λ run, run.2 ≠ []) (day_runs records)
  ∧ changes_at_each_step ((λ run, run.1) <$> day_runs records).
Proof.
  induction records as [|[d c] rest (IHcat & IHne & IHch)]; [done|].
  simpl. destruct (day_runs rest) as [|[d' cs] runs] eqn:Hruns.
  - simpl in IHcat. subst rest. split; [done|]. split; [|done].
    by constructor.
  - destruct (d =? d') eqn:Hd.
    + apply Z.eqb_eq in Hd as <-. rewrite <-IHcat.
      split; [done|]. split; [|done].
      constructor; [done|]. by eapply Forall_inv_tail.
    + apply Z.eqb_neq in Hd. rewrite <-IHcat.
      split; [done|]. split; [by constructor|]. by split.
Qed.

(** Records of one day, followed by a record of another day (or by
    nothing), form a run of their own. *)
Lemma day_runs_prefix (cur : Z) (own : list coord) (rest : list (Z * coord)) :
  own ≠ [] →
  match rest with [] => True | (d, _) :: _ => d ≠ cur end →
  day_runs (((λ c, (cur, c)) <$> own) ++ rest) = (cur, own) :: day_runs rest.
Proof.
  intros Hne Hrest. induction own as [|c own IH]; [done|].
  destruct own as [|c' own].
  - simpl. destruct rest as [|[d c'] rest]; [done|].
    destruct (day_runs_head d c' rest) as (cs & runs & ->).
    assert ((cur =? d) = false) as -> by (apply Z.eqb_neq; congruence). done.
  - change (day_runs ((cur, c) :: (((λ c, (cur, c)) <$> (c' :: own)) ++ rest))
            = (cur, c :: c' :: own) :: day_runs rest).
    cbn [day_runs]. cbn [day_runs] in IH. rewrite IH by done.
    by rewrite Z.eqb_refl.
Qed.

Lemma day_line_Ok dc d : day_line dc d = Ok (line_of_run (d, dc)).
Proof.
  unfold day_line. destruct (day_color_int d) as [-> _]. reflexivity.
Qed.

Lemma last_seeded (seed : option coord) (own : list coord) :
  own ≠ [] → last (option_list seed ++ own) = last own.
Proof.
  intros Hne. destruct seed as [s|]; [|done]. simpl.
  destruct own; [done|]. done.
Qed.

(** The loop, entered with a run under way: [own] are the points of the
    current day seen so far, after the [seed] carried over.  The lines it
    draws, with the one left for after the loop, are those of the runs of
    the records still to come, the current run included. *)
Lemma lines_loop_runs (ps : list pydict) : ∀ cur seed own m,
  Forall (λ p, place_day p = VInt (day_of p)
               ∧ place_coord p = Ok (place_point p)) ps →
  own ≠ [] →
  ∃ ls cur' dc',
    lines_loop ps cur (option_list seed ++ own) m
      = Ok (add_all (PolyLineChild <$> ls) m, cur', dc')
    ∧ dc' ≠ []
    ∧ ls ++ [line_of_run (cur', dc')]
      = line_of_run <$>
          seeded_runs seed
            (day_runs (((λ c, (cur, c)) <$> own) ++ place_records ps)).
Proof.
  induction ps as [|p ps IH]; intros cur seed own m Hall Hne.
  - exists [], cur, (option_list seed ++ own).
    change (place_records []) with (@nil (Z * coord)).
    rewrite (day_runs_prefix cur own []) by done. simpl.
    rewrite add_all_nil. repeat split. destruct seed, own; done.
  - apply Forall_cons in Hall as [[Hday Hcoord] Hall].
    cbn [lines_loop]. rewrite Hday, Hcoord. cbn [as_int mbind result_bind].
    rewrite last_seeded by done.
    destruct (last own) as [last_point|] eqn:Hlast;
      [|by apply last_None in Hlast].
    destruct (day_of p =? cur) eqn:Hd; cbn [negb].
    + apply Z.eqb_eq in Hd.
      destruct (IH cur seed (own ++ [place_point p]) m Hall) as
        (ls & cur' & dc' & Hloop & Hdc & Hls); [by destruct own|].
      exists ls, cur', dc'. rewrite <-app_assoc. split; [done|]. split; [done|].
      rewrite Hls. do 3 f_equal.
      rewrite fmap_app, <-app_assoc. simpl. by rewrite Hd.
    + apply Z.eqb_neq in Hd. rewrite day_line_Ok. cbn [mbind result_bind].
      destruct (IH (day_of p) (Some last_point) [place_point p]
                   (add_to (PolyLineChild (line_of_run (cur, option_list seed ++ own))) m)
                   Hall) as (ls & cur' & dc' & Hloop & Hdc & Hls); [done|].
      exists (line_of_run (cur, option_list seed ++ own) :: ls), cur', dc'.
      split; [|split; [done|]].
      * change (option_list (Some last_point) ++ [place_point p])
          with ([last_point] ++ [place_point p]) in Hloop.
        rewrite Hloop. by rewrite add_to_add_all, add_all_app.
      * rewrite (day_runs_prefix cur own (place_records (p :: ps))) by done.
        cbn [seeded_runs]. rewrite Hlast, fmap_cons, <-app_comm_cons.
        f_equal. exact Hls.
Qed.

Lemma add_lines_runs (ps : list pydict) (m : Map) :
  ps ≠ [] →
  Forall (λ p, place_day p = VInt (day_of p)
               ∧ place_coord p = Ok (place_point p)) ps →
  add_lines ps m
    = Ok (add_all (PolyLineChild <$>
                     (line_of_run <$>
                        seeded_runs None (day_runs (place_records ps)))) m).
Proof.
  intros Hne Hall. destruct ps as [|p ps]; [done|].
  pose proof Hall as [[Hday Hcoord] Hrest]%Forall_cons.
  unfold add_lines. rewrite Hday. cbn [as_int mbind result_bind lines_loop].
  rewrite Hday, Hcoord. cbn [as_int mbind result_bind last].
  destruct (lines_loop_runs ps (day_of p) None [place_point p] m Hrest)
    as (ls & cur' & dc' & Hloop & Hdc & Hls); [done|].
  change (option_list None ++ [place_point p]) with ([] ++ [place_point p])
    in Hloop.
  rewrite Hloop. cbn [mbind result_bind].
  destruct dc' as [|c dc']; [done|].
  rewrite day_line_Ok. cbn [mbind result_bind].
  rewrite add_to_add_all, add_all_app. do 2 f_equal.
  change [PolyLineChild (line_of_run (cur', c :: dc'))]
    with (PolyLineChild <$> [line_of_run (cur', c :: dc')]).
  rewrite <-fmap_app. f_equal. exact Hls.
Qed.

Section RenderFacts.
Context `{Builtins}.

(** What a successful rendering has put on the map. *)
Lemma render_places_Ok (valid_places : list pydict) (m m' : Map) :
  render_places valid_places m = Ok m' →
  ∃ mks legend_html,
    length mks = length valid_places
    ∧ _create_legend_html valid_places day_colors = Ok legend_html
    ∧ location m' = location m ∧ zoom_start m' = zoom_start m
    ∧ tiles m' = tiles m
    ∧ children m' = children m ++ (MarkerChild <$> mks)
                    ++ (PolyLineChild <$> connecting_lines valid_places)
    ∧ root_html m' = root_html m ++ [legend_html]
    ∧ bounds m' = (if bool_decide (1 < length valid_places)%nat
                   then Some (place_point <$> valid_places) else bounds m).
Proof.
  unfold render_places. intros ([m1 coords] & Hmk & Hrest)%bind_Ok.
  apply add_markers_Ok in Hmk as (mks & -> & -> & Hlen & Hall).
  rewrite app_nil_l, length_fmap in Hrest.
  apply bind_Ok in Hrest as (m2 & Hlines & (legend & Hlegend & [= <-])%bind_Ok).
  exists mks, legend. unfold connecting_lines.
  destruct (bool_decide (1 < length valid_places)%nat) eqn:Hlong.
  - rewrite add_lines_runs in Hlines; [|by destruct valid_places|done].
    injection Hlines as <-. simpl. by rewrite <-app_assoc.
  - injection Hlines as <-. simpl. by rewrite app_nil_r.
Qed.

End RenderFacts.

(** ** The legend *)

Lemma day_set_Ok (days : list pyval) : ∀ seen s,
  day_set seen days = Ok s → s = seen ∪ list_to_set (int_values days).
Proof.
  induction days as [|v days IH]; intros seen s; simpl.
  - intros [= <-]. set_solver.
  - destruct v as [|d|f| | |]; try done.
    + intros ->%IH. set_solver.
    + destruct (float_integer f) as [d|]; [|done].
      destruct (bool_decide (d ∈ seen)); [|done]. apply IH.
Qed.

Lemma day_set_ints (days : list pyval) : ∀ seen,
  Forall (λ v, ∃ d, v = VInt d) days →
  day_set seen days = Ok (seen ∪ list_to_set (int_values days)).
Proof.
  induction days as [|v days IH]; intros seen Hall; simpl.
  - f_equal. set_solver.
  - apply Forall_cons in Hall as [[d ->] Hall]. rewrite IH by done.
    f_equal. set_solver.
Qed.

Lemma elem_of_int_values (d : Z) (vs : list pyval) :
  d ∈ int_values vs ↔ VInt d ∈ vs.
Proof.
  unfold int_values. rewrite list_elem_of_omap. split.
  - intros (v & Hv & Hd). by destruct v; simplify_eq.
  - intros Hd. by exists (VInt d).
Qed.

Lemma StronglySorted_le_NoDup_lt (l : list Z) :
  StronglySorted Z.le l → NoDup l → StronglySorted Z.lt l.
Proof.
  induction 1 as [|x l Hsorted IH Hle]; intros Hnd; [constructor|].
  apply NoDup_cons in Hnd as [Hx Hnd]. constructor; [by apply IH|].
  rewrite Forall_forall in Hle |- *. intros y Hy.
  assert (x ≠ y) by (intros ->; by apply Hx).
  specialize (Hle y Hy). lia.
Qed.

(** The legend lists every day once, smallest first. *)
Lemma distinct_days_sorted (places : list pydict) :
  StronglySorted Z.lt (distinct_days places)
  ∧ ∀ d, d ∈ distinct_days places ↔ VInt d ∈ place_day <$> places.
Proof.
  unfold distinct_days. split.
  - apply StronglySorted_le_NoDup_lt.
    + apply StronglySorted_merge_sort; apply _.
    + rewrite merge_sort_Permutation. apply NoDup_elements.
  - intros d. rewrite merge_sort_Permutation, elem_of_elements,
      elem_of_list_to_set. apply elem_of_int_values.
Qed.

Lemma sorted_days_Ok (places : list pydict) (days : list Z) :
  sorted_days (place_day <$> places) = Ok days → days = distinct_days places.
Proof.
  unfold sorted_days. intros (s & ->%day_set_Ok & [= <-])%bind_Ok.
  unfold distinct_days. by rewrite (left_id_L ∅ (∪)).
Qed.

Lemma legend_entries (days : list Z) :
  map_result (legend_entry day_colors) days = Ok (legend_entry_html <$> days).
Proof.
  apply map_result_total, Forall_forall. intros d _. unfold legend_entry.
  by destruct (day_color_int d) as [-> _].
Qed.

Lemma legend_html_Ok (places : list pydict) (html : pystr) :
  _create_legend_html places day_colors = Ok html →
  html = legend_template (concat (legend_entry_html <$> distinct_days places)).
Proof.
  unfold _create_legend_html.
  intros (days & ->%sorted_days_Ok & Hitems)%bind_Ok.
  rewrite legend_entries in Hitems. by injection Hitems as <-.
Qed.

Lemma legend_html_ints (places : list pydict) :
  Forall (λ p, ∃ d, place_day p = VInt d) places →
  _create_legend_html places day_colors
    = Ok (legend_template (concat (legend_entry_html <$> distinct_days places))).
Proof.
  intros Hall. unfold _create_legend_html, sorted_days.
  rewrite day_set_ints by (by apply Forall_fmap).
  cbn [mbind result_bind]. rewrite (left_id_L ∅ (∪)).
  fold (distinct_days places). by rewrite legend_entries.
Qed.

(** ** The lines and the legend of a rendered map *)

(** C3. When rendering succeeds on an input with two or more records that
    pass the filter, the polylines of the map are exactly the lines of the
    maximal runs of consecutive same-day records of the filtered sequence,
    one per run and in order: each is dashed (weight 3, opacity 0.7, dash
    array 10), coloured by its run's day, and holds the run's points, which
    for every run after the first come after the last point of the run
    before.  The runs partition the sequence: put end to end they give it
    back, none is empty, and consecutive runs differ in their day. *)
Theorem C3_connecting_lines `{Builtins} (places : list pydict)
    (center : option coord) (zoom : Z) (m : Map) :
  create_itinerary_map places center zoom = Ok m →
  (2 ≤ length (List.filter has_coordinates places))%nat →
  let records := place_records (List.filter has_coordinates places) in
  let runs := day_runs records in
  polylines m = line_of_run <$> seeded_runs None runs
  ∧ length (polylines m) = length runs
  ∧ run_records runs = records
  ∧ Forall (λ run, run.2 ≠ []) runs
  ∧ changes_at_each_step ((λ run, run.1) <$> runs)
  ∧ Forall (λ p, place_day p = VInt (day_of p))
           (List.filter has_coordinates places).
Proof.
  intros Hmap Hlen. cbv zeta.
  rewrite create_itinerary_map_unfold in Hmap.
  destruct (List.filter has_coordinates places) as [|p valid] eqn:Hvalid;
    [simpl in Hlen; lia|].
  apply bind_Ok in Hmap as (c & _ & Hrender).
  pose proof Hrender as Hmk. unfold render_places in Hmk.
  apply bind_Ok in Hmk as ([m1 coords] & Hmk & _).
  apply add_markers_Ok in Hmk as (_ & _ & _ & _ & Hall).
  apply render_places_Ok in Hrender
    as (mks & legend & _ & _ & _ & _ & _ & Hchildren & _ & _).
  simpl in Hchildren. apply markers_app_lines in Hchildren as [_ Hlines].
  unfold connecting_lines in Hlines.
  rewrite bool_decide_eq_true_2 in Hlines by (simpl in *; lia).
  destruct (day_runs_partition (place_records (p :: valid)))
    as (Hcat & Hne & Hch).
  split; [done|]. split.
  { rewrite Hlines, length_fmap.
    generalize (day_runs (place_records (p :: valid))).
    intros rs. generalize (@None coord).
    induction rs as [|[d cs] rs IH]; intros seed; simpl; [done|].
    by rewrite IH. }
  repeat split; try done.
  eapply Forall_impl; [exact Hall|]. by intros q [Hq _].
Qed.

(** C3 at the four stops: days 1, 1, 2, 1 give three polylines, the second
    and the third starting from the last point of the one before. *)
Lemma C3_connecting_lines_witness :
  create_itinerary_map (H := ascii_builtins) four_stops None 12 = Ok four_stops_map
  ∧ (2 ≤ length (List.filter has_coordinates four_stops))%nat
  ∧ (day_of <$> four_stops) = [1; 1; 2; 1]
  ∧ length (polylines four_stops_map) = 3%nat
  ∧ (locations <$> polylines four_stops_map)
    = [ [(VFloat 48.8606, VFloat 2.3376); (VFloat 48.853, VFloat 2.3499)];
        [(VFloat 48.853, VFloat 2.3499); (VFloat 48.8049, VFloat 2.1204)];
        [(VFloat 48.8049, VFloat 2.1204); (VFloat 48.8867, VFloat 2.3431)] ]
  ∧ (color <$> polylines four_stops_map)
    = [str "#e74c3c"; str "#3498db"; str "#e74c3c"].
Proof.
  assert (create_itinerary_map (H := ascii_builtins) four_stops None 12
          = Ok four_stops_map) as Hmap by (vm_compute; reflexivity).
  assert (2 ≤ length (List.filter has_coordinates four_stops))%nat as Hlen
    by (vm_compute; lia).
  destruct (C3_connecting_lines four_stops None 12 four_stops_map Hmap Hlen)
    as (Hlines & Hcount & _).
  split; [exact Hmap|]. split; [exact Hlen|]. split; [reflexivity|].
  rewrite Hlines. repeat split; vm_compute; reflexivity.
Defined.

Lemma concat_drop_lookup {A} (pieces : list (list A)) (i : nat) (x : list A) :
  pieces !! i = Some x →
  concat (drop i pieces) = x ++ concat (drop (S i) pieces).
Proof. intros Hi. by rewrite (drop_S _ _ _ Hi). Qed.

(** An entry shows its colour as the swatch background and is labelled
    with its day. *)
Lemma legend_item_parts (color : pystr) (day : Z) :
  ∃ a b c,
    legend_item color day
      = a ++ str "background-color: " ++ color ++ b
          ++ str "<span>Day " ++ format_int day ++ str "</span>" ++ c.
Proof.
  unfold legend_item.
  match goal with
  | |- context [concat ?l] =>
      exists (concat (take 13 l)), (concat (take 19 (drop 15 l))),
             (concat (drop 37 l));
      rewrite <-(take_drop 13 l) at 1; rewrite concat_app;
      rewrite (concat_drop_lookup l 13 (str "background-color: ")) by reflexivity;
      rewrite (concat_drop_lookup l 14 color) by reflexivity;
      rewrite <-(take_drop 19 (drop 15 l)) at 1; rewrite concat_app, drop_drop;
      change (15 + 19)%nat with 34%nat;
      rewrite (concat_drop_lookup l 34 (str "<span>Day ")) by reflexivity;
      rewrite (concat_drop_lookup l 35 (format_int day)) by reflexivity;
      rewrite (concat_drop_lookup l 36 (str "</span>")) by reflexivity
  end.
  reflexivity.
Qed.

(** The legend is a fixed frame around its entries. *)
Lemma legend_template_frame :
  ∃ header footer,
    occurs_in (str ">Itinerary</div>") header
    ∧ ∀ legend_items, legend_template legend_items = header ++ legend_items ++ footer.
Proof.
  eexists _, _. split; cycle 1.
  - intros legend_items. unfold legend_template.
    rewrite (concat_lookup_split _ 47 legend_items) by reflexivity.
    cbn [firstn skipn]. reflexivity.
  - apply (occurs_in_concat _ 44 1). cbn [firstn skipn concat].
    by rewrite app_nil_r.
Qed.

Lemma legend_item_swatch (color : pystr) (day : Z) :
  occurs_in (str "background-color: " ++ color ++ str ";") (legend_item color day).
Proof.
  unfold legend_item. apply (occurs_in_concat _ 13 3).
  cbn [firstn skipn concat]. by rewrite app_nil_r.
Qed.

Lemma legend_item_label (color : pystr) (day : Z) :
  occurs_in (str "<span>Day " ++ format_int day ++ str "</span>")
    (legend_item color day).
Proof.
  unfold legend_item. apply (occurs_in_concat _ 34 3).
  cbn [firstn skipn concat]. by rewrite app_nil_r.
Qed.

(** C5. For places whose days are ints, the legend is built.  It is a
    fixed frame, the one of the legend of no place, with the title
    "Itinerary" in its first part, and between the two parts of the frame
    exactly one entry per distinct day of the places, in ascending order of
    the day: the days listed are strictly increasing (so none is repeated),
    and a day is listed exactly when some place has it.  The entry of a day
    shows the palette colour at index (day - 1) mod 7 as its swatch and the
    label "Day " followed by the day. *)
Theorem C5_legend_entries (places : list pydict) :
  Forall (λ p, ∃ d, place_day p = VInt d) places →
  _create_legend_html places day_colors
    = Ok (legend_template (concat (legend_entry_html <$> distinct_days places)))
  ∧ (∃ header footer,
       occurs_in (str ">Itinerary</div>") header
       ∧ _create_legend_html [] day_colors = Ok (header ++ footer)
       ∧ _create_legend_html places day_colors
         = Ok (header ++ concat (legend_entry_html <$> distinct_days places)
               ++ footer))
  ∧ StronglySorted Z.lt (distinct_days places)
  ∧ (∀ d, d ∈ distinct_days places ↔ VInt d ∈ place_day <$> places)
  ∧ (∀ d, day_colors !! Z.to_nat ((d - 1) mod 7) = Some (palette_color d)
          ∧ occurs_in (str "background-color: " ++ palette_color d ++ str ";")
              (legend_entry_html d)
          ∧ occurs_in (str "<span>Day " ++ format_int d ++ str "</span>")
              (legend_entry_html d)
          ∧ ∃ a b c,
              legend_entry_html d
                = a ++ str "background-color: " ++ palette_color d ++ b
                    ++ str "<span>Day " ++ format_int d ++ str "</span>" ++ c).
Proof.
  intros Hints. split; [by apply legend_html_ints|]. split.
  { destruct legend_template_frame as (header & footer & Htitle & Hframe).
    exists header, footer. split; [exact Htitle|]. split.
    - rewrite (legend_html_ints []) by constructor.
      assert (distinct_days [] = []) as -> by (vm_compute; reflexivity).
      by rewrite Hframe.
    - by rewrite legend_html_ints, Hframe. }
  destruct (distinct_days_sorted places) as [Hsorted Hdays].
  split; [exact Hsorted|]. split; [exact Hdays|]. intros d.
  split; [apply day_color_int|].
  unfold legend_entry_html.
  split; [exact (legend_item_swatch (palette_color d) d)|].
  split; [exact (legend_item_label (palette_color d) d)|].
  exact (legend_item_parts (palette_color d) d).
Qed.

(** C5 at the four stops: days 1, 1, 2, 1 give the two entries of day 1
    and day 2, in that order between the two parts of the frame; days 8
    and 14 would reuse the colours of days 1 and 7. *)
Lemma C5_legend_entries_witness :
  Forall (λ p, ∃ d, place_day p = VInt d) four_stops
  ∧ (day_of <$> four_stops) = [1; 1; 2; 1]
  ∧ distinct_days four_stops = [1; 2]
  ∧ _create_legend_html four_stops day_colors
    = Ok (legend_template (concat (legend_entry_html <$> [1; 2])))
  ∧ (∃ header footer,
       _create_legend_html four_stops day_colors
         = Ok (header ++ (legend_entry_html 1 ++ legend_entry_html 2) ++ footer))
  ∧ occurs_in (str "background-color: #e74c3c;") (legend_entry_html 1)
  ∧ occurs_in (str "<span>Day 1</span>") (legend_entry_html 1)
  ∧ occurs_in (str "background-color: #3498db;") (legend_entry_html 2)
  ∧ occurs_in (str "<span>Day 2</span>") (legend_entry_html 2)
  ∧ palette_color 1 = str "#e74c3c" ∧ palette_color 2 = str "#3498db"
  ∧ palette_color 8 = str "#e74c3c" ∧ palette_color 14 = str "#e91e63".
Proof.
  assert (Forall (λ p, ∃ d, place_day p = VInt d) four_stops) as Hints
    by (repeat constructor; eexists; vm_compute; reflexivity).
  assert (distinct_days four_stops = [1; 2]) as Hdays
    by (vm_compute; reflexivity).
  destruct (C5_legend_entries four_stops Hints)
    as (Hhtml & (header & footer & _ & _ & Hframe) & _ & _ & Hentry).
  rewrite Hdays in Hhtml, Hframe.
  destruct (Hentry 1) as (_ & Hcolor1 & Hlabel1 & _).
  destruct (Hentry 2) as (_ & Hcolor2 & Hlabel2 & _).
  split; [exact Hints|]. split; [vm_compute; reflexivity|].
  split; [exact Hdays|]. split; [exact Hhtml|].
  split.
  { exists header, footer. rewrite Hframe. cbn [fmap list_fmap concat].
    by rewrite app_nil_r. }
  split; [exact Hcolor1|]. split; [exact Hlabel1|].
  split; [exact Hcolor2|]. split; [exact Hlabel2|].
  repeat split; vm_compute; reflexivity.
Defined.

(** ** The centre *)

Lemma sum_key_valid (k : string) (ps : list pydict) : ∀ acc,
  Forall (λ p, truthy (dict_get p k) = true) ps →
  sum_key k acc ps = sum_from acc ((λ p, dict_get p k) <$> ps).
Proof.
  induction ps as [|p ps IH]; intros acc Hall; [done|].
  apply Forall_cons in Hall as [Hp Hall]. cbn [sum_key fmap list_fmap sum_from].
  rewrite dict_item_truthy by done. cbn [mbind result_bind].
  destruct (py_add acc (dict_get p k)); [|done]. by apply IH.
Qed.

Lemma average_key_valid (k : string) (ps : list pydict) :
  Forall (λ p, truthy (dict_get p k) = true) ps →
  average_key k ps = arithmetic_mean ((λ p, dict_get p k) <$> ps).
Proof.
  intros Hall. unfold average_key, arithmetic_mean, py_sum.
  by rewrite sum_key_valid, length_fmap.
Qed.

Lemma filter_has_coordinates (places : list pydict) :
  Forall (λ p, truthy (dict_get p "latitude") = true) (List.filter has_coordinates places)
  ∧ Forall (λ p, truthy (dict_get p "longitude") = true) (List.filter has_coordinates places).
Proof.
  split; apply Forall_forall; intros p [_ Hp]%list_elem_of_In%filter_In;
    by apply andb_true_iff in Hp as [? ?].
Qed.

(** The mean of floats: they are added from left to right, starting from
    zero, and the sum is divided by their number. *)
Lemma arithmetic_mean_floats (f : float) (fs : list float) :
  arithmetic_mean (VFloat <$> f :: fs)
    = Ok (VFloat (foldl PrimFloat.add (0 + f)%float fs
                  / float_of_Z (Z.of_nat (S (length fs))))%float).
Proof.
  unfold arithmetic_mean, py_sum.
  rewrite length_fmap. cbn [fmap list_fmap sum_from py_add length].
  change (float_of_int 0) with (Ok 0%float). cbn [mbind result_bind].
  generalize (0 + f)%float. generalize (length fs).
  intros n. induction fs as [|g fs IH]; intros acc; [done|].
  cbn [fmap list_fmap sum_from py_add mbind result_bind foldl]. apply IH.
Qed.

Section CenterFacts.
Context `{Builtins}.

Lemma render_places_location valid_places m m' :
  render_places valid_places m = Ok m' → location m' = location m.
Proof. by intros (? & ? & _ & _ & ? & _)%render_places_Ok. Qed.

End CenterFacts.

(** C6. Let the filtered sequence be non-empty.  With a centre supplied,
    the call is the rendering of the filtered places on a map created at
    that centre, no average being computed, and the map returned is centred
    exactly there.  Without one, the map returned is centred on the
    arithmetic mean of the latitudes and on that of the longitudes of the
    filtered records, each taken on its own. *)
Theorem C6_center `{Builtins} (places : list pydict) (zoom : Z) :
  List.filter has_coordinates places ≠ [] →
  (∀ c,
     create_itinerary_map places (Some c) zoom
       = render_places (List.filter has_coordinates places)
           (folium_Map c zoom (Some (str "cartodbpositron")))
     ∧ ∀ m, create_itinerary_map places (Some c) zoom = Ok m → location m = c)
  ∧ (∀ m, create_itinerary_map places None zoom = Ok m →
       ∃ lat lng,
         arithmetic_mean ((λ p, dict_get p "latitude")
                            <$> List.filter has_coordinates places) = Ok lat
         ∧ arithmetic_mean ((λ p, dict_get p "longitude")
                              <$> List.filter has_coordinates places) = Ok lng
         ∧ location m = (lat, lng)).
Proof.
  intros Hvalid.
  destruct (filter_has_coordinates places) as [Hlat Hlng].
  split.
  - intros c.
    assert (create_itinerary_map places (Some c) zoom
            = render_places (List.filter has_coordinates places)
                (folium_Map c zoom (Some (str "cartodbpositron")))) as Heq.
    { rewrite create_itinerary_map_unfold.
      by destruct (List.filter has_coordinates places). }
    split; [done|]. intros m. rewrite Heq.
    by intros ->%render_places_location.
  - intros m. rewrite create_itinerary_map_unfold.
    destruct (List.filter has_coordinates places) as [|p valid] eqn:Hf; [done|].
    intros ([lat lng] & Hcenter & ->%render_places_location)%bind_Ok.
    apply bind_Ok in Hcenter as (lat' & Hlat' & (lng' & Hlng' & [= <- <-])%bind_Ok).
    rewrite average_key_valid in Hlat', Hlng' by done.
    by exists lat', lng'.
Qed.

(** C6 at two stops: the supplied centre is kept; without one the centre
    is the mean (49, 2.5).  For a single stop whose latitude is written as
    text, averaging raises, and a supplied centre is still used as it is:
    no average is computed then. *)
Lemma C6_center_witness :
  List.filter has_coordinates two_stops ≠ []
  ∧ (location <$> create_itinerary_map (H := ascii_builtins) two_stops
                    (Some (VFloat 45.76, VFloat 4.84)) 12)
    = Ok (VFloat 45.76, VFloat 4.84)
  ∧ (location <$> create_itinerary_map (H := ascii_builtins) two_stops None 12)
    = Ok (VFloat 49, VFloat 2.5)
  ∧ is_ok (create_itinerary_map (H := ascii_builtins) text_stop None 12) = false
  ∧ (location <$> create_itinerary_map (H := ascii_builtins) text_stop
                    (Some (VFloat 45.76, VFloat 4.84)) 12)
    = Ok (VFloat 45.76, VFloat 4.84).
Proof.
  assert (List.filter has_coordinates two_stops ≠ []) as Hvalid.
  { assert (length (List.filter has_coordinates two_stops) = 2%nat) as Hlen
      by (vm_compute; reflexivity).
    intros Hnil. rewrite Hnil in Hlen. discriminate Hlen. }
  destruct (C6_center (H := ascii_builtins) two_stops 12 Hvalid)
    as [Hgiven Hmean].
  split; [exact Hvalid|]. split; [|split; [|split]].
  - destruct (Hgiven (VFloat 45.76, VFloat 4.84)) as [_ Hloc].
    assert (is_ok (create_itinerary_map (H := ascii_builtins) two_stops
                     (Some (VFloat 45.76, VFloat 4.84)) 12) = true) as Hok
      by (vm_compute; reflexivity).
    destruct (create_itinerary_map two_stops (Some _) 12) as [m|e];
      [|discriminate Hok].
    cbn [fmap result_fmap]. f_equal. apply Hloc. reflexivity.
  - assert (is_ok (create_itinerary_map (H := ascii_builtins) two_stops
                     None 12) = true) as Hok
      by (vm_compute; reflexivity).
    destruct (create_itinerary_map two_stops None 12) as [m|e];
      [|discriminate Hok].
    destruct (Hmean m eq_refl) as (lat & lng & Hlat & Hlng & Hloc).
    cbn [fmap result_fmap]. rewrite Hloc.
    vm_compute in Hlat, Hlng. congruence.
  - vm_compute. reflexivity.
  - vm_compute. reflexivity.
Defined.

(** ** The extractor *)

Section ExtractorFacts.
Context {St : Type}.
Implicit Types (s : env (St := St)) (c : PlacesClient St).

Lemma run_bind {A B} (m : M (St := St) A) (f : A → M B) s :
  (m ≫= f) s = match m s with
               | (Ok a, s') => f a s'
               | (Raise e, s') => (Raise e, s')
               end.
Proof. reflexivity. Qed.

Lemma keeps_keys_bind {A B} (m : M (St := St) A) (f : A → M B) :
  keeps_keys m → (∀ a, keeps_keys (f a)) → keeps_keys (m ≫= f).
Proof.
  intros Hm Hf s r s'. rewrite run_bind.
  destruct (m s) as [[a|e] s1] eqn:Hms.
  - intros Hfa. pose proof (Hm _ _ _ Hms). pose proof (Hf _ _ _ _ Hfa).
    set_solver.
  - intros [= <- <-]. by eapply Hm.
Qed.

Lemma keeps_keys_ret {A} (a : A) : keeps_keys (St := St) (mret a).
Proof. by intros s r s' [= <- <-]. Qed.

Lemma keeps_keys_lift {A} (r : result A) : keeps_keys (St := St) (lift r).
Proof. by intros s r' s' [= <- <-]. Qed.

Lemma keeps_keys_set_item k v : keeps_keys (St := St) (set_item k v).
Proof. intros s r s' [= <- <-]. simpl. rewrite dom_insert_L. set_solver. Qed.

Lemma keeps_keys_search c q : keeps_keys (call_search c q).
Proof.
  intros s r s'. unfold call_search.
  destruct (search_places c q (client_state s)). by intros [= <- <-].
Qed.

Lemma keeps_keys_photo c v : keeps_keys (call_photo c v).
Proof.
  intros s r s'. unfold call_photo.
  destruct (get_place_photo_url c v (client_state s)). by intros [= <- <-].
Qed.

Lemma keeps_keys_print line : keeps_keys (St := St) (print line).
Proof. by intros s r s' [= <- <-]. Qed.

Lemma keeps_keys_lookup_place c a loc : keeps_keys (lookup_place c a loc).
Proof.
  unfold lookup_place.
  apply keeps_keys_bind; [apply keeps_keys_search|]. intros results.
  destruct (truthy results); [|apply keeps_keys_ret].
  repeat (apply keeps_keys_bind;
          [first [apply keeps_keys_lift | apply keeps_keys_set_item]|intros ?]).
  destruct (truthy _); [|apply keeps_keys_ret].
  apply keeps_keys_bind; [apply keeps_keys_photo|]. intros photo_url.
  destruct (truthy photo_url);
    [apply keeps_keys_set_item|apply keeps_keys_ret].
Qed.

Lemma keeps_keys_try (body : M (St := St) unit) handler :
  keeps_keys body → (∀ e, keeps_keys (handler e)) → keeps_keys (try_except body handler).
Proof.
  intros Hbody Hhandler s r s'. unfold try_except.
  destruct (body s) as [[[]|e] s1] eqn:Hb.
  - intros [= <- <-]. by eapply Hbody.
  - intros Hh. pose proof (Hbody _ _ _ Hb). pose proof (Hhandler _ _ _ _ Hh).
    set_solver.
Qed.

(** [_extract_place_info] never raises: whatever happens in the lookup, it
    returns the dictionary when both coordinates are set, and [None]
    otherwise. *)
Lemma extract_place_info_returns a day time_of_day places_client s :
  _extract_place_info a day time_of_day places_client s
    = (Ok (place_or_None (place (after_lookup a day time_of_day places_client s))),
       after_lookup a day time_of_day places_client s).
Proof.
  unfold _extract_place_info, after_lookup, lookup_start. rewrite run_bind.
  cbn [new_place]. fold (fresh_place a day time_of_day).
  set (s0 := {| place := fresh_place a day time_of_day;
                client_state := client_state s; stdout := stdout s |}).
  rewrite run_bind.
  set (lookup := match places_client, activity_location a with
                 | Some c, Some (ch :: loc) =>
                     try_except (lookup_place c a (ch :: loc))
                       (λ e, print (error_line a e))
                 | _, _ => mret ()
                 end).
  assert (keeps_keys lookup) as Hkeys.
  { subst lookup. destruct places_client as [c|]; [|apply keeps_keys_ret].
    destruct (activity_location a) as [[|ch loc]|]; try apply keeps_keys_ret.
    apply keeps_keys_try; [apply keeps_keys_lookup_place|].
    intros e. apply keeps_keys_print. }
  assert (∃ s1, lookup s0 = (Ok (), s1)) as [s1 Hs1].
  { subst lookup. destruct places_client as [c|]; [|by eexists].
    destruct (activity_location a) as [[|ch loc]|]; try by eexists.
    unfold try_except. destruct (lookup_place c a (ch :: loc) s0) as [[[]|e] s1];
      by eexists. }
  assert (after : (match places_client, activity_location a with
                   | Some c, Some (ch :: loc) =>
                       (try_except (lookup_place c a (ch :: loc))
                          (λ e, print (error_line a e)) s0).2
                   | _, _ => s0
                   end) = s1).
  { subst lookup. destruct places_client as [c|]; [|by injection Hs1].
    destruct (activity_location a) as [[|ch loc]|]; try by injection Hs1.
    by rewrite Hs1. }
  rewrite after. unfold error_line in *. fold lookup. rewrite Hs1.
  pose proof (Hkeys _ _ _ Hs1) as Hdom. simpl in Hdom.
  assert (is_Some (place s1 !! str "latitude")) as [lat Hlat].
  { apply elem_of_dom, Hdom, elem_of_dom. by eexists. }
  assert (is_Some (place s1 !! str "longitude")) as [lng Hlng].
  { apply elem_of_dom, Hdom, elem_of_dom. by eexists. }
  rewrite run_bind. cbn [get_place]. rewrite run_bind. unfold lift at 1.
  unfold dict_item at 1. rewrite Hlat. rewrite run_bind. unfold lift at 1.
  unfold dict_item at 1. rewrite Hlng.
  unfold place_or_None, dict_get. rewrite Hlat, Hlng. simpl.
  by destruct (is_None lat || is_None lng).
Qed.

End ExtractorFacts.

Lemma place_or_None_truthy (p q : pydict) :
  place_or_None p = Some q → truthy (VDict q) = true.
Proof.
  unfold place_or_None.
  destruct (is_None (dict_get p "latitude") || is_None (dict_get p "longitude"))
    eqn:Hnone; [done|].
  intros [= <-]. simpl. apply negb_true_iff, bool_decide_eq_false.
  intros ->. unfold dict_get in Hnone. by rewrite lookup_empty in Hnone.
Qed.

Section LoopFacts.
Context {St : Type}.
Implicit Types (s : env (St := St)) (c : option (PlacesClient St)).

(** One turn of the loop over a slot: the activity's place is appended if
    it has coordinates, and the loop goes on with the next activity. *)
Lemma slot_loop_cons a rest day time_of_day c places s :
  slot_loop (a :: rest) day time_of_day c places s
    = slot_loop rest day time_of_day c
        (places ++ option_list
                     (place_or_None (place (after_lookup a day time_of_day c s))))
        (after_lookup a day time_of_day c s).
Proof.
  cbn [slot_loop]. rewrite run_bind, extract_place_info_returns.
  destruct (place_or_None _) as [p|] eqn:Hp; simpl.
  - apply place_or_None_truthy in Hp. simpl in Hp. by rewrite Hp.
  - by rewrite app_nil_r.
Qed.

Lemma slot_loop_returns activities day time_of_day c : ∀ places s,
  ∃ found s',
    slot_loop activities day time_of_day c places s = (Ok (places ++ found), s').
Proof.
  induction activities as [|a rest IH]; intros places s.
  - exists [], s. by rewrite app_nil_r.
  - rewrite slot_loop_cons.
    destruct (IH (places ++ option_list
                    (place_or_None (place (after_lookup a day time_of_day c s))))
                 (after_lookup a day time_of_day c s)) as (found & s' & ->).
    eexists _, s'. by rewrite <-app_assoc.
Qed.

Lemma days_loop_returns days c : ∀ places s,
  ∃ found s', days_loop days c places s = (Ok (places ++ found), s').
Proof.
  induction days as [|day rest IH]; intros places s.
  - exists [], s. by rewrite app_nil_r.
  - cbn [days_loop]. rewrite run_bind.
    destruct (slot_loop_returns (morning day) (day_number day) "morning" c places s)
      as (f1 & s1 & ->).
    rewrite run_bind.
    destruct (slot_loop_returns (afternoon day) (day_number day) "afternoon" c
                (places ++ f1) s1) as (f2 & s2 & ->).
    rewrite run_bind.
    destruct (slot_loop_returns (evening day) (day_number day) "evening" c
                ((places ++ f1) ++ f2) s2) as (f3 & s3 & ->).
    destruct (IH (((places ++ f1) ++ f2) ++ f3) s3) as (found & s' & ->).
    eexists _, s'. by rewrite <-!app_assoc.
Qed.

(** Extraction never raises. *)
Lemma extract_places_returns plan c s :
  ∃ places s', extract_places_from_plan plan c s = (Ok places, s').
Proof.
  unfold extract_places_from_plan. destruct plan as [plan|]; [|by eexists _, _].
  destruct (itinerary plan) as [|day days]; [by eexists _, _|].
  destruct (days_loop_returns (day :: days) c [] s) as (found & s' & ->).
  by eexists _, _.
Qed.

Lemma slot_loop_nothing (R : relation env) `{!PreOrder R} activities day
    time_of_day c : ∀ places s,
  Forall (finds_nothing R c) activities →
  ∃ s', slot_loop activities day time_of_day c places s = (Ok places, s') ∧ R s s'.
Proof.
  induction activities as [|a rest IH]; intros places s Hall.
  - by exists s.
  - apply Forall_cons in Hall as [Ha Hall]. rewrite slot_loop_cons.
    destruct (Ha day time_of_day s) as [-> HR]. simpl. rewrite app_nil_r.
    destruct (IH places (after_lookup a day time_of_day c s) Hall)
      as (s' & -> & HR').
    exists s'. split; [done|]. by etrans.
Qed.

Lemma days_loop_nothing (R : relation env) `{!PreOrder R} days c : ∀ places s,
  Forall (finds_nothing R c) (days ≫= day_activities) →
  ∃ s', days_loop days c places s = (Ok places, s') ∧ R s s'.
Proof.
  induction days as [|day rest IH]; intros places s Hall.
  - by exists s.
  - change (Forall (finds_nothing R c)
              (day_activities day ++ (rest ≫= day_activities))) in Hall.
    unfold day_activities at 1 in Hall.
    apply Forall_app in Hall as [[Hm [Ha He]%Forall_app]%Forall_app Hrest].
    cbn [days_loop]. rewrite run_bind.
    destruct (slot_loop_nothing R (morning day) (day_number day) "morning" c
                places s Hm) as (s1 & -> & R1).
    rewrite run_bind.
    destruct (slot_loop_nothing R (afternoon day) (day_number day) "afternoon" c
                places s1 Ha) as (s2 & -> & R2).
    rewrite run_bind.
    destruct (slot_loop_nothing R (evening day) (day_number day) "evening" c
                places s2 He) as (s3 & -> & R3).
    destruct (IH places s3 Hrest) as (s' & -> & R').
    exists s'. split; [done|]. by repeat (etrans; [eassumption|]).
Qed.

Lemma extract_places_nothing (R : relation env) `{!PreOrder R} plan c s :
  Forall (finds_nothing R c) (plan_activities plan) →
  ∃ s', extract_places_from_plan plan c s = (Ok [], s') ∧ R s s'.
Proof.
  intros Hall. unfold extract_places_from_plan.
  destruct plan as [plan|]; [|by exists s].
  simpl in Hall. destruct (itinerary plan) as [|day days]; [by exists s|].
  by apply days_loop_nothing.
Qed.

End LoopFacts.

#[global] Instance untouched_preorder {St} : PreOrder (@untouched St).
Proof.
  split.
  - by intros s.
  - intros s1 s2 s3 [H1 H2] [H3 H4]. split; congruence.
Qed.

#[global] Instance anything_preorder {St} : PreOrder (@anything St).
Proof. by split. Qed.

Section LookupFacts.
Context {St : Type}.
Implicit Types (s : env (St := St)) (c : PlacesClient St).

Lemma place_or_None_fresh a day time_of_day :
  place_or_None (fresh_place a day time_of_day) = None.
Proof. reflexivity. Qed.

(** Without a client, or without a location hint, there is no lookup. *)
Lemma after_lookup_skipped a day time_of_day places_client s :
  places_client = None ∨ activity_location a = None
    ∨ activity_location a = Some [] →
  after_lookup a day time_of_day places_client s
    = lookup_start a day time_of_day s.
Proof.
  unfold after_lookup, lookup_start.
  intros [->| [-> | ->]]; [done| |]; by destruct places_client.
Qed.

(** A search that raises: the exception is caught and printed, and the
    dictionary is left without coordinates. *)
Lemma after_lookup_search_raises c a day time_of_day s loc e st :
  activity_location a = Some loc → loc ≠ [] →
  search_places c (activity_name a ++ str " " ++ loc) (client_state s)
    = (Raise e, st) →
  after_lookup a day time_of_day (Some c) s
    = {| place := fresh_place a day time_of_day; client_state := st;
         stdout := stdout s ++ [error_line a e] |}.
Proof.
  intros Hloc Hne Hsearch. unfold after_lookup, lookup_start. rewrite Hloc.
  destruct loc as [|ch loc]; [done|].
  unfold try_except, lookup_place. rewrite run_bind.
  unfold call_search. cbn [client_state]. by rewrite Hsearch.
Qed.

(** A photo lookup that raises, after a search that gave a match with a
    location and an identifier: the coordinates of the match are already
    in the dictionary, and stay there. *)
Lemma after_lookup_photo_raises c a day time_of_day s loc results best
    location e st1 st2 :
  activity_location a = Some loc → loc ≠ [] →
  search_places c (activity_name a ++ str " " ++ loc) (client_state s)
    = (Ok results, st1) →
  truthy results = true →
  py_first results = Ok (VDict best) →
  dict_get_default best "location" (VDict ∅) = VDict location →
  truthy (dict_get best "place_id") = true →
  get_place_photo_url c (dict_get best "place_id") st1 = (Raise e, st2) →
  after_lookup a day time_of_day (Some c) s
    = {| place := <[str "longitude" := dict_get location "lng"]>
                  (<[str "latitude" := dict_get location "lat"]>
                   (fresh_place a day time_of_day));
         client_state := st2;
         stdout := stdout s ++ [error_line a e] |}.
Proof.
  intros Hloc Hne Hsearch Hresults Hfirst Hlocation Hid Hphoto.
  unfold after_lookup, lookup_start. rewrite Hloc.
  destruct loc as [|ch loc]; [done|].
  unfold try_except, lookup_place. rewrite run_bind.
  unfold call_search. cbn [client_state]. rewrite Hsearch, Hresults.
  rewrite run_bind. unfold lift at 1. rewrite Hfirst.
  rewrite run_bind. unfold lift at 1. cbn [py_get]. rewrite Hlocation.
  rewrite run_bind. unfold lift at 1. cbn [py_get].
  rewrite run_bind. cbn [set_item].
  rewrite run_bind. unfold lift at 1.
  rewrite run_bind. cbn [set_item].
  rewrite run_bind. unfold lift at 1. cbn [py_get].
  change (dict_get_default best "place_id" VNone)
    with (dict_get best "place_id"). rewrite Hid.
  rewrite run_bind. unfold call_photo. cbn [client_state place stdout].
  rewrite Hphoto. reflexivity.
Qed.

End LookupFacts.

(** ** What extraction returns *)

(** C7. With a client whose every call raises, extraction returns the
    empty list for every plan, from every state: every activity is dropped
    and no exception reaches the caller. *)
Theorem C7_raising_client_yields_nothing {St} (c : PlacesClient St)
    (plan : option TravelPlan) (s : env) :
  always_raises c →
  ∃ s', extract_places_from_plan plan (Some c) s = (Ok [], s').
Proof.
  intros [Hsearch _].
  destruct (extract_places_nothing anything plan (Some c) s) as (s' & Hs' & _);
    [|by exists s'].
  apply Forall_forall. intros a _ day time_of_day s0. split; [|done].
  destruct (activity_location a) as [[|ch loc]|] eqn:Hloc.
  - by rewrite after_lookup_skipped by auto.
  - destruct (Hsearch (activity_name a ++ str " " ++ ch :: loc) (client_state s0))
      as (e & st & Hraise).
    by erewrite after_lookup_search_raises.
  - by rewrite after_lookup_skipped by auto.
Qed.

(** C7 at the Paris plan, four activities, and the client without
    network. *)
Lemma C7_raising_client_yields_nothing_witness :
  always_raises offline_client
  ∧ length (plan_activities (Some paris_plan)) = 4%nat
  ∧ ∃ s', extract_places_from_plan (Some paris_plan) (Some offline_client) start
          = (Ok [], s').
Proof.
  assert (always_raises offline_client) as Hraises
    by (split; intros ? n; eexists _, _; reflexivity).
  split; [exact Hraises|]. split; [reflexivity|].
  exact (C7_raising_client_yields_nothing offline_client (Some paris_plan)
           start Hraises).
Defined.

(** C10. Without a client, or with a plan none of whose activities has a
    location hint (absent or empty), extraction returns the empty list,
    however many activities the plan has; no lookup is made and nothing is
    printed. *)
Theorem C10_no_client_or_no_location {St}
    (places_client : option (PlacesClient St)) (plan : option TravelPlan)
    (s : env) :
  places_client = None
    ∨ Forall (λ a, activity_location a = None ∨ activity_location a = Some [])
             (plan_activities plan) →
  ∃ s', extract_places_from_plan plan places_client s = (Ok [], s')
        ∧ client_state s' = client_state s ∧ stdout s' = stdout s.
Proof.
  intros Hno.
  destruct (extract_places_nothing untouched plan places_client s)
    as (s' & Hs' & Hclient & Hout); [|by exists s'].
  apply Forall_forall. intros a Ha day time_of_day s0.
  rewrite after_lookup_skipped; [done|].
  destruct Hno as [->|Hall]; [by left|right].
  rewrite Forall_forall in Hall. by apply Hall.
Qed.

(** C10 at the Paris plan without a client, and at a plan without any
    location hint with a client that would find every place. *)
Lemma C10_no_client_or_no_location_witness :
  length (plan_activities (Some paris_plan)) = 4%nat
  ∧ (∃ s', extract_places_from_plan (Some paris_plan) None start = (Ok [], s')
           ∧ client_state s' = 0%nat ∧ stdout s' = [])
  ∧ Forall (λ a, activity_location a = None ∨ activity_location a = Some [])
           (plan_activities (Some idle_plan))
  ∧ (∃ s', extract_places_from_plan (Some idle_plan) (Some photo_down_client) start
           = (Ok [], s')
           ∧ client_state s' = 0%nat ∧ stdout s' = []).
Proof.
  assert (Forall (λ a, activity_location a = None ∨ activity_location a = Some [])
                 (plan_activities (Some idle_plan))) as Hidle
    by (repeat constructor; auto).
  split; [reflexivity|]. split; [|split; [exact Hidle|]].
  - exact (C10_no_client_or_no_location None (Some paris_plan) start
             (or_introl eq_refl)).
  - exact (C10_no_client_or_no_location (Some photo_down_client)
             (Some idle_plan) start (or_intror Hidle)).
Defined.

Lemma place_or_None_located a day time_of_day location :
  place_or_None (located_place a day time_of_day location)
    = if is_None (dict_get location "lat") || is_None (dict_get location "lng")
      then None
      else Some (located_place a day time_of_day location).
Proof.
  unfold place_or_None, located_place, dict_get at 1 3.
  rewrite lookup_insert_ne by (by vm_compute).
  by rewrite !lookup_insert_eq.
Qed.

(** C2 as stated fails.  The photo lookup of [photo_down_client] raises,
    the exception leaves the [try] block, and yet the activity is not
    treated as one without coordinates: [_extract_place_info] does not
    return [None], and the Louvre is in the output of the extraction, with
    the coordinates of the match and no photo.  The failure is printed. *)
Lemma C2_photo_failure_keeps_activity :
  get_place_photo_url photo_down_client (VStr (str "louvre-id")) 1%nat
    = (Raise (Exn "TimeoutError" (str "photo service timed out")), 2%nat)
  ∧ (lookup_place photo_down_client louvre (str "Paris")
       (lookup_start louvre 1 "morning" start)).1
    = Raise (Exn "TimeoutError" (str "photo service timed out"))
  ∧ (_extract_place_info louvre 1 "morning" (Some photo_down_client) start).1
    ≠ Ok None
  ∧ (extract_places_from_plan (Some louvre_plan) (Some photo_down_client) start).1
    = Ok [located_place louvre 1 "morning" louvre_location]
  ∧ dict_get (located_place louvre 1 "morning" louvre_location) "latitude"
    = VFloat 48.8606
  ∧ dict_get (located_place louvre 1 "morning" louvre_location) "longitude"
    = VFloat 2.3376
  ∧ dict_get (located_place louvre 1 "morning" louvre_location) "photo_url"
    = VNone
  ∧ stdout (extract_places_from_plan (Some louvre_plan)
              (Some photo_down_client) start).2
    = [str "Error fetching place info for Louvre: photo service timed out"].
Proof.
  assert ((_extract_place_info louvre 1 "morning" (Some photo_down_client)
             start).1
          = Ok (Some (located_place louvre 1 "morning" louvre_location)))
    as Hkept by (vm_compute; reflexivity).
  split; [vm_compute; reflexivity|]. split; [vm_compute; reflexivity|].
  split; [rewrite Hkept; discriminate|].
  repeat apply conj; vm_compute; reflexivity.
Qed.

(** C2 (amended). Whatever the client does for an activity, the exception
    of a failed lookup is caught: [_extract_place_info] returns, and the
    loop goes on with the next activity.  When the search call raises, the
    activity is left without coordinates and is excluded; the failure is
    printed.  When the photo call raises, after a search whose first match
    is a dictionary with a location and an identifier, the coordinates of
    the match are already stored: the activity is excluded only if one of
    them is [None], and is otherwise kept, without a photo.  Extraction as
    a whole returns a list for every plan. *)
Theorem C2_lookup_failures_caught {St} (c : PlacesClient St) (a : Activity)
    (day : Z) (time_of_day : string) (s : env) :
  (∃ found s',
     _extract_place_info a day time_of_day (Some c) s = (Ok found, s')
     ∧ ∀ rest places,
         slot_loop (a :: rest) day time_of_day (Some c) places s
           = slot_loop rest day time_of_day (Some c)
               (places ++ option_list found) s')
  ∧ (∀ loc e st,
       activity_location a = Some loc → loc ≠ [] →
       search_places c (activity_name a ++ str " " ++ loc) (client_state s)
         = (Raise e, st) →
       _extract_place_info a day time_of_day (Some c) s
         = (Ok None,
            {| place := fresh_place a day time_of_day; client_state := st;
               stdout := stdout s ++ [error_line a e] |}))
  ∧ (∀ loc results best location e st1 st2,
       activity_location a = Some loc → loc ≠ [] →
       search_places c (activity_name a ++ str " " ++ loc) (client_state s)
         = (Ok results, st1) →
       truthy results = true →
       py_first results = Ok (VDict best) →
       dict_get_default best "location" (VDict ∅) = VDict location →
       truthy (dict_get best "place_id") = true →
       get_place_photo_url c (dict_get best "place_id") st1 = (Raise e, st2) →
       _extract_place_info a day time_of_day (Some c) s
         = (Ok (if is_None (dict_get location "lat")
                   || is_None (dict_get location "lng")
                then None
                else Some (located_place a day time_of_day location)),
            {| place := located_place a day time_of_day location;
               client_state := st2;
               stdout := stdout s ++ [error_line a e] |}))
  ∧ (∀ plan, ∃ places s',
       extract_places_from_plan plan (Some c) s = (Ok places, s')).
Proof.
  split; [|split; [|split]]; [| | |intros plan; apply extract_places_returns].
  - eexists _, _. split; [apply extract_place_info_returns|].
    intros rest places. apply slot_loop_cons.
  - intros loc e st Hloc Hne Hsearch.
    rewrite extract_place_info_returns.
    by erewrite after_lookup_search_raises.
  - intros loc results best location e st1 st2 Hloc Hne Hsearch Htruthy Hfirst
      Hlocation Hid Hphoto.
    rewrite extract_place_info_returns.
    erewrite after_lookup_photo_raises by eassumption.
    cbn [place]. fold (located_place a day time_of_day location).
    by rewrite place_or_None_located.
Qed.

(** C2 (amended) at the Louvre: dropped when the search raises, kept with
    its coordinates when only the photo lookup raises. *)
Lemma C2_lookup_failures_caught_witness :
  (∃ s', _extract_place_info louvre 1 "morning" (Some offline_client) start
         = (Ok None, s')
         ∧ stdout s'
           = [str "Error fetching place info for Louvre: network unreachable"])
  ∧ (∃ s', _extract_place_info louvre 1 "morning" (Some photo_down_client) start
           = (Ok (Some (located_place louvre 1 "morning" louvre_location)), s')
           ∧ stdout s'
             = [str "Error fetching place info for Louvre: photo service timed out"]).
Proof.
  destruct (C2_lookup_failures_caught offline_client louvre 1 "morning" start)
    as (_ & Hsearch & _ & _).
  destruct (C2_lookup_failures_caught photo_down_client louvre 1 "morning" start)
    as (_ & _ & Hphoto & _).
  split.
  - eexists. split.
    + apply (Hsearch (str "Paris")
               (Exn "ConnectionError" (str "network unreachable")) 1%nat);
        [reflexivity|discriminate|reflexivity].
    + reflexivity.
  - eexists. split.
    + apply (Hphoto (str "Paris") (VList [louvre_match]) louvre_best
               louvre_location
               (Exn "TimeoutError" (str "photo service timed out"))
               1%nat 2%nat);
        [reflexivity|discriminate|reflexivity|reflexivity|reflexivity
        |vm_compute; reflexivity|vm_compute; reflexivity|reflexivity].
    + reflexivity.
Defined.

(** ** Zero coordinates *)

Lemma zero_number_falsy (v : pyval) :
  is_zero_number v = true → truthy v = false ∧ is_None v = false.
Proof. destruct v; try done; simpl; by intros ->. Qed.

Lemma zero_coordinate_filtered (p : pydict) :
  zero_coordinate p = true → has_coordinates p = false.
Proof.
  unfold zero_coordinate, has_coordinates.
  intros [[-> _]%zero_number_falsy|[-> _]%zero_number_falsy]%orb_true_iff;
    [done|by rewrite andb_false_r].
Qed.

Section CountFacts.
Context `{Builtins}.

(** The markers of a rendered map are as many as the records that pass
    the filter. *)
Lemma marker_count places center zoom m :
  create_itinerary_map places center zoom = Ok m →
  length (markers m) = length (List.filter has_coordinates places).
Proof.
  rewrite create_itinerary_map_unfold.
  destruct (List.filter has_coordinates places) as [|p valid]; [by intros [= <-]|].
  intros (c & _ & Hrender)%bind_Ok.
  apply render_places_Ok in Hrender
    as (mks & legend & Hlen & _ & _ & _ & _ & Hchildren & _ & _).
  simpl in Hchildren. by apply markers_app_lines in Hchildren as [-> _].
Qed.

(** A record that does not pass the filter leaves no trace on the map. *)
Lemma create_itinerary_map_drop ps1 p ps2 center zoom :
  has_coordinates p = false →
  create_itinerary_map (ps1 ++ p :: ps2) center zoom
    = create_itinerary_map (ps1 ++ ps2) center zoom.
Proof.
  intros Hp. rewrite !create_itinerary_map_unfold, !List.filter_app. simpl.
  by rewrite Hp.
Qed.

End CountFacts.

(** C1 does not hold of the code.  A record on the equator has both coordinates,
    yet the filter drops it: alone it gives the fallback map without any
    marker, and next to the Louvre it leaves a map with one marker for two
    records with coordinates. *)
Theorem C1_equator_record_gets_no_marker `{Builtins} :
  both_present equator_stop = true
  ∧ has_coordinates equator_stop = false
  ∧ create_itinerary_map [equator_stop] None 12
    = Ok (folium_Map fallback_center 12 None)
  ∧ markers (folium_Map fallback_center 12 None) = []
  ∧ length (List.filter both_present
              [stop "Louvre" 48.8606 2.3376 1 "morning"; equator_stop]) = 2%nat
  ∧ (λ m, length (markers m))
      <$> create_itinerary_map
            [stop "Louvre" 48.8606 2.3376 1 "morning"; equator_stop] None 12
    = Ok 1%nat.
Proof.
  assert (has_coordinates equator_stop = false) as Hdrop
    by (vm_compute; reflexivity).
  split; [vm_compute; reflexivity|]. split; [exact Hdrop|].
  split; [|split; [reflexivity|split; [vm_compute; reflexivity|]]].
  - by rewrite create_itinerary_map_unfold, filter_nil_Forall
      by (by repeat constructor).
  - change [stop "Louvre" 48.8606 2.3376 1 "morning"; equator_stop]
      with ([stop "Louvre" 48.8606 2.3376 1 "morning"] ++ equator_stop :: []).
    rewrite create_itinerary_map_drop by done.
    destruct (create_itinerary_map _ None 12) as [m|e] eqn:Hmap.
    + apply marker_count in Hmap. cbn [fmap result_fmap]. f_equal.
      rewrite Hmap. vm_compute. reflexivity.
    + exfalso. vm_compute in Hmap. discriminate Hmap.
Qed.

Lemma place_or_None_present (p : pydict) :
  place_or_None p = if both_present p then Some p else None.
Proof.
  unfold place_or_None, both_present.
  by destruct (is_None (dict_get p "latitude")),
              (is_None (dict_get p "longitude")).
Qed.

(** C9. The renderer's filter tests the truth value of the coordinates: a
    record whose latitude or longitude is zero (the int 0, or the float 0.0
    of either sign) does not pass it, and the call gives what it gives
    without the record: no marker, no part in the centre, the lines, the
    legend or the bounds.  The extractor tests for [None] only: it returns
    the dictionary it has built whenever both coordinates are there, zero
    or not.  So extraction can emit a record that rendering drops: the
    monument found on the equator is extracted, and rendering what was
    extracted gives the fallback map. *)
Theorem C9_zero_coordinates_dropped_by_renderer :
  (∀ (B : Builtins) ps1 p ps2 center zoom,
     zero_coordinate p = true →
     has_coordinates p = false
     ∧ create_itinerary_map (ps1 ++ p :: ps2) center zoom
       = create_itinerary_map (ps1 ++ ps2) center zoom)
  ∧ (∀ St (a : Activity) day time_of_day (c : option (PlacesClient St)) s,
       ∃ s', _extract_place_info a day time_of_day c s
             = (Ok (if both_present (place s') then Some (place s') else None), s'))
  ∧ (extract_places_from_plan (Some quito_plan) (Some equator_client) start).1
    = Ok [located_place monument 1 "morning" monument_location]
  ∧ dict_get (located_place monument 1 "morning" monument_location) "latitude"
    = VFloat 0
  ∧ both_present (located_place monument 1 "morning" monument_location) = true
  ∧ (∀ (B : Builtins) center zoom,
       create_itinerary_map
         [located_place monument 1 "morning" monument_location] center zoom
       = Ok (folium_Map fallback_center zoom None)).
Proof.
  split; [|split; [|repeat apply conj; vm_compute; reflexivity]].
  - intros B ps1 p ps2 center zoom Hzero.
    pose proof (zero_coordinate_filtered p Hzero) as Hdrop.
    split; [done|]. by apply create_itinerary_map_drop.
  - intros St a day time_of_day c s. eexists.
    rewrite extract_place_info_returns. by rewrite place_or_None_present.
Qed.

(** C9 at the stop on the equator: rendering it after the Louvre gives the
    map of the Louvre alone. *)
Lemma C9_zero_coordinates_dropped_by_renderer_witness :
  zero_coordinate equator_stop = true
  ∧ both_present equator_stop = true
  ∧ has_coordinates equator_stop = false
  ∧ create_itinerary_map (H := ascii_builtins)
      ([stop "Louvre" 48.8606 2.3376 1 "morning"] ++ equator_stop :: []) None 12
    = create_itinerary_map (H := ascii_builtins)
        ([stop "Louvre" 48.8606 2.3376 1 "morning"] ++ []) None 12.
Proof.
  assert (zero_coordinate equator_stop = true) as Hzero
    by (vm_compute; reflexivity).
  destruct C9_zero_coordinates_dropped_by_renderer as (Hrender & _).
  destruct (Hrender ascii_builtins [stop "Louvre" 48.8606 2.3376 1 "morning"]
              equator_stop [] None 12 Hzero) as [Hdrop Hsame].
  split; [exact Hzero|]. split; [vm_compute; reflexivity|].
  split; [exact Hdrop|exact Hsame].
Defined.

(** ** Rendering returns *)

Section ReturnFacts.
Context `{Builtins}.

Lemma popup_html_returns name description photo_url day time_of_day time_icon :
  text_or_falsy time_of_day → text_or_falsy description →
  ∃ html, _create_popup_html name description photo_url day time_of_day time_icon
          = Ok html.
Proof.
  intros Htime Hdesc. unfold _create_popup_html.
  assert (∃ t, (if truthy time_of_day then time_block time_icon time_of_day
                else Ok []) = Ok t) as [t ->].
  { destruct Htime as [->|[s ->]]; [by eexists|].
    destruct (truthy (VStr s)); by eexists. }
  cbn [mbind result_bind].
  destruct Hdesc as [->|[s ->]]; [by eexists|].
  destruct (truthy (VStr s)); [|by eexists].
  cbn [py_len mbind result_bind].
  destruct (bool_decide (150 < length s)%nat); by eexists.
Qed.

Lemma make_marker_returns i p :
  has_coordinates p = true → drawable p → ∃ mk, make_marker i p = Ok mk.
Proof.
  intros [Hlat Hlng]%andb_true_iff ([d Hday] & Htime & Hdesc).
  unfold make_marker. rewrite !dict_item_truthy by done.
  cbn [mbind result_bind]. rewrite Hday.
  destruct (day_color_int d) as [-> _]. cbn [mbind result_bind].
  assert (∃ icon, time_icon_of (dict_get_default p "time" (VStr [])) = Ok icon)
    as [icon ->].
  { unfold time_icon_of. destruct Htime as [->|[s ->]]; [by eexists|].
    destruct (truthy (VStr s)); by eexists. }
  cbn [mbind result_bind].
  edestruct popup_html_returns as [html ->]; [exact Htime|exact Hdesc|].
  by eexists.
Qed.

Lemma add_markers_returns ps : ∀ i m coords,
  Forall (λ p, has_coordinates p = true) ps → Forall drawable ps →
  ∃ r, add_markers i ps m coords = Ok r.
Proof.
  induction ps as [|p ps IH]; intros i m coords Hvalid Hdraw; [by eexists|].
  apply Forall_cons in Hvalid as [Hp Hvalid].
  apply Forall_cons in Hdraw as [Hd Hdraw].
  cbn [add_markers]. destruct (make_marker_returns i p Hp Hd) as [mk ->].
  cbn [mbind result_bind]. by apply IH.
Qed.

(** Drawable places with coordinates are rendered. *)
Lemma render_places_returns valid_places m :
  Forall (λ p, has_coordinates p = true) valid_places →
  Forall drawable valid_places →
  ∃ m', render_places valid_places m = Ok m'.
Proof.
  intros Hvalid Hdraw. unfold render_places.
  destruct (add_markers_returns valid_places 0 m [] Hvalid Hdraw)
    as [[m1 coords] Hmk].
  rewrite Hmk. cbn [mbind result_bind].
  apply add_markers_Ok in Hmk as (mks & -> & -> & Hlen & Hall).
  rewrite legend_html_ints
    by (eapply Forall_impl; [exact Hall|]; intros p [Hp _]; by eexists).
  rewrite app_nil_l, length_fmap.
  destruct (bool_decide (1 < length valid_places)%nat) eqn:Hlong.
  - rewrite add_lines_runs; [by eexists| |done].
    intros ->. apply bool_decide_eq_true in Hlong. simpl in Hlong. lia.
  - by eexists.
Qed.

Lemma filter_valid (places : list pydict) :
  Forall (λ p, has_coordinates p = true) (List.filter has_coordinates places).
Proof. apply Forall_forall. by intros p [_ Hp]%list_elem_of_In%filter_In. Qed.

Lemma Forall_filter_sub {A} (P : A → Prop) (f : A → bool) (l : list A) :
  Forall P l → Forall P (List.filter f l).
Proof.
  rewrite !Forall_forall. intros Hall x [Hx _]%list_elem_of_In%filter_In.
  by apply Hall, list_elem_of_In.
Qed.

Lemma float_values (vs : list pyval) :
  Forall (λ v, ∃ f, v = VFloat f) vs → ∃ fs, vs = VFloat <$> fs.
Proof.
  induction 1 as [|v vs [f ->] _ [fs ->]]; [by exists []|by exists (f :: fs)].
Qed.

Lemma arithmetic_mean_returns (vs : list pyval) :
  vs ≠ [] → Forall (λ v, ∃ f, v = VFloat f) vs →
  ∃ f, arithmetic_mean vs = Ok (VFloat f).
Proof.
  intros Hne [fs ->]%float_values. destruct fs as [|f fs]; [done|].
  rewrite arithmetic_mean_floats. by eexists.
Qed.

(** The renderer's own code returns a map for every list of drawable
    places when a centre is supplied, and also without one when the
    coordinates are floats (the map library's check of the coordinates
    apart). *)
Lemma create_itinerary_map_returns places center zoom :
  Forall drawable places →
  is_Some center ∨ Forall float_coordinates places →
  ∃ m, create_itinerary_map places center zoom = Ok m.
Proof.
  intros Hdraw Hcenter. rewrite create_itinerary_map_unfold.
  pose proof (filter_valid places) as Hvalid.
  pose proof (Forall_filter_sub _ has_coordinates _ Hdraw) as Hdraw'.
  destruct (filter_has_coordinates places) as [Hlat Hlng].
  assert (is_Some center
          ∨ Forall float_coordinates (List.filter has_coordinates places))
    as Hcenter' by (destruct Hcenter; [by left|right; by apply Forall_filter_sub]).
  destruct (List.filter has_coordinates places) as [|p valid]; [by eexists|].
  destruct center as [c|].
  - cbv zeta iota. cbn [mbind result_bind]. by apply render_places_returns.
  - destruct Hcenter' as [[c Hc]|Hfloat]; [done|]. cbv zeta iota.
    rewrite !average_key_valid by done.
    destruct (arithmetic_mean_returns ((λ q, dict_get q "latitude") <$> p :: valid))
      as [lat ->]; [done| |].
    { apply Forall_fmap. eapply Forall_impl; [exact Hfloat|].
      intros q (f & g & Hf & _). exists f. exact Hf. }
    destruct (arithmetic_mean_returns ((λ q, dict_get q "longitude") <$> p :: valid))
      as [lng ->]; [done| |].
    { apply Forall_fmap. eapply Forall_impl; [exact Hfloat|].
      intros q (f & g & _ & Hg). exists g. exact Hg. }
    cbn [mbind result_bind]. by apply render_places_returns.
Qed.

End ReturnFacts.

(** * Further properties *)

(** ** Markers *)

Section MarkerFacts.
Context `{Builtins}.

Lemma make_marker_fields i p mk :
  make_marker i p = Ok mk →
  marker_location mk = place_point p
  ∧ icon_html mk = marker_icon (palette_color (day_of p)) (Z.of_nat i + 1)
  ∧ tooltip mk = str "Day " ++ format_int (day_of p) ++ str ": "
                 ++ py_format (place_name i p)
  ∧ popup_max_width mk = 300.
Proof.
  intros Hmk. pose proof (make_marker_Ok _ _ _ Hmk) as (Hday & _ & _).
  unfold make_marker in Hmk.
  apply bind_Ok in Hmk as (lat & Hlat & (lng & Hlng & Hrest)%bind_Ok).
  rewrite Hday in Hrest. destruct (day_color_int (day_of p)) as [Hcolor _].
  rewrite Hcolor in Hrest. cbn [mbind result_bind] in Hrest.
  apply bind_Ok in Hrest as (icon & _ & (popup & _ & [= <-])%bind_Ok).
  cbn [marker_location icon_html tooltip popup_max_width py_format].
  unfold place_point.
  by rewrite (dict_item_Ok _ _ _ Hlat), (dict_item_Ok _ _ _ Hlng).
Qed.

(** The marker loop makes one marker per place, in order, and numbers
    them from the index it starts at. *)
Lemma add_markers_lookup ps : ∀ i m coords m' coords',
  add_markers i ps m coords = Ok (m', coords') →
  ∃ mks, m' = add_all (MarkerChild <$> mks) m
         ∧ length mks = length ps
         ∧ ∀ j p, ps !! j = Some p →
             ∃ mk, mks !! j = Some mk ∧ make_marker (i + j) p = Ok mk.
Proof.
  induction ps as [|p ps IH]; intros i m coords m' coords'; simpl.
  - intros [= <- <-]. exists []. rewrite add_all_nil. by repeat split.
  - intros (mk & Hmk & Hrest)%bind_Ok.
    apply IH in Hrest as (mks & -> & Hlen & Hall).
    exists (mk :: mks). rewrite add_to_add_all, add_all_app.
    split; [done|]. split; [simpl; by rewrite Hlen|].
    intros [|j] q Hq; simpl in Hq.
    + injection Hq as <-. exists mk. by rewrite Nat.add_0_r.
    + destruct (Hall j q Hq) as (mk' & Hmk' & Hmake).
      exists mk'. split; [done|]. by rewrite Nat.add_succ_r.
Qed.

(** The children of a rendered map: the markers of the places, then the
    lines that connect them. *)
Lemma render_places_children valid_places m m' :
  render_places valid_places m = Ok m' →
  ∃ mks,
    length mks = length valid_places
    ∧ (∀ j p, valid_places !! j = Some p →
         ∃ mk, mks !! j = Some mk ∧ make_marker j p = Ok mk)
    ∧ children m' = children m ++ (MarkerChild <$> mks)
                    ++ (PolyLineChild <$> connecting_lines valid_places).
Proof.
  intros Hrender. pose proof Hrender as Hmk. unfold render_places in Hmk.
  apply bind_Ok in Hmk as ([m1 coords] & Hmk & Hrest).
  pose proof (add_markers_Ok _ _ _ _ _ _ Hmk) as (_ & _ & -> & _ & Hall).
  apply add_markers_lookup in Hmk as (mks & -> & Hlen & Hlookup).
  exists mks. split; [done|]. split; [exact Hlookup|].
  rewrite app_nil_l, length_fmap in Hrest.
  apply bind_Ok in Hrest as (m2 & Hlines & (legend & _ & [= <-])%bind_Ok).
  unfold connecting_lines.
  destruct (bool_decide (1 < length valid_places)%nat) eqn:Hlong.
  - rewrite add_lines_runs in Hlines; [|by destruct valid_places|done].
    injection Hlines as <-. simpl. by rewrite <-app_assoc.
  - injection Hlines as <-. simpl. by rewrite app_nil_r.
Qed.

End MarkerFacts.

Lemma marker_icon_color (color : pystr) (number : Z) :
  occurs_in (str "background-color: " ++ color ++ str ";")
    (marker_icon color number).
Proof.
  unfold marker_icon. apply (occurs_in_concat _ 6 3).
  cbn [firstn skipn concat]. by rewrite app_nil_r.
Qed.

Lemma marker_icon_number (color : pystr) (number : Z) :
  occurs_in (str ">" ++ format_int number ++ str "</div>")
    (marker_icon color number).
Proof.
  unfold marker_icon. apply (occurs_in_concat _ 45 3).
  cbn [firstn skipn concat]. by rewrite app_nil_r.
Qed.

(** X1. In a rendered map the markers stand for the records that pass the
    filter, one for one and in the same order.  The marker at position [j]
    lies at the coordinates of the [j]-th such record; its icon is the
    numbered disc, in which the palette colour of the record's day is the
    background colour and the number [j + 1] is the text; its tooltip is
    "Day d: name", where an absent name reads "Stop" and the same number. *)
Theorem X1_markers_follow_records `{Builtins} (places : list pydict)
    (center : option coord) (zoom : Z) (m : Map) :
  create_itinerary_map places center zoom = Ok m →
  length (markers m) = length (List.filter has_coordinates places)
  ∧ ∀ j p, List.filter has_coordinates places !! j = Some p →
      ∃ mk, markers m !! j = Some mk
            ∧ marker_location mk = place_point p
            ∧ icon_html mk
              = marker_icon (palette_color (day_of p)) (Z.of_nat j + 1)
            ∧ occurs_in (str "background-color: " ++ palette_color (day_of p)
                         ++ str ";") (icon_html mk)
            ∧ occurs_in (str ">" ++ format_int (Z.of_nat j + 1) ++ str "</div>")
                (icon_html mk)
            ∧ tooltip mk
              = str "Day " ++ format_int (day_of p) ++ str ": "
                ++ py_format (place_name j p)
            ∧ popup_max_width mk = 300.
Proof.
  intros Hmap. split; [by eapply marker_count|].
  rewrite create_itinerary_map_unfold in Hmap.
  destruct (List.filter has_coordinates places) as [|q valid] eqn:Hvalid;
    [by intros j p|].
  apply bind_Ok in Hmap as (c & _ & Hrender).
  apply render_places_children in Hrender as (mks & _ & Hlookup & Hchildren).
  simpl in Hchildren. apply markers_app_lines in Hchildren as [-> _].
  intros j p Hp. destruct (Hlookup j p Hp) as (mk & Hmk & Hmake).
  exists mk. split; [done|].
  apply make_marker_fields in Hmake as (Hloc & Hicon & Htip & Hwidth).
  rewrite Hicon. repeat split; try done.
  - exact (marker_icon_color (palette_color (day_of p)) (Z.of_nat j + 1)).
  - exact (marker_icon_number (palette_color (day_of p)) (Z.of_nat j + 1)).
Qed.

(** X1 at the four stops: the third marker is Versailles, numbered 3 on
    the colour of day 2. *)
Lemma X1_markers_follow_records_witness :
  create_itinerary_map (H := ascii_builtins) four_stops None 12 = Ok four_stops_map
  ∧ length (markers four_stops_map) = 4%nat
  ∧ ∃ mk, markers four_stops_map !! 2%nat = Some mk
          ∧ marker_location mk = (VFloat 48.8049, VFloat 2.1204)
          ∧ occurs_in (str "background-color: #3498db;") (icon_html mk)
          ∧ occurs_in (str ">3</div>") (icon_html mk)
          ∧ tooltip mk = str "Day 2: Versailles".
Proof.
  assert (create_itinerary_map (H := ascii_builtins) four_stops None 12
          = Ok four_stops_map) as Hmap by (vm_compute; reflexivity).
  destruct (X1_markers_follow_records four_stops None 12 four_stops_map Hmap)
    as [Hcount Hmarkers].
  split; [exact Hmap|]. split; [rewrite Hcount; vm_compute; reflexivity|].
  destruct (Hmarkers 2%nat (stop "Versailles" 48.8049 2.1204 2 "morning"))
    as (mk & Hmk & Hloc & _ & Hcolor & Hnumber & Htip & _);
    [vm_compute; reflexivity|].
  exists mk. split; [exact Hmk|].
  rewrite Hloc, Htip. split; [vm_compute; reflexivity|].
  split; [exact Hcolor|]. split; [exact Hnumber|]. vm_compute. reflexivity.
Defined.

(** ** The frame of a rendered map *)

(** X2. A map rendered from at least one record that passes the filter
    keeps the requested zoom and uses the "cartodbpositron" tiles; its
    children are the markers followed by the connecting lines; it carries
    exactly one legend, that of the filtered records.  The view is fitted
    to the coordinates of all the markers, in order, when there are two
    records or more, and is left alone for a single record. *)
Theorem X2_frame_of_rendered_map `{Builtins} (places : list pydict)
    (center : option coord) (zoom : Z) (m : Map) :
  List.filter has_coordinates places ≠ [] →
  create_itinerary_map places center zoom = Ok m →
  zoom_start m = zoom
  ∧ tiles m = Some (str "cartodbpositron")
  ∧ children m = (MarkerChild <$> markers m) ++ (PolyLineChild <$> polylines m)
  ∧ polylines m = connecting_lines (List.filter has_coordinates places)
  ∧ (∃ legend,
       _create_legend_html (List.filter has_coordinates places) day_colors
         = Ok legend
       ∧ root_html m = [legend])
  ∧ bounds m
    = if bool_decide (1 < length (List.filter has_coordinates places))%nat
      then Some (place_point <$> List.filter has_coordinates places)
      else None.
Proof.
  intros Hvalid Hmap. rewrite create_itinerary_map_unfold in Hmap.
  destruct (List.filter has_coordinates places) as [|p valid]; [done|].
  apply bind_Ok in Hmap as (c & _ & Hrender).
  apply render_places_Ok in Hrender
    as (mks & legend & _ & Hlegend & _ & Hzoom & Htiles & Hchildren & Hroot
        & Hbounds).
  simpl in Hchildren, Hroot, Hbounds, Hzoom, Htiles.
  destruct (markers_app_lines _ _ _ Hchildren) as [-> ->].
  repeat split; try done. by exists legend.
Qed.

(** X2 at the four stops (bounds fitted to the four markers) and at a
    single stop (no line, no bounds). *)
Lemma X2_frame_of_rendered_map_witness :
  List.filter has_coordinates four_stops ≠ []
  ∧ create_itinerary_map (H := ascii_builtins) four_stops None 12 = Ok four_stops_map
  ∧ zoom_start four_stops_map = 12
  ∧ bounds four_stops_map
    = Some [ (VFloat 48.8606, VFloat 2.3376); (VFloat 48.853, VFloat 2.3499);
             (VFloat 48.8049, VFloat 2.1204); (VFloat 48.8867, VFloat 2.3431) ]
  ∧ ((λ m, (length (markers m), polylines m, bounds m))
       <$> create_itinerary_map (H := ascii_builtins)
             [stop "Louvre" 48.8606 2.3376 1 "morning"] None 12)
    = Ok (1%nat, [], None).
Proof.
  assert (List.filter has_coordinates four_stops ≠ []) as Hvalid.
  { assert (length (List.filter has_coordinates four_stops) = 4%nat) as Hlen
      by (vm_compute; reflexivity).
    intros Hnil. rewrite Hnil in Hlen. discriminate Hlen. }
  assert (create_itinerary_map (H := ascii_builtins) four_stops None 12
          = Ok four_stops_map) as Hmap by (vm_compute; reflexivity).
  destruct (X2_frame_of_rendered_map four_stops None 12 four_stops_map
              Hvalid Hmap) as (Hzoom & _ & _ & _ & _ & Hbounds).
  split; [exact Hvalid|]. split; [exact Hmap|]. split; [exact Hzoom|].
  split; [rewrite Hbounds; vm_compute; reflexivity|].
  vm_compute. reflexivity.
Defined.

(** ** Records that do not pass the filter *)

Lemma filter_filter {A} (f : A → bool) (l : list A) :
  List.filter f (List.filter f l) = List.filter f l.
Proof.
  induction l as [|x l IH]; [done|]. simpl.
  destruct (f x) eqn:Hx; [|done]. simpl. by rewrite Hx, IH.
Qed.

(** X3. Rendering looks at the records that pass the filter and at nothing
    else: the call gives the same result, map or exception, as the call on
    the filtered list.  Records without usable coordinates may hold
    anything. *)
Theorem X3_only_filtered_records_matter `{Builtins} (places : list pydict)
    (center : option coord) (zoom : Z) :
  create_itinerary_map places center zoom
    = create_itinerary_map (List.filter has_coordinates places) center zoom.
Proof. by rewrite !create_itinerary_map_unfold, filter_filter. Qed.

(** ** Where rendering succeeds *)

Section ReadyFacts.
Context `{Builtins}.

Lemma time_icon_of_ready (time_of_day : pyval) :
  (∃ icon, time_icon_of time_of_day = Ok icon) ↔ text_or_falsy time_of_day.
Proof.
  unfold time_icon_of. split.
  - intros [icon Hicon]. destruct (truthy time_of_day) eqn:Ht; [|by left].
    destruct time_of_day; try done. right. by eexists.
  - intros [->|[s ->]]; [by eexists|]. destruct (truthy (VStr s)); by eexists.
Qed.

Lemma popup_html_ready name description photo_url day time_of_day time_icon :
  (∃ html, _create_popup_html name description photo_url day time_of_day
             time_icon = Ok html)
  ↔ text_or_falsy time_of_day ∧ showable_description description.
Proof.
  unfold _create_popup_html. split.
  - intros [html Hhtml].
    apply bind_Ok in Hhtml as (t & Htime & (d & Hdesc & _)%bind_Ok). split.
    + destruct (truthy time_of_day) eqn:Ht; [|by left].
      destruct time_of_day; try done. right. by eexists.
    + destruct (truthy description) eqn:Hd; [|by left].
      apply bind_Ok in Hdesc as (n & Hn & (desc & Hcut & _)%bind_Ok).
      destruct description as [| | |s|l|m]; try done.
      * right. left. by eexists.
      * right. right. left. exists l. split; [done|].
        injection Hn as <-. destruct (bool_decide (150 < length l)%nat) eqn:Hlong;
          [done|]. apply bool_decide_eq_false in Hlong. lia.
      * right. right. right. exists m. split; [done|].
        injection Hn as <-. destruct (bool_decide (150 < size m)%nat) eqn:Hlong;
          [done|]. apply bool_decide_eq_false in Hlong. lia.
  - intros [Htime Hdesc].
    assert (∃ t, (if truthy time_of_day then time_block time_icon time_of_day
                  else Ok []) = Ok t) as [t ->].
    { destruct Htime as [->|[s ->]]; [by eexists|].
      destruct (truthy (VStr s)); by eexists. }
    cbn [mbind result_bind].
    destruct Hdesc as [->|[[s ->]|[(l & -> & Hl)|(m & -> & Hm)]]];
      [by eexists| | |].
    + destruct (truthy (VStr s)); [|by eexists]. cbn [py_len mbind result_bind].
      destruct (bool_decide (150 < length s)%nat); by eexists.
    + destruct (truthy (VList l)); [|by eexists]. cbn [py_len mbind result_bind].
      rewrite bool_decide_eq_false_2 by lia. by eexists.
    + destruct (truthy (VDict m)); [|by eexists]. cbn [py_len mbind result_bind].
      rewrite bool_decide_eq_false_2 by lia. by eexists.
Qed.

Lemma make_marker_ready i p :
  has_coordinates p = true →
  (∃ mk, make_marker i p = Ok mk) ↔ marker_ready p.
Proof.
  intros [Hlat Hlng]%andb_true_iff. unfold make_marker, marker_ready.
  rewrite !dict_item_truthy by done. cbn [mbind result_bind]. split.
  - intros [mk Hmk].
    apply bind_Ok in Hmk as (c & Hc & (icon & Hicon & (html & Hhtml & _)%bind_Ok)%bind_Ok).
    split.
    { destruct (place_day p) as [|d|f| | |]; try done. by eexists. }
    eapply (proj1 (popup_html_ready _ _ _ _ _ _)). by eexists.
  - intros ([d ->] & Htime & Hdesc).
    destruct (day_color_int d) as [-> _]. cbn [mbind result_bind].
    destruct (proj2 (time_icon_of_ready _) Htime) as [icon ->].
    cbn [mbind result_bind].
    edestruct (proj2 (popup_html_ready
                        (dict_get_default p "name"
                           (VStr (str "Stop " ++ format_int (Z.of_nat i + 1))))
                        (dict_get_default p "description" (VStr []))
                        (dict_get p "photo_url") (VInt d)
                        (dict_get_default p "time" (VStr [])) icon))
      as [html ->]; [done|]. by eexists.
Qed.

Lemma add_markers_ready ps : ∀ i m coords,
  Forall (λ p, has_coordinates p = true) ps →
  (∃ r, add_markers i ps m coords = Ok r) ↔ Forall marker_ready ps.
Proof.
  induction ps as [|p ps IH]; intros i m coords Hvalid.
  - split; [done|by eexists].
  - apply Forall_cons in Hvalid as [Hp Hvalid]. cbn [add_markers].
    rewrite Forall_cons, <-(make_marker_ready i p Hp). split.
    + intros [r (mk & Hmk & Hrest)%bind_Ok]. split; [by eexists|].
      eapply IH; [done|]. by eexists.
    + intros [[mk ->] Hall]. cbn [mbind result_bind]. by apply IH.
Qed.

Lemma render_places_ready valid_places m :
  Forall (λ p, has_coordinates p = true) valid_places →
  (∃ m', render_places valid_places m = Ok m') ↔ Forall marker_ready valid_places.
Proof.
  intros Hvalid. split.
  - intros [m' Hrender]. unfold render_places in Hrender.
    apply bind_Ok in Hrender as (r & Hmk & _).
    eapply add_markers_ready; [done|]. by eexists.
  - intros Hready. unfold render_places.
    destruct (proj2 (add_markers_ready valid_places 0 m [] Hvalid) Hready)
      as [[m1 coords] Hmk].
    rewrite Hmk. cbn [mbind result_bind].
    apply add_markers_Ok in Hmk as (mks & -> & -> & Hlen & Hall).
    rewrite legend_html_ints
      by (eapply Forall_impl; [exact Hall|]; intros p [Hp _]; by eexists).
    rewrite app_nil_l, length_fmap.
    destruct (bool_decide (1 < length valid_places)%nat) eqn:Hlong.
    + rewrite add_lines_runs; [by eexists| |done].
      intros ->. apply bool_decide_eq_true in Hlong. simpl in Hlong. lia.
    + by eexists.
Qed.

End ReadyFacts.

(** X4. With a centre supplied, a call that returns a map has found every
    record that passes the filter ready for its marker: its day is an int
    (or absent), its time is a string or falsy, and its description is
    falsy, a string, or a list or dict of at most 150 items.  One record
    that is not makes the whole call raise; no partial map is returned.
    Conversely, when the centre and the coordinates of the records that
    pass the filter are finite floats, the call returns a map as soon as
    those records are ready. *)
Theorem X4_rendering_succeeds_iff_records_ready `{Builtins}
    (places : list pydict) (c : coord) (zoom : Z) :
  ((∃ m, create_itinerary_map places (Some c) zoom = Ok m)
   → Forall marker_ready (List.filter has_coordinates places))
  ∧ (finite_number c.1 = true → finite_number c.2 = true →
     forallb plottable (List.filter has_coordinates places) = true →
     Forall marker_ready (List.filter has_coordinates places) →
     ∃ m, create_itinerary_map places (Some c) zoom = Ok m).
Proof.
  rewrite create_itinerary_map_unfold.
  pose proof (filter_valid places) as Hvalid.
  destruct (List.filter has_coordinates places) as [|p valid] eqn:Hf.
  - split; [done|by eexists].
  - cbn [mbind result_bind]. split.
    + by apply render_places_ready.
    + intros _ _ _. by apply render_places_ready.
Qed.

Lemma stop_marker_ready name lat lng day time :
  marker_ready (stop name lat lng day time).
Proof.
  unfold marker_ready, place_day, dict_get_default, stop. split; [|split].
  - exists day. repeat (rewrite lookup_insert_ne by (by vm_compute)).
    by rewrite lookup_insert_eq.
  - right. exists (str time).
    repeat (rewrite lookup_insert_ne by (by vm_compute)).
    by rewrite lookup_insert_eq.
  - left. repeat (rewrite lookup_insert_ne by (by vm_compute)).
    by rewrite lookup_empty.
Qed.

(** X4 at the four stops, whose coordinates are finite floats. *)
Lemma X4_rendering_succeeds_iff_records_ready_witness :
  finite_number (VFloat 45.76) = true ∧ finite_number (VFloat 4.84) = true
  ∧ forallb plottable (List.filter has_coordinates four_stops) = true
  ∧ Forall marker_ready (List.filter has_coordinates four_stops)
  ∧ ∃ m, create_itinerary_map (H := ascii_builtins) four_stops
           (Some (VFloat 45.76, VFloat 4.84)) 12 = Ok m.
Proof.
  assert (forallb plottable (List.filter has_coordinates four_stops) = true)
    as Hplot by (vm_compute; reflexivity).
  assert (List.filter has_coordinates four_stops = four_stops) as Hall
    by (vm_compute; reflexivity).
  assert (Forall marker_ready (List.filter has_coordinates four_stops)) as Hready.
  { rewrite Hall. unfold four_stops.
    do 4 (apply List.Forall_cons; [apply stop_marker_ready|]).
    apply List.Forall_nil. }
  split; [reflexivity|]. split; [reflexivity|]. split; [exact Hplot|].
  split; [exact Hready|].
  exact (proj2 (X4_rendering_succeeds_iff_records_ready (H := ascii_builtins)
                  four_stops (VFloat 45.76, VFloat 4.84) 12)
           eq_refl eq_refl Hplot Hready).
Defined.

(** ** The path drawn by the lines *)

Lemma seeded_runs_tails (runs : list (Z * list coord)) : ∀ seed : coord,
  Forall (λ run, run.2 ≠ []) runs →
  (line_of_run <$> seeded_runs (Some seed) runs) ≫= (λ l, drop 1 (locations l))
    = runs ≫= snd.
Proof.
  induction runs as [|[d cs] runs IH]; intros seed Hne; [done|].
  apply Forall_cons in Hne as [Hcs Hne]. simpl in Hcs.
  destruct (last cs) as [last_point|] eqn:Hlast; [|by apply last_None in Hlast].
  cbn [seeded_runs fmap list_fmap mbind list_bind]. rewrite Hlast.
  change (list_bind _ _ ?f ?l) with (l ≫= f). change (list_fmap _ _ ?f ?l) with (f <$> l).
  rewrite IH by done. done.
Qed.

Lemma run_records_points (runs : list (Z * list coord)) :
  runs ≫= snd = snd <$> run_records runs.
Proof.
  unfold run_records. induction runs as [|[d cs] runs IH]; [done|].
  cbn [mbind list_bind].
  change (list_bind _ _ ?f ?l) with (l ≫= f).
  rewrite fmap_app, <-IH, <-list_fmap_compose. simpl.
  by rewrite list_fmap_id.
Qed.

Lemma seeded_runs_own_points (runs : list (Z * list coord)) :
  Forall (λ run, run.2 ≠ []) runs →
  own_points (line_of_run <$> seeded_runs None runs) = snd <$> run_records runs.
Proof.
  intros Hne. rewrite <-run_records_points.
  destruct runs as [|[d cs] runs]; [done|].
  apply Forall_cons in Hne as [Hcs Hne]. simpl in Hcs.
  destruct (last cs) as [last_point|] eqn:Hlast; [|by apply last_None in Hlast].
  cbn [seeded_runs fmap list_fmap own_points]. rewrite Hlast.
  change (list_fmap _ _ ?f ?l) with (f <$> l).
  rewrite seeded_runs_tails by done. done.
Qed.

Lemma seeded_runs_joined (runs : list (Z * list coord)) : ∀ seed i l1 l2,
  Forall (λ run, run.2 ≠ []) runs →
  (line_of_run <$> seeded_runs seed runs) !! i = Some l1 →
  (line_of_run <$> seeded_runs seed runs) !! S i = Some l2 →
  (∃ c, last (locations l1) = Some c ∧ head (locations l2) = Some c)
  ∧ (2 ≤ length (locations l2))%nat.
Proof.
  induction runs as [|[d cs] runs IH]; intros seed i l1 l2 Hne H1 H2; [done|].
  apply Forall_cons in Hne as [Hcs Hne]. simpl in Hcs.
  destruct i as [|i].
  - destruct runs as [|[d' cs'] runs]; [done|].
    apply Forall_cons in Hne as [Hcs' _]. simpl in Hcs'.
    injection H1 as <-. injection H2 as <-. simpl.
    rewrite last_seeded by done.
    destruct (last cs) as [last_point|] eqn:Hlast; [|by apply last_None in Hlast].
    split; [by exists last_point|]. destruct cs'; [done|]. simpl. lia.
  - exact (IH (last cs) i l1 l2 Hne H1 H2).
Qed.

(** X5. The lines of a map rendered from two records or more form one
    path through the markers: every line after the first starts at the
    point where the line before it ends and holds two points or more, and
    the points of the lines, with that shared first point left out, are the
    coordinates of the filtered records in order. *)
Theorem X5_lines_form_one_path `{Builtins} (places : list pydict)
    (center : option coord) (zoom : Z) (m : Map) :
  create_itinerary_map places center zoom = Ok m →
  (2 ≤ length (List.filter has_coordinates places))%nat →
  own_points (polylines m) = place_point <$> List.filter has_coordinates places
  ∧ ∀ i l1 l2,
      polylines m !! i = Some l1 → polylines m !! S i = Some l2 →
      (∃ c, last (locations l1) = Some c ∧ head (locations l2) = Some c)
      ∧ (2 ≤ length (locations l2))%nat.
Proof.
  intros Hmap Hlen. rewrite create_itinerary_map_unfold in Hmap.
  destruct (List.filter has_coordinates places) as [|p valid] eqn:Hvalid;
    [simpl in Hlen; lia|].
  apply bind_Ok in Hmap as (c & _ & Hrender).
  apply render_places_Ok in Hrender
    as (mks & legend & _ & _ & _ & _ & _ & Hchildren & _ & _).
  simpl in Hchildren. apply markers_app_lines in Hchildren as [_ Hlines].
  unfold connecting_lines in Hlines.
  rewrite bool_decide_eq_true_2 in Hlines by (simpl in *; lia).
  destruct (day_runs_partition (place_records (p :: valid)))
    as (Hcat & Hne & _).
  rewrite Hlines. split.
  - rewrite seeded_runs_own_points, Hcat by done.
    unfold place_records. by rewrite <-list_fmap_compose.
  - intros i l1 l2. by apply seeded_runs_joined.
Qed.

(** X5 at the four stops: three lines of two points each, through the
    four markers. *)
Lemma X5_lines_form_one_path_witness :
  create_itinerary_map (H := ascii_builtins) four_stops None 12 = Ok four_stops_map
  ∧ (2 ≤ length (List.filter has_coordinates four_stops))%nat
  ∧ own_points (polylines four_stops_map)
    = [ (VFloat 48.8606, VFloat 2.3376); (VFloat 48.853, VFloat 2.3499);
        (VFloat 48.8049, VFloat 2.1204); (VFloat 48.8867, VFloat 2.3431) ].
Proof.
  assert (create_itinerary_map (H := ascii_builtins) four_stops None 12
          = Ok four_stops_map) as Hmap by (vm_compute; reflexivity).
  assert (2 ≤ length (List.filter has_coordinates four_stops))%nat as Hlen
    by (vm_compute; lia).
  destruct (X5_lines_form_one_path four_stops None 12 four_stops_map Hmap Hlen)
    as [Hpoints _].
  split; [exact Hmap|]. split; [exact Hlen|].
  rewrite Hpoints. vm_compute. reflexivity.
Defined.

(** ** Days beyond the palette *)

(** X6. Indexing a palette by a day never runs off its end.  For every int
    day, positive or not, a palette that is not empty gives one of its
    colours, and two days that differ by a multiple of the palette's length
    get the same colour.  A day that is not an int raises. *)
Theorem X6_day_color_wraps (colors : list pystr) (d k : Z) :
  colors ≠ [] →
  (∃ c, day_color colors (VInt d) = Ok c ∧ c ∈ colors
        ∧ day_color colors (VInt (d + k * Z.of_nat (length colors))) = Ok c)
  ∧ ∀ day, (∀ z, day ≠ VInt z) → ∃ e, day_color colors day = Raise e.
Proof.
  intros Hne. split.
  - unfold day_color. rewrite bool_decide_eq_false_2 by done.
    assert (0 < Z.of_nat (length colors)) as Hlen by (destruct colors; [done|simpl; lia]).
    replace (d + k * Z.of_nat (length colors) - 1)
      with (d - 1 + k * Z.of_nat (length colors)) by lia.
    rewrite Z.mod_add by lia.
    pose proof (Z.mod_pos_bound (d - 1) _ Hlen) as Hlt.
    destruct (colors !! Z.to_nat ((d - 1) mod Z.of_nat (length colors)))
      as [c|] eqn:Hc.
    + exists c. split; [done|]. split; [|done]. by eapply list_elem_of_lookup_2.
    + apply lookup_ge_None in Hc. lia.
  - intros day Hday. unfold day_color.
    destruct day; try by eexists.
    + by destruct (Hday z).
    + destruct (bool_decide (colors = [])); by eexists.
Qed.

(** X6 at the renderer's palette: day 0 and day -7 get the seventh colour,
    as day 7 does. *)
Lemma X6_day_color_wraps_witness :
  day_colors ≠ []
  ∧ day_color day_colors (VInt 0) = Ok (str "#e91e63")
  ∧ day_color day_colors (VInt (-7)) = Ok (str "#e91e63")
  ∧ day_color day_colors (VInt 7) = Ok (str "#e91e63").
Proof.
  assert (day_colors ≠ []) as Hne by discriminate.
  destruct (X6_day_color_wraps day_colors 0 (-1) Hne) as [(c & Hc & _ & Hk) _].
  split; [exact Hne|]. split; [|split].
  - reflexivity.
  - assert (c = str "#e91e63") as <-; [|exact Hk].
    assert (day_color day_colors (VInt 0) = Ok (str "#e91e63")) as H0
      by reflexivity.
    rewrite H0 in Hc. by injection Hc.
  - reflexivity.
Defined.

(** ** What a popup shows *)

Section PopupFacts.
Context `{Builtins}.

Lemma popup_template_day photo_html day time_html name description_html :
  occurs_in (str "Day " ++ py_format day ++ nl)
    (popup_template photo_html day time_html name description_html).
Proof.
  unfold popup_template. apply (occurs_in_concat _ 33 3).
  cbn [firstn skipn concat]. by rewrite app_nil_r.
Qed.

Lemma popup_template_name photo_html day time_html name description_html :
  occurs_in (str ">" ++ py_format name ++ str "</h4>")
    (popup_template photo_html day time_html name description_html).
Proof.
  unfold popup_template. apply (occurs_in_concat _ 50 3).
  cbn [firstn skipn concat]. by rewrite app_nil_r.
Qed.

Lemma popup_template_photo photo_html day time_html name description_html :
  occurs_in photo_html
    (popup_template photo_html day time_html name description_html).
Proof.
  unfold popup_template. apply (occurs_in_concat _ 9 1).
  cbn [firstn skipn concat]. by rewrite app_nil_r.
Qed.

Lemma popup_template_time photo_html day time_html name description_html :
  occurs_in time_html
    (popup_template photo_html day time_html name description_html).
Proof.
  unfold popup_template. apply (occurs_in_concat _ 40 1).
  cbn [firstn skipn concat]. by rewrite app_nil_r.
Qed.

Lemma photo_block_source photo_url :
  occurs_in (str "<img src=" ++ dq ++ py_format photo_url ++ dq)
    (photo_block photo_url).
Proof.
  unfold photo_block. apply (occurs_in_concat _ 2 4).
  cbn [firstn skipn concat]. by rewrite app_nil_r.
Qed.

Lemma time_block_label time_icon s :
  ∃ html, time_block time_icon (VStr s) = Ok html
          ∧ occurs_in (str ">" ++ time_icon ++ str " " ++ str_capitalize s
                       ++ str "</span>") html.
Proof.
  unfold time_block. eexists. split; [reflexivity|].
  apply (occurs_in_concat _ 4 5). cbn [firstn skipn concat].
  by rewrite app_nil_r.
Qed.

End PopupFacts.

(** X7. A popup that is built shows its fields as they are given, without
    escaping any character: the day after "Day ", the name as the text of
    the heading, the photo URL, when there is one, as the source of the
    image, and the time, when there is one, capitalised after its icon. *)
Theorem X7_popup_shows_fields `{Builtins}
    (name description photo_url day time_of_day : pyval)
    (time_icon html : pystr) :
  _create_popup_html name description photo_url day time_of_day time_icon
    = Ok html →
  occurs_in (str "Day " ++ py_format day ++ nl) html
  ∧ occurs_in (str ">" ++ py_format name ++ str "</h4>") html
  ∧ (truthy photo_url = true →
     occurs_in (str "<img src=" ++ dq ++ py_format photo_url ++ dq) html)
  ∧ (truthy time_of_day = true →
     ∃ s, time_of_day = VStr s
          ∧ occurs_in (str ">" ++ time_icon ++ str " " ++ str_capitalize s
                       ++ str "</span>") html).
Proof.
  unfold _create_popup_html. cbv zeta.
  intros (time_html & Htime & (description_html & _ & [= <-])%bind_Ok)%bind_Ok.
  split; [apply popup_template_day|]. split; [apply popup_template_name|].
  split.
  - intros Hphoto. rewrite Hphoto.
    eapply occurs_in_trans; [apply photo_block_source|apply popup_template_photo].
  - intros Ht. rewrite Ht in Htime.
    destruct time_of_day as [| | |s| |]; try done.
    exists s. split; [done|].
    destruct (time_block_label time_icon s) as (label & Hlabel & Hocc).
    rewrite Hlabel in Htime. injection Htime as <-.
    eapply occurs_in_trans; [exact Hocc|apply popup_template_time].
Qed.

(** X7 at a popup of the Louvre: markup in the name is shown as it is. *)
Lemma X7_popup_shows_fields_witness :
  ∃ html,
    _create_popup_html (H := ascii_builtins) (VStr (str "<b>Louvre</b>"))
      (VStr (str "Art museum")) (VStr (str "https://example.org/louvre.jpg"))
      (VInt 1) (VStr (str "morning")) pin_icon = Ok html
    ∧ occurs_in (str "><b>Louvre</b></h4>") html
    ∧ occurs_in (str "<img src=" ++ dq ++ str "https://example.org/louvre.jpg" ++ dq)
        html
    ∧ occurs_in (str ">" ++ pin_icon ++ str " Morning</span>") html.
Proof.
  destruct (_create_popup_html (H := ascii_builtins) (VStr (str "<b>Louvre</b>"))
              (VStr (str "Art museum")) (VStr (str "https://example.org/louvre.jpg"))
              (VInt 1) (VStr (str "morning")) pin_icon) as [html|e] eqn:Hpopup;
    [|vm_compute in Hpopup; discriminate Hpopup].
  destruct (X7_popup_shows_fields _ _ _ _ _ _ _ Hpopup)
    as (_ & Hname & Hphoto & Htime).
  exists html. split; [reflexivity|]. split; [exact Hname|].
  split; [exact (Hphoto eq_refl)|].
  destruct (Htime eq_refl) as (s & [= <-] & Hs). exact Hs.
Defined.

(** ** One lookup *)

Lemma fresh_place_photo a day time_of_day photo :
  photo = VNone →
  <[str "photo_url" := photo]> (fresh_place a day time_of_day)
    = fresh_place a day time_of_day.
Proof.
  intros ->. apply insert_id. unfold fresh_place.
  rewrite !lookup_insert_ne by (by vm_compute). apply lookup_insert_eq.
Qed.

Lemma located_place_photo a day time_of_day location photo :
  photo = VNone →
  <[str "photo_url" := photo]> (located_place a day time_of_day location)
    = located_place a day time_of_day location.
Proof.
  intros ->. apply insert_id. unfold located_place, fresh_place.
  rewrite !lookup_insert_ne by (by vm_compute). apply lookup_insert_eq.
Qed.

(** The fields of a dictionary with coordinates, whatever its photo. *)
Lemma located_place_fields a day time_of_day location photo :
  let p := <[str "photo_url" := photo]>
             (located_place a day time_of_day location) in
  dom p = place_keys
  ∧ dict_get p "name" = VStr (activity_name a)
  ∧ dict_get p "description" = VStr (default [] (activity_description a))
  ∧ dict_get p "day" = VInt day
  ∧ dict_get p "time" = VStr (str time_of_day)
  ∧ dict_get p "latitude" = dict_get location "lat"
  ∧ dict_get p "longitude" = dict_get location "lng"
  ∧ dict_get p "photo_url" = photo.
Proof.
  cbv zeta. unfold located_place, fresh_place, dict_get at 1 2 3 4 5 7 9.
  split.
  { unfold place_keys. rewrite !dom_insert_L, dom_empty_L.
    cbn [list_to_set fmap list_fmap]. set_solver. }
  repeat split;
    repeat (rewrite lookup_insert_ne by (by vm_compute));
    by rewrite lookup_insert_eq.
Qed.

Lemma fresh_place_latitude a day time_of_day photo :
  dict_get (<[str "photo_url" := photo]> (fresh_place a day time_of_day))
    "latitude" = VNone.
Proof.
  unfold fresh_place, dict_get.
  repeat (rewrite lookup_insert_ne by (by vm_compute)).
  by rewrite lookup_insert_eq.
Qed.

Section OneLookup.
Context {St : Type}.
Implicit Types (s : env (St := St)) (c : PlacesClient St).

(** What a lookup leaves behind.  The dictionary holds the coordinates of
    the matched location, if the response had one, and maybe a photo; at
    most one line is printed, for an exception; the client has answered
    the search, and maybe a photo request after it. *)
Lemma after_lookup_eligible c a day time_of_day s loc :
  activity_location a = Some loc → loc ≠ [] →
  let response :=
    search_places c (activity_name a ++ str " " ++ loc) (client_state s) in
  ∃ photo st lines,
    after_lookup a day time_of_day (Some c) s
      = {| place := <[str "photo_url" := photo]>
                      (match matched_location response.1 with
                       | Some location => located_place a day time_of_day location
                       | None => fresh_place a day time_of_day
                       end);
           client_state := st; stdout := stdout s ++ lines |}
    ∧ (photo = VNone ∨ truthy photo = true)
    ∧ (lines = [] ∨ ∃ e, lines = [error_line a e])
    ∧ (st = response.2
       ∨ ∃ place_id r, get_place_photo_url c place_id response.2 = (r, st)).
Proof.
  intros Hloc Hne. cbv zeta. unfold after_lookup, lookup_start. rewrite Hloc.
  destruct loc as [|ch loc]; [done|].
  unfold try_except, lookup_place. rewrite run_bind.
  unfold call_search. cbn [client_state place stdout].
  destruct (search_places c _ (client_state s)) as [[results|e] st1];
    cbn [fst snd matched_location print].
  2: { exists VNone, st1, [error_line a e]. rewrite fresh_place_photo by done.
       repeat split; eauto. }
  destruct (truthy results) eqn:Hresults.
  2: { exists VNone, st1, []. rewrite fresh_place_photo, app_nil_r by done.
       repeat split; eauto. }
  rewrite run_bind. unfold lift at 1.
  destruct (py_first results) as [best|e].
  2: { exists VNone, st1, [error_line a e]. rewrite fresh_place_photo by done.
       repeat split; eauto. }
  rewrite run_bind. unfold lift at 1.
  destruct best as [| | | | |best];
    try (eexists VNone, st1, [error_line a _];
         rewrite fresh_place_photo by done; repeat split; eauto; fail).
  cbn [py_get]. rewrite run_bind. unfold lift at 1.
  destruct (dict_get_default best "location" (VDict ∅)) as [| | | | |location];
    try (eexists VNone, st1, [error_line a _];
         rewrite fresh_place_photo by done; repeat split; eauto; fail).
  cbn [py_get]. rewrite run_bind. cbn [set_item].
  rewrite run_bind. unfold lift at 1.
  rewrite run_bind. cbn [set_item place client_state stdout].
  rewrite run_bind. unfold lift at 1.
  change (dict_get_default location "lat" VNone) with (dict_get location "lat").
  change (dict_get_default location "lng" VNone) with (dict_get location "lng").
  fold (fresh_place a day time_of_day).
  fold (located_place a day time_of_day location).
  destruct (truthy (dict_get_default best "place_id" VNone)).
  2: { exists VNone, st1, []. rewrite located_place_photo, app_nil_r by done.
       repeat split; eauto. }
  rewrite run_bind. unfold call_photo. cbn [client_state place stdout].
  destruct (get_place_photo_url c _ st1) as [[photo|e] st2] eqn:Hphoto.
  2: { exists VNone, st2, [error_line a e].
       rewrite located_place_photo by done. repeat split; eauto. }
  destruct (truthy photo) eqn:Htruthy.
  - exists photo, st2, []. rewrite app_nil_r. repeat split; eauto.
  - exists VNone, st2, []. rewrite located_place_photo, app_nil_r by done.
    repeat split; eauto.
Qed.

End OneLookup.

(** ** The loops, slot by slot *)

Section VisitFacts.
Context {St : Type}.
Implicit Types (s : env (St := St)) (c : option (PlacesClient St)).

Lemma visit_app c slots1 slots2 : ∀ places s,
  visit c (slots1 ++ slots2) places s
    = visit c slots2 (visit c slots1 places s).1 (visit c slots1 places s).2.
Proof.
  induction slots1 as [|[[a day] time_of_day] slots1 IH]; intros places s;
    [done|].
  cbn [app visit]. by rewrite IH.
Qed.

Lemma slot_loop_visit activities day time_of_day c : ∀ places s,
  slot_loop activities day time_of_day c places s
    = (Ok (visit c ((λ a, (a, day, time_of_day)) <$> activities) places s).1,
       (visit c ((λ a, (a, day, time_of_day)) <$> activities) places s).2).
Proof.
  induction activities as [|a rest IH]; intros places s; [done|].
  rewrite slot_loop_cons, IH. done.
Qed.

Lemma days_loop_visit days c : ∀ places s,
  days_loop days c places s
    = (Ok (visit c (days ≫= day_slots) places s).1,
       (visit c (days ≫= day_slots) places s).2).
Proof.
  induction days as [|day rest IH]; intros places s; [done|].
  cbn [days_loop]. rewrite run_bind, slot_loop_visit.
  rewrite run_bind, slot_loop_visit. rewrite run_bind, slot_loop_visit.
  rewrite IH.
  change ((day :: rest) ≫= day_slots) with (day_slots day ++ (rest ≫= day_slots)).
  rewrite !(visit_app _ (day_slots day)). unfold day_slots.
  by rewrite !visit_app.
Qed.

(** Extraction is the visit of the slots of the plan, from no place. *)
Lemma extract_places_visit plan c s :
  extract_places_from_plan plan c s
    = (Ok (visit c (plan_slots plan) [] s).1, (visit c (plan_slots plan) [] s).2).
Proof.
  unfold extract_places_from_plan, plan_slots.
  destruct plan as [plan|]; [|done].
  destruct (itinerary plan) as [|day days]; [done|]. apply days_loop_visit.
Qed.

(** The place a lookup gives is the record of its slot. *)
Lemma after_lookup_describes c a day time_of_day s p :
  place_or_None (place (after_lookup a day time_of_day c s)) = Some p →
  describes (a, day, time_of_day) p.
Proof.
  destruct c as [c|]; [|by rewrite after_lookup_skipped by auto].
  destruct (activity_location a) as [[|ch loc]|] eqn:Hloc;
    [by rewrite after_lookup_skipped by auto| |
     by rewrite after_lookup_skipped by auto].
  destruct (after_lookup_eligible c a day time_of_day s (ch :: loc) Hloc)
    as (photo & st & lines & -> & _); [done|].
  cbn [place]. unfold place_or_None.
  destruct (is_None _ || is_None _) eqn:Hnone; [done|]. intros [= <-].
  assert (both_present
            (<[str "photo_url" := photo]>
               match matched_location
                       (search_places c (activity_name a ++ str " " ++ ch :: loc)
                          (client_state s)).1
               with
               | Some location => located_place a day time_of_day location
               | None => fresh_place a day time_of_day
               end) = true) as Hboth.
  { unfold both_present. apply orb_false_iff in Hnone as [-> ->]. done. }
  unfold describes. cbn [fst snd].
  destruct (matched_location _) as [location|].
  - destruct (located_place_fields a day time_of_day location photo)
      as (Hdom & Hname & Hdesc & Hday & Htime & _).
    by repeat split.
  - by rewrite fresh_place_latitude in Hnone.
Qed.

End VisitFacts.

(** ** One lookup, step by step *)

Section LookupSteps.
Context {St : Type}.
Implicit Types (s : env (St := St)) (c : PlacesClient St).

(** What the lookup of an activity with a location hint prints, and the
    state in which it leaves the client. *)
Lemma after_lookup_hinted c a day time_of_day s query :
  search_query a = Some query →
  stdout (after_lookup a day time_of_day (Some c) s)
    = stdout s ++ option_list (error_line a <$> lookup_exception (Some c) a s)
  ∧ client_state (after_lookup a day time_of_day (Some c) s)
    = match photo_request (search_places c query (client_state s)).1 with
      | Some place_id =>
          (get_place_photo_url c place_id
             (search_places c query (client_state s)).2).2
      | None => (search_places c query (client_state s)).2
      end.
Proof.
  intros Hquery.
  remember (after_lookup a day time_of_day (Some c) s) as s1 eqn:Hs1.
  unfold lookup_exception, photo_request. rewrite Hquery.
  unfold search_query in Hquery. unfold after_lookup, lookup_start in Hs1.
  destruct (activity_location a) as [[|ch loc]|]; try done.
  injection Hquery as <-.
  unfold try_except, lookup_place in Hs1. rewrite run_bind in Hs1.
  unfold call_search in Hs1. cbn [client_state place stdout] in Hs1.
  destruct (search_places c _ (client_state s)) as [[results|e] st1];
    cbn [fst snd]; [|by subst s1].
  destruct (truthy results); [|subst s1; by rewrite app_nil_r].
  rewrite run_bind in Hs1. unfold lift at 1 in Hs1.
  destruct (py_first results) as [best|e]; [|by subst s1].
  rewrite run_bind in Hs1. unfold lift at 1 in Hs1.
  destruct best as [| | | | |best]; try (by subst s1).
  cbn [py_get] in Hs1. rewrite run_bind in Hs1. unfold lift at 1 in Hs1.
  destruct (dict_get_default best "location" (VDict ∅)) as [| | | | |location];
    try (by subst s1).
  cbn [py_get] in Hs1. rewrite run_bind in Hs1. cbn [set_item] in Hs1.
  rewrite run_bind in Hs1. unfold lift at 1 in Hs1.
  rewrite run_bind in Hs1. cbn [set_item place client_state stdout] in Hs1.
  rewrite run_bind in Hs1. unfold lift at 1 in Hs1.
  change (dict_get_default best "place_id" VNone)
    with (dict_get best "place_id") in Hs1.
  destruct (truthy (dict_get best "place_id"));
    [|subst s1; by rewrite app_nil_r].
  rewrite run_bind in Hs1. unfold call_photo in Hs1.
  cbn [client_state place stdout] in Hs1.
  destruct (get_place_photo_url c _ st1) as [[photo|e] st2]; [|by subst s1].
  cbn [snd]. destruct (truthy photo); subst s1; by rewrite app_nil_r.
Qed.

(** What any lookup prints. *)
Lemma after_lookup_prints (c : option (PlacesClient St)) a day time_of_day s :
  stdout (after_lookup a day time_of_day c s)
    = stdout s ++ option_list (error_line a <$> lookup_exception c a s).
Proof.
  destruct c as [c|];
    [|by rewrite after_lookup_skipped, app_nil_r by auto].
  destruct (search_query a) as [query|] eqn:Hquery.
  - by destruct (after_lookup_hinted c a day time_of_day s query Hquery).
  - unfold lookup_exception. rewrite Hquery.
    rewrite after_lookup_skipped, app_nil_r; [done|].
    unfold search_query in Hquery.
    destruct (activity_location a) as [[|ch loc]|]; auto. done.
Qed.

Lemma visit_prints (c : option (PlacesClient St)) (slots : list slot) :
  ∀ places s,
    stdout (visit c slots places s).2
      = stdout s
        ++ concat (zip_with
                     (λ (x : slot) s0,
                        option_list (error_line x.1.1
                                       <$> lookup_exception c x.1.1 s0))
                     slots (trace c slots s)).
Proof.
  induction slots as [|[[a day] time_of_day] rest IH]; intros places s.
  - by rewrite app_nil_r.
  - cbn [visit trace zip_with concat fst]. cbv zeta.
    rewrite extract_place_info_returns. cbn [snd].
    by rewrite IH, after_lookup_prints, <-app_assoc.
Qed.

Lemma visit_prints_nothing (slots : list slot) : ∀ places s,
  stdout (visit (St := St) None slots places s).2 = stdout s.
Proof.
  induction slots as [|[[a day] time_of_day] rest IH]; intros places s; [done|].
  cbn [visit]. cbv zeta. by rewrite IH, after_lookup_skipped by auto.
Qed.

End LookupSteps.

(** ** The records of a plan *)

Lemma visit_describes {St} (c : option (PlacesClient St)) (slots : list slot) :
  ∀ places s, ∃ kept found,
    (visit c slots places s).1 = places ++ found
    ∧ kept `sublist_of` slots
    ∧ Forall2 describes kept found.
Proof.
  induction slots as [|[[a day] time_of_day] rest IH]; intros places s.
  - exists [], []. by rewrite app_nil_r.
  - cbn [visit]. cbv zeta.
    destruct (place_or_None (place (after_lookup a day time_of_day c s)))
      as [p|] eqn:Hp.
    + change (option_list (Some p)) with [p].
      destruct (IH (places ++ [p]) (after_lookup a day time_of_day c s))
        as (kept & found & Hfound & Hsub & Hall).
      exists ((a, day, time_of_day) :: kept), (p :: found).
      rewrite Hfound, <-app_assoc. split; [done|].
      split; [by apply sublist_skip|].
      constructor; [|done]. by eapply after_lookup_describes.
    + change (option_list None) with (@nil pydict). rewrite app_nil_r.
      destruct (IH places (after_lookup a day time_of_day c s))
        as (kept & found & Hfound & Hsub & Hall).
      exists kept, found. split; [done|]. split; [by apply sublist_cons|done].
Qed.

(** X8. Extraction returns its records in the order of the plan: day by
    day, morning before afternoon before evening, activity by activity,
    with some activities left out and none repeated or added.  Each record
    has the seven keys, the name and the description of its activity (an
    absent description reads as the empty string), the number of its day,
    the name of its slot, and both coordinates set.  This holds with any
    client and without one. *)
Theorem X8_records_follow_plan {St} (c : option (PlacesClient St))
    (plan : option TravelPlan) (s : env) :
  ∃ places s' kept,
    extract_places_from_plan plan c s = (Ok places, s')
    ∧ kept `sublist_of` plan_slots plan
    ∧ Forall2 describes kept places.
Proof.
  rewrite extract_places_visit.
  destruct (visit_describes c (plan_slots plan) [] s)
    as (kept & found & Hfound & Hsub & Hall).
  exists found, (visit c (plan_slots plan) [] s).2, kept.
  by rewrite Hfound.
Qed.

(** ** From the plan to the map *)

Lemma describes_drawable (x : slot) (p : pydict) : describes x p → drawable p.
Proof.
  intros (_ & _ & Hdesc & Hday & Htime & _).
  unfold drawable, place_day, dict_get_default. unfold dict_get in *.
  destruct (p !! str "day") as [day|]; [|done].
  destruct (p !! str "time") as [time|]; [|done].
  destruct (p !! str "description") as [description|]; [|done].
  simpl in *. subst. split; [by eexists|]. split; right; by eexists.
Qed.



(** ** Which activities are kept *)

(** X10. An activity that is looked up is kept exactly when the response
    to the search has a matched location whose "lat" and "lng" are both
    there and not [None]: the record then carries these two values.  A
    search that raises, a falsy or malformed response, a match without a
    location or with a coordinate missing: each drops the activity.  What
    the photo request does plays no part in it, and no exception leaves
    the function. *)
Theorem X10_kept_iff_match_located {St} (c : PlacesClient St) (a : Activity)
    (day : Z) (time_of_day : string) (s : env) (loc : pystr) :
  activity_location a = Some loc → loc ≠ [] →
  ∃ found s',
    _extract_place_info a day time_of_day (Some c) s = (Ok found, s')
    ∧ match matched_location
              (search_places c (activity_name a ++ str " " ++ loc)
                 (client_state s)).1
      with
      | Some location =>
          if is_None (dict_get location "lat") || is_None (dict_get location "lng")
          then found = None
          else ∃ p, found = Some p
                    ∧ dict_get p "latitude" = dict_get location "lat"
                    ∧ dict_get p "longitude" = dict_get location "lng"
      | None => found = None
      end.
Proof.
  intros Hloc Hne. rewrite extract_place_info_returns. eexists _, _.
  split; [reflexivity|].
  destruct (after_lookup_eligible c a day time_of_day s loc Hloc Hne)
    as (photo & st & lines & -> & _).
  cbn [place]. unfold place_or_None.
  destruct (matched_location _) as [location|].
  - destruct (located_place_fields a day time_of_day location photo)
      as (_ & _ & _ & _ & _ & Hlat & Hlng & _).
    rewrite Hlat, Hlng.
    destruct (is_None (dict_get location "lat")
              || is_None (dict_get location "lng")); [done|].
    eexists. split; [reflexivity|]. by split.
  - by rewrite fresh_place_latitude.
Qed.

(** X10 at the Louvre, with the client whose photo service is down: the
    activity is kept, at the coordinates of the match. *)
Lemma X10_kept_iff_match_located_witness :
  activity_location louvre = Some (str "Paris") ∧ str "Paris" ≠ []
  ∧ ∃ p s',
      _extract_place_info louvre 1 "morning" (Some photo_down_client) start
        = (Ok (Some p), s')
      ∧ dict_get p "latitude" = VFloat 48.8606
      ∧ dict_get p "longitude" = VFloat 2.3376.
Proof.
  assert (str "Paris" ≠ []) as Hne by discriminate.
  split; [reflexivity|]. split; [exact Hne|].
  destruct (X10_kept_iff_match_located photo_down_client louvre 1 "morning" start
              (str "Paris") eq_refl Hne) as (found & s' & Hextract & Hmatch).
  assert (matched_location
            (search_places photo_down_client
               (activity_name louvre ++ str " " ++ str "Paris")
               (client_state start)).1 = Some louvre_location) as Hlocation
    by (vm_compute; reflexivity).
  rewrite Hlocation in Hmatch.
  assert (is_None (dict_get louvre_location "lat")
          || is_None (dict_get louvre_location "lng") = false) as Hboth
    by (vm_compute; reflexivity).
  rewrite Hboth in Hmatch. destruct Hmatch as (p & -> & Hlat & Hlng).
  exists p, s'. split; [exact Hextract|]. rewrite Hlat, Hlng.
  split; vm_compute; reflexivity.
Defined.

(** ** The photo *)

(** X11. After a search whose first match is a dictionary with a
    location, the photo is asked for only when the match has a truthy
    "place_id".  Without one the client is left as the search left it and
    the record has no photo.  With one, a photo request that returns stores
    its answer under "photo_url" when the answer is truthy, and leaves
    [None] there otherwise.  Nothing is printed either way. *)
Theorem X11_photo_stored_when_truthy {St} (c : PlacesClient St) (a : Activity)
    (day : Z) (time_of_day : string) (s : env) (loc : pystr)
    (results : pyval) (best location : pydict) (st1 : St) :
  activity_location a = Some loc → loc ≠ [] →
  search_places c (activity_name a ++ str " " ++ loc) (client_state s)
    = (Ok results, st1) →
  truthy results = true →
  py_first results = Ok (VDict best) →
  dict_get_default best "location" (VDict ∅) = VDict location →
  (truthy (dict_get best "place_id") = false →
   _extract_place_info a day time_of_day (Some c) s
     = (Ok (place_or_None (located_place a day time_of_day location)),
        {| place := located_place a day time_of_day location;
           client_state := st1; stdout := stdout s |}))
  ∧ (∀ photo st2,
       truthy (dict_get best "place_id") = true →
       get_place_photo_url c (dict_get best "place_id") st1 = (Ok photo, st2) →
       let p := if truthy photo
                then <[str "photo_url" := photo]>
                       (located_place a day time_of_day location)
                else located_place a day time_of_day location in
       _extract_place_info a day time_of_day (Some c) s
         = (Ok (place_or_None p),
            {| place := p; client_state := st2; stdout := stdout s |})).
Proof.
  intros Hloc Hne Hsearch Hresults Hfirst Hlocation.
  assert (∀ p st,
            lookup_place c a loc (lookup_start a day time_of_day s)
              = (Ok (), {| place := p; client_state := st; stdout := stdout s |}) →
            _extract_place_info a day time_of_day (Some c) s
              = (Ok (place_or_None p),
                 {| place := p; client_state := st; stdout := stdout s |}))
    as Hreturns.
  { intros p st Hlookup. rewrite extract_place_info_returns.
    unfold after_lookup. rewrite Hloc. destruct loc as [|ch loc]; [done|].
    unfold try_except. by rewrite Hlookup. }
  assert (∀ rest : pyval → M (St := St) unit,
            (results ← call_search c (activity_name a ++ str " " ++ loc);
             if truthy results then
               best_match ← lift (py_first results);
               location ← lift (py_get best_match "location" (VDict ∅));
               lat ← lift (py_get location "lat" VNone);
               _ ← set_item "latitude" lat;
               lng ← lift (py_get location "lng" VNone);
               _ ← set_item "longitude" lng;
               place_id ← lift (py_get best_match "place_id" VNone);
               rest place_id
             else mret ()) (lookup_start a day time_of_day s)
            = rest (dict_get best "place_id")
                {| place := located_place a day time_of_day location;
                   client_state := st1; stdout := stdout s |}) as Hstart.
  { intros rest. unfold lookup_start. rewrite run_bind.
    unfold call_search. cbn [client_state]. rewrite Hsearch, Hresults.
    rewrite run_bind. unfold lift at 1. rewrite Hfirst.
    rewrite run_bind. unfold lift at 1. cbn [py_get]. rewrite Hlocation.
    rewrite run_bind. unfold lift at 1. cbn [py_get].
    rewrite run_bind. cbn [set_item].
    rewrite run_bind. unfold lift at 1.
    rewrite run_bind. cbn [set_item].
    rewrite run_bind. unfold lift at 1. cbn [py_get]. reflexivity. }
  split.
  - intros Hid. apply Hreturns. unfold lookup_place. rewrite Hstart, Hid.
    reflexivity.
  - intros photo st2 Hid Hphoto. cbv zeta. apply Hreturns.
    unfold lookup_place. rewrite Hstart, Hid. rewrite run_bind.
    unfold call_photo. cbn [client_state place stdout]. rewrite Hphoto.
    by destruct (truthy photo).
Qed.

(** X11 at the Louvre, with the client that has a photo of it. *)
Lemma X11_photo_stored_when_truthy_witness :
  _extract_place_info louvre 1 "morning" (Some louvre_photo_client) start
    = (Ok (Some (<[str "photo_url" := VStr (str "https://example.org/louvre.jpg")]>
                   (located_place louvre 1 "morning" louvre_location))),
       {| place := <[str "photo_url" := VStr (str "https://example.org/louvre.jpg")]>
                     (located_place louvre 1 "morning" louvre_location);
          client_state := 2%nat; stdout := [] |}).
Proof.
  destruct (X11_photo_stored_when_truthy louvre_photo_client louvre 1 "morning"
              start (str "Paris") (VList [louvre_match]) louvre_best
              louvre_location 1%nat)
    as [_ Hphoto];
    [reflexivity|discriminate|reflexivity|reflexivity|reflexivity
    |vm_compute; reflexivity|].
  rewrite (Hphoto (VStr (str "https://example.org/louvre.jpg")) 2%nat);
    [|vm_compute; reflexivity|reflexivity].
  vm_compute. reflexivity.
Defined.

(** ** Recording the calls *)

Section Recording.
Context {St : Type}.
Implicit Types (c : PlacesClient St).

Lemma simulates_bind {A B} (m : M (St := St * list call) A) m'
    (f : A → M B) f' :
  simulates m m' → (∀ a, simulates (f a) (f' a)) →
  simulates (m ≫= f) (m' ≫= f').
Proof.
  intros Hm Hf s. rewrite !run_bind. destruct (Hm s) as [Hr Hs].
  destruct (m s) as [[a|e] s1], (m' (erase s)) as [[a'|e'] s1'];
    simpl in Hr, Hs; try done.
  - injection Hr as <-. subst s1'. apply Hf.
  - injection Hr as <-. by subst s1'.
Qed.

Lemma simulates_ret {A} (a : A) :
  simulates (St := St) (mret a) (mret a).
Proof. by intros s. Qed.

Lemma simulates_lift {A} (r : result A) : simulates (St := St) (lift r) (lift r).
Proof. by intros s. Qed.

Lemma simulates_set_item k v :
  simulates (St := St) (set_item k v) (set_item k v).
Proof. by intros s. Qed.

Lemma simulates_print line : simulates (St := St) (print line) (print line).
Proof. by intros s. Qed.

Lemma simulates_search c q : simulates (call_search (logged c) q) (call_search c q).
Proof.
  intros s. unfold call_search. cbn [logged search_places erase client_state].
  by destruct (search_places c q (client_state s).1).
Qed.

Lemma simulates_photo c v : simulates (call_photo (logged c) v) (call_photo c v).
Proof.
  intros s. unfold call_photo.
  cbn [logged get_place_photo_url erase client_state].
  by destruct (get_place_photo_url c v (client_state s).1).
Qed.

Lemma simulates_try (body : M (St := St * list call) unit) body' handler handler' :
  simulates body body' → (∀ e, simulates (handler e) (handler' e)) →
  simulates (try_except body handler) (try_except body' handler').
Proof.
  intros Hbody Hhandler s. unfold try_except. destruct (Hbody s) as [Hr Hs].
  destruct (body s) as [[[]|e] s1], (body' (erase s)) as [[[]|e'] s1'];
    simpl in Hr, Hs; try done.
  injection Hr as <-. subst s1'. apply Hhandler.
Qed.

Lemma simulates_lookup_place c a loc :
  simulates (lookup_place (logged c) a loc) (lookup_place c a loc).
Proof.
  unfold lookup_place.
  apply simulates_bind; [apply simulates_search|]. intros results.
  destruct (truthy results); [|apply simulates_ret].
  repeat (apply simulates_bind;
          [first [apply simulates_lift | apply simulates_set_item]|intros ?]).
  destruct (truthy _); [|apply simulates_ret].
  apply simulates_bind; [apply simulates_photo|]. intros photo_url.
  destruct (truthy photo_url); [apply simulates_set_item|apply simulates_ret].
Qed.

Lemma after_lookup_erase c a day time_of_day (s : env (St := St * list call)) :
  erase (after_lookup a day time_of_day (Some (logged c)) s)
    = after_lookup a day time_of_day (Some c) (erase s).
Proof.
  unfold after_lookup. destruct (activity_location a) as [[|ch loc]|]; try done.
  pose proof (simulates_try _ _ _ _ (simulates_lookup_place c a (ch :: loc))
                (λ e, simulates_print (error_line a e))
                (lookup_start a day time_of_day s)) as [_ Hs].
  exact Hs.
Qed.

Lemma visit_erase c (slots : list slot) : ∀ places (s : env (St := St * list call)),
  (visit (Some (logged c)) slots places s).1
    = (visit (Some c) slots places (erase s)).1
  ∧ erase (visit (Some (logged c)) slots places s).2
    = (visit (Some c) slots places (erase s)).2.
Proof.
  induction slots as [|[[a day] time_of_day] rest IH]; intros places s; [done|].
  cbn [visit]. cbv zeta. rewrite <-after_lookup_erase.
  assert (place (erase (after_lookup a day time_of_day (Some (logged c)) s))
          = place (after_lookup a day time_of_day (Some (logged c)) s)) as ->
    by done.
  apply IH.
Qed.

End Recording.

(** ** The calls made to the client *)

Lemma after_lookup_logged {St} (c : PlacesClient St) (a : Activity) (day : Z)
    (time_of_day : string) (s : env (St := St * list call)) :
  ∃ calls,
    (client_state (after_lookup a day time_of_day (Some (logged c)) s)).2
      = (client_state s).2 ++ calls
    ∧ searches calls = option_list (search_query a)
    ∧ (length calls ≤ 2 * length (searches calls))%nat.
Proof.
  unfold search_query.
  destruct (activity_location a) as [[|ch loc]|] eqn:Hloc;
    [rewrite after_lookup_skipped by auto; exists []; by rewrite app_nil_r| |
     rewrite after_lookup_skipped by auto; exists []; by rewrite app_nil_r].
  destruct (after_lookup_eligible (logged c) a day time_of_day s (ch :: loc) Hloc)
    as (photo & st & lines & -> & _ & _ & Hst); [done|].
  cbn [client_state]. cbn [logged search_places get_place_photo_url] in Hst.
  destruct (search_places c _ (client_state s).1) as [r st1].
  cbn [fst snd] in Hst. destruct Hst as [->|(place_id & r' & Hphoto)].
  - exists [SearchCall (activity_name a ++ str " " ++ ch :: loc)].
    split; [done|]. split; [done|]. simpl. lia.
  - destruct (get_place_photo_url c place_id st1) as [r2 st2].
    injection Hphoto as _ <-.
    exists [SearchCall (activity_name a ++ str " " ++ ch :: loc);
            PhotoCall place_id].
    cbn [snd]. rewrite <-app_assoc. split; [done|]. split; [done|]. simpl. lia.
Qed.

Lemma searches_app (calls1 calls2 : list call) :
  searches (calls1 ++ calls2) = searches calls1 ++ searches calls2.
Proof. apply omap_app. Qed.

Lemma visit_logged {St} (c : PlacesClient St) (slots : list slot) :
  ∀ places (s : env (St := St * list call)), ∃ calls,
    (client_state (visit (Some (logged c)) slots places s).2).2
      = (client_state s).2 ++ calls
    ∧ searches calls = omap (λ x : slot, search_query x.1.1) slots
    ∧ (length calls ≤ 2 * length (searches calls))%nat.
Proof.
  induction slots as [|[[a day] time_of_day] rest IH]; intros places s.
  - exists []. by rewrite app_nil_r.
  - cbn [visit]. cbv zeta.
    destruct (after_lookup_logged c a day time_of_day s)
      as (calls1 & Hcalls1 & Hsearch1 & Hlen1).
    destruct (IH (places ++ option_list
                    (place_or_None
                       (place (after_lookup a day time_of_day (Some (logged c)) s))))
                 (after_lookup a day time_of_day (Some (logged c)) s))
      as (calls2 & Hcalls2 & Hsearch2 & Hlen2).
    exists (calls1 ++ calls2). rewrite Hcalls2, Hcalls1, <-app_assoc.
    split; [done|]. rewrite searches_app, Hsearch1, Hsearch2.
    split.
    + cbn [omap list_omap fst]. by destruct (search_query a).
    + rewrite <-Hsearch1, <-Hsearch2, !length_app. lia.
Qed.

Section RecordedCalls.
Context {St : Type}.
Implicit Types (c : PlacesClient St) (s : env (St := St * list call)).

(** The calls a lookup adds to the record. *)
Lemma after_lookup_records c a day time_of_day s :
  (client_state (after_lookup a day time_of_day (Some (logged c)) s)).2
    = (client_state s).2 ++ calls_of c a (client_state s).1.
Proof.
  unfold calls_of. destruct (search_query a) as [query|] eqn:Hquery.
  - destruct (after_lookup_hinted (logged c) a day time_of_day s query Hquery)
      as [_ ->].
    cbn [logged search_places get_place_photo_url].
    destruct (search_places c query (client_state s).1) as [response st1].
    cbn [fst snd]. destruct (photo_request response) as [place_id|].
    + destruct (get_place_photo_url c place_id st1) as [photo st2].
      cbn [fst snd fmap list_fmap option_list]. by rewrite <-app_assoc.
    + done.
  - rewrite after_lookup_skipped, app_nil_r; [done|].
    unfold search_query in Hquery.
    destruct (activity_location a) as [[|ch loc]|]; auto. done.
Qed.

Lemma visit_records c (slots : list slot) : ∀ places s,
  (client_state (visit (Some (logged c)) slots places s).2).2
    = (client_state s).2
      ++ concat (zip_with (λ (x : slot) s0, calls_of c x.1.1 (client_state s0).1)
                   slots (trace (Some (logged c)) slots s)).
Proof.
  induction slots as [|[[a day] time_of_day] rest IH]; intros places s.
  - by rewrite app_nil_r.
  - cbn [visit trace zip_with concat fst]. cbv zeta.
    rewrite extract_place_info_returns. cbn [snd].
    by rewrite IH, after_lookup_records, <-app_assoc.
Qed.

End RecordedCalls.



(** ** What is printed *)

(** X13. Extraction prints nothing but the lines of the lookups that end
    with an exception.  Slot by slot in the order of the plan, the lookup of
    an activity adds one line when it raises, "Error fetching place info
    for", the name of the activity and the text of the exception it
    raised, and adds nothing when it does not raise.  Without a client
    nothing is printed. *)
Theorem X13_prints_only_failed_lookups {St} (c : option (PlacesClient St))
    (plan : option TravelPlan) (s : env) :
  ∃ places s',
    extract_places_from_plan plan c s = (Ok places, s')
    ∧ stdout s'
      = stdout s
        ++ concat (zip_with
                     (λ (x : slot) s0,
                        option_list
                          ((λ e, str "Error fetching place info for "
                                 ++ activity_name x.1.1 ++ str ": " ++ exn_msg e)
                             <$> lookup_exception c x.1.1 s0))
                     (plan_slots plan) (trace c (plan_slots plan) s))
    ∧ (c = None → stdout s' = stdout s).
Proof.
  rewrite extract_places_visit. eexists _, _. split; [reflexivity|].
  cbn [snd]. split; [apply visit_prints|].
  intros ->. apply visit_prints_nothing.
Qed.

(** X13 at the plan of Paris with the client without network, and at the
    Louvre with a client that answers a text: a line for each lookup that
    raises, with the text of its exception. *)
Lemma X13_prints_only_failed_lookups_witness :
  (∃ places s',
     extract_places_from_plan (Some paris_plan) (Some offline_client) start
       = (Ok places, s')
     ∧ stdout s'
       = [ str "Error fetching place info for Louvre: network unreachable";
           str "Error fetching place info for Versailles: network unreachable" ])
  ∧ (∃ places s',
       extract_places_from_plan (Some louvre_plan) (Some garbled_client) start
         = (Ok places, s')
       ∧ stdout s'
         = [ str "Error fetching place info for Louvre: 'str' object has no attribute 'get'" ]).
Proof.
  split.
  - destruct (X13_prints_only_failed_lookups (Some offline_client)
                (Some paris_plan) start) as (places & s' & Hextract & Hout & _).
    exists places, s'. split; [exact Hextract|]. rewrite Hout.
    vm_compute. reflexivity.
  - destruct (X13_prints_only_failed_lookups (Some garbled_client)
                (Some louvre_plan) start) as (places & s' & Hextract & Hout & _).
    exists places, s'. split; [exact Hextract|]. rewrite Hout.
    vm_compute. reflexivity.
Defined.
